(** * Competition application pipeline: a shallow embedding

    The Python sources modelled here are
    - [src/api/monica_client.py]         (class [MonicaClient]),
    - [src/scraper/web_scraper.py]       (classes [ScrapingResult], [WebScraper]),
    - [src/scraper/content_parser.py]    (classes [ParsedCompetitionInfo], [ContentParser]),
    - [src/workflow/workflow_execution.py] (class [WorkflowExecutor]),
    - [src/workflow/scrape_website.py]   (class [CompetitionScraper]),
    - [src/run_workflow.py]              (function [main]).

    Conventions.
    - A Python [int] is a [Z]; a Python [float] is a binary64 [float] of the
      kernel, so float arithmetic rounds exactly as CPython's does.
    - A Python [str] is a [string]: a sequence of characters, one [ascii] per
      code point, which covers the code points U+0000 to U+00FF.
    - A JSON document / Python object graph is a [pyval]; a [dict] with string
      keys that is only looked up is a [gmap string pyval].
    - Code that raises, sleeps, reads the clock, talks to the network or
      mutates an object runs in the monad [M]: a world is threaded through and
      an exception is a result of its own.
    - Log records and console output are left out. The calls of
      [self.logger] and of [print] hand nothing back to the code, and what
      the handlers of [setup_logging] append to the console and to
      [logs/workflow.log] is read by no stage. The events of a trace are the
      requests, the fetches of the browser, the sleeps, the readings of the
      clock, the random draws and the accesses to the files of the pipeline;
      [files] holds those files, not the log. A statement on what a run does
      or leaves undone is a statement on these. *)

From Stdlib Require Import ZArith Floats String Ascii List Lia Bool.
From stdpp Require Import gmap strings list pretty.

Set Warnings "-inexact-float,-register-all".
Local Open Scope string_scope.
Local Open Scope nat_scope.
Local Open Scope list_scope.

(* ================================================================== *)
(** * Python values and exceptions *)
(* ================================================================== *)

Inductive pyval :=
| PNone
| PBool (b : bool)
| PInt (z : Z)
| PFloat (f : float)
| PStr (s : string)
| PList (l : list pyval)
| PDict (d : gmap string pyval).

(** The exception classes the modelled code can meet. [RequestException] is
    the base class of [Timeout] and [ConnectionError] in [requests];
    [TimeoutException] derives from [WebDriverException] in selenium. *)
Inductive exn_class :=
| TypeError | AttributeError | KeyError | IndexError | ValueError | OverflowError
| FileNotFoundError | OSError
| RequestsTimeout | RequestsConnectionError | RequestException
| TimeoutException | WebDriverException
| JSONDecodeError
| GenericException.

Record exn := Exn { exn_class_of : exn_class; exn_msg : string }.

Inductive result (A : Type) :=
| Ok (a : A)
| Raise (e : exn).
Arguments Ok {A} a.
Arguments Raise {A} e.

(** [bool(v)]: Python truthiness. *)
Definition truthy (v : pyval) : bool :=
  match v with
  | PNone => false
  | PBool b => b
  | PInt z => negb (z =? 0)%Z
  | PFloat f => negb (PrimFloat.eqb f 0%float)
  | PStr s => negb (String.eqb s "")
  | PList l => match l with [] => false | _ => true end
  | PDict d => negb (bool_decide (d = ∅))
  end.

(** [type(v).__name__], as the interpreter's messages spell it. *)
Definition py_type_name (v : pyval) : string :=
  match v with
  | PNone => "NoneType"
  | PBool _ => "bool"
  | PInt _ => "int"
  | PFloat _ => "float"
  | PStr _ => "str"
  | PList _ => "list"
  | PDict _ => "dict"
  end.

(** [str(v)] for the values that the code formats into messages: a string is
    itself and [None] is the text [None]. *)
Definition str_of_optional (o : option string) : string :=
  match o with
  | Some s => s
  | None => "None"
  end.

(* ------------------------------------------------------------------ *)
(** ** String methods *)
(* ------------------------------------------------------------------ *)

(** [c.isspace()] on U+0000..U+00FF: TAB..CR, FS..US, SPACE, NEL, NBSP. *)
Definition is_py_space (c : ascii) : bool :=
  let n := nat_of_ascii c in
  ((9 <=? n) && (n <=? 13)) || ((28 <=? n) && (n <=? 32)) || (n =? 133) || (n =? 160).

(** [c.lower()] on U+0000..U+00FF: A..Z, and the accented capitals U+00C0..U+00DE
    without the multiplication sign U+00D7, move up by 32. *)
Definition py_lower_char (c : ascii) : ascii :=
  let n := nat_of_ascii c in
  if ((65 <=? n) && (n <=? 90)) || ((192 <=? n) && (n <=? 222) && negb (n =? 215))
  then ascii_of_nat (n + 32)
  else c.

Fixpoint py_lower (s : string) : string :=
  match s with
  | EmptyString => EmptyString
  | String c s' => String (py_lower_char c) (py_lower s')
  end.

Fixpoint py_lstrip (s : string) : string :=
  match s with
  | EmptyString => EmptyString
  | String c s' => if is_py_space c then py_lstrip s' else s
  end.

Fixpoint py_rstrip (s : string) : string :=
  match s with
  | EmptyString => EmptyString
  | String c s' =>
      match py_rstrip s' with
      | EmptyString => if is_py_space c then EmptyString else String c EmptyString
      | r => String c r
      end
  end.

(** [s.strip()] *)
Definition py_strip (s : string) : string := py_rstrip (py_lstrip s).

(** [needle in hay] for two strings. *)
Fixpoint str_contains (needle hay : string) : bool :=
  if String.prefix needle hay then true
  else match hay with
       | EmptyString => false
       | String _ hay' => str_contains needle hay'
       end.

(** [min(a, b)] on integers: Python returns the first of the smallest. *)
Definition py_min (a b : Z) : Z := if (b <? a)%Z then b else a.

(* ================================================================== *)
(** * The world the program runs in *)
(* ================================================================== *)

(** ** Records of the scraper that live on the heap *)

Module ScrapingResult.
(** [@dataclass class ScrapingResult] of web_scraper.py. The dataclass is not
    frozen: instances are heap objects and their attributes can be assigned. *)
Record t := mk {
  url : string;
  success : bool;
  content : option string;
  title : option string;
  meta_description : option string;
  links : option (list string);
  images : option (list string);
  error_message : option string;
  scraping_method : option string;
  timestamp : option string
}.

Definition with_error_message (r : t) (m : option string) : t :=
  mk (url r) (success r) (content r) (title r) (meta_description r)
     (links r) (images r) m (scraping_method r) (timestamp r).
End ScrapingResult.

(** A reference to a [ScrapingResult] object: its address on the heap. *)
Abbreviation ref := nat.

(** ** What the outside answers *)

Module Response.
(** What the code reads of a [requests.Response]: [status_code],
    [json()] (which may raise) and [text]. *)
Record t := mk { status_code : Z; json : result pyval; text : string }.
End Response.

(** What BeautifulSoup and [_extract_content_from_soup] hand back for a page:
    the cleaned text, title, meta description, and all links and images
    already resolved with [urljoin]. *)
Record page := Page {
  page_content : string;
  page_title : option string;
  page_meta_description : option string;
  page_links : list string;
  page_images : list string
}.

(** An argument of [time.sleep]: an [int] or a [float] number of seconds, or
    an object that a configuration put where a number is expected (a list,
    a text, [None], ...). *)
Inductive seconds :=
| SecInt (z : Z)
| SecFloat (f : float)
| SecObject (v : pyval).

Definition sleep_negative : exn := Exn ValueError "sleep length must be non-negative".

Definition sleep_overflow : exn :=
  Exn OverflowError "timestamp too large to convert to C _PyTime_t".

(** What [time.sleep] (CPython 3.11, [_PyTime_FromSecondsObject]) does with an
    [int]: the seconds are multiplied by [10^9] into a signed 64-bit count of
    nanoseconds, which overflows beyond 9223372036 seconds on either side;
    the sign is looked at after that. *)
Definition sleep_error_int (z : Z) : option exn :=
  if ((z <? -9223372036) || (9223372036 <? z))%Z then Some sleep_overflow
  else if (z <? 0)%Z then Some sleep_negative
  else None.

(** With a [float]: NaN is refused first; the product with [1e9], a double,
    is then checked against the 64-bit range, both ends included, and
    converted; the sign is looked at last. The product that is exactly
    [2^63] passes the check but does not fit: the conversion is undefined
    in C and yields the most negative count on x86-64, so that the duration
    is refused as a negative one. *)
Definition sleep_error_float (f : float) : option exn :=
  if PrimFloat.is_nan f then Some (Exn ValueError "Invalid value NaN (not a number)")
  else
    let ns := (f * 1e9)%float in
    if PrimFloat.leb (-9223372036854775808)%float ns
       && PrimFloat.leb ns 9223372036854775808%float
    then
      if PrimFloat.ltb f 0%float || PrimFloat.eqb ns 9223372036854775808%float
      then Some sleep_negative
      else None
    else Some sleep_overflow.

(** The exception that [time.sleep(d)] raises before it sleeps, if any. A
    [bool] is an [int]; an object that is no number is a [TypeError]. *)
Definition sleep_error (d : seconds) : option exn :=
  match d with
  | SecInt z => sleep_error_int z
  | SecFloat f => sleep_error_float f
  | SecObject (PInt z) => sleep_error_int z
  | SecObject (PFloat f) => sleep_error_float f
  | SecObject (PBool _) => None
  | SecObject v =>
      Some (Exn TypeError
              ("'" +:+ py_type_name v +:+ "' object cannot be interpreted as an integer"))
  end.

(** The effects the code has on the outside, in the order they happen. *)
Inductive event :=
| EvPost (target : string) (prompt : string)   (* requests.post *)
| EvGet (target : string)                      (* session.get *)
| EvBrowse (target : string)                   (* selenium: driver.get ... page_source *)
| EvSleep (d : seconds)                        (* time.sleep *)
| EvClock                                      (* time.time(), datetime.now() *)
| EvRandom                                     (* random.uniform *)
| EvRead (path : string)
| EvWrite (path : string)
| EvMkdir (path : string).

(** The outside as an oracle: each answer may depend on everything that has
    happened so far. The last four are library functions, pure but not part
    of the repository. *)
Record env := Env {
  env_post : list event -> string -> string -> result Response.t;
  env_get : list event -> string -> result page;
  env_browse : list event -> string -> result page;
  env_time : list event -> float;
  env_now : list event -> string;
  env_uniform : list event -> float -> float -> float;
  env_io_error : list event -> option exn;
  env_urlparse : string -> result (string * string);
  env_json_dumps : pyval -> string;
  env_json_loads : string -> result pyval;
  env_repr : pyval -> string
}.

Record world := World {
  trace : list event;
  heap : list ScrapingResult.t;
  files : gmap string string
}.

Definition emit (ev : event) (w : world) : world :=
  World (trace w ++ [ev]) (heap w) (files w).

Definition emit_all (evs : list event) (w : world) : world :=
  World (trace w ++ evs) (heap w) (files w).

(** ** The monad of effectful code *)

Definition M (A : Type) : Type := world -> result A * world.

#[global] Instance M_ret : MRet M := fun A a w => (Ok a, w).
#[global] Instance M_bind : MBind M := fun A B k m w =>
  match m w with
  | (Ok a, w') => k a w'
  | (Raise e, w') => (Raise e, w')
  end.

Definition raise {A} (e : exn) : M A := fun w => (Raise e, w).

Definition lift {A} (r : result A) : M A := fun w => (r, w).

(** [try: body except <classes> as e: handler e]. A handler that does not
    apply ([None]) lets the exception through. Effects of the body stay. *)
Definition try_except {A} (body : M A) (handler : exn -> option (M A)) : M A :=
  fun w =>
    match body w with
    | (Ok a, w') => (Ok a, w')
    | (Raise e, w') =>
        match handler e with
        | Some h => h w'
        | None => (Raise e, w')
        end
    end.

(** [for i in indices: body i], where the body either returns from the
    enclosing function ([Some v]) or falls through to the next round. *)
Fixpoint for_each {I A} (indices : list I) (body : I -> M (option A)) : M (option A) :=
  match indices with
  | [] => mret None
  | i :: rest =>
      r ← body i;
      match r with
      | Some v => mret (Some v)
      | None => for_each rest body
      end
  end.

(** [range(n)] *)
Definition py_range (n : Z) : list Z := Z.of_nat <$> seq 0 (Z.to_nat n).

(** ** Primitive operations *)

(** [requests.post(url, headers=..., json=data, verify=False, timeout=60)]:
    a response, or the exception the library raises. *)
Definition requests_post (e : env) (target prompt : string) : M Response.t :=
  fun w => (env_post e (trace w) target prompt, emit (EvPost target prompt) w).

(** The request and the parse of [scrape_static_content]:
    [self.session.get(...)], [response.raise_for_status()], [BeautifulSoup],
    [_extract_content_from_soup], title, meta description, links and images.
    The outside decides what comes of them: the parts of the page, or the
    exception raised on the way. *)
Definition session_get_and_parse (e : env) (target : string) : M page :=
  fun w => (env_get e (trace w) target, emit (EvGet target) w).

(** The same for [scrape_dynamic_content]: the driver is started if need be,
    the page is loaded and waited for, and the rendered DOM is parsed. *)
Definition browser_render_and_parse (e : env) (target : string) : M page :=
  fun w => (env_browse e (trace w) target, emit (EvBrowse target) w).

(** [time.time()] *)
Definition time_time (e : env) : M float :=
  fun w => (Ok (env_time e (trace w)), emit EvClock w).

(** [datetime.now().isoformat()] *)
Definition datetime_now_isoformat (e : env) : M string :=
  fun w => (Ok (env_now e (trace w)), emit EvClock w).

(** [random.uniform(a, b)] *)
Definition random_uniform (e : env) (a b : float) : M float :=
  fun w => (Ok (env_uniform e (trace w) a b), emit EvRandom w).

(** [time.sleep(d)]: the argument is checked, then the process sleeps. (A
    duration of some 292 years that passes the checks can still be refused
    by the operating system, with an [OSError], when the deadline counted
    from the monotonic clock leaves the 64-bit range: where that begins
    depends on the uptime of the machine. The statements below that need a
    sleep to succeed bound its duration far below that.) *)
Definition time_sleep (d : seconds) : M unit :=
  fun w =>
    match sleep_error d with
    | Some x => (Raise x, w)
    | None => (Ok tt, emit (EvSleep d) w)
    end.

(** [ScrapingResult(...)]: a fresh object at the end of the heap. *)
Definition new_ScrapingResult (o : ScrapingResult.t) : M ref :=
  fun w => (Ok (length (heap w)), World (trace w) (heap w ++ [o]) (files w)).

(** [r.error_message = m]: assignment to an attribute, in place. *)
Definition set_error_message (r : ref) (m : option string) : M unit :=
  fun w =>
    match heap w !! r with
    | Some o =>
        (Ok tt, World (trace w) (<[r := ScrapingResult.with_error_message o m]> (heap w)) (files w))
    | None => (Raise (Exn GenericException "dangling reference"), w)
    end.

(** The file system: a map from paths to texts; the outside decides whether
    an operation fails. [path.mkdir(parents=True, exist_ok=True)]: *)
Definition mkdir (e : env) (path : string) : M unit :=
  fun w =>
    match env_io_error e (trace w) with
    | Some x => (Raise x, emit (EvMkdir path) w)
    | None => (Ok tt, emit (EvMkdir path) w)
    end.

(** [with open(path, 'w', encoding='utf-8') as f: f.write(data)] *)
Definition write_file (e : env) (path data : string) : M unit :=
  fun w =>
    match env_io_error e (trace w) with
    | Some x => (Raise x, emit (EvWrite path) w)
    | None =>
        (Ok tt, World (trace w ++ [EvWrite path]) (heap w) (<[path := data]> (files w)))
    end.

(** [path.exists()] *)
Definition path_exists (path : string) : M bool :=
  fun w => (Ok (bool_decide (is_Some (files w !! path))), w).

(** [with open(path, 'r', encoding='utf-8') as f: f.read()] *)
Definition read_file (e : env) (path : string) : M string :=
  fun w =>
    match files w !! path with
    | None => (Raise (Exn FileNotFoundError path), emit (EvRead path) w)
    | Some data =>
        match env_io_error e (trace w) with
        | Some x => (Raise x, emit (EvRead path) w)
        | None => (Ok data, emit (EvRead path) w)
        end
    end.

(** [Path(a) / b] *)
Definition path_join (a b : string) : string := a +:+ "/" +:+ b.

(** The pure error monad, for code that only computes or raises. *)
#[global] Instance result_ret : MRet result := fun A a => Ok a.
#[global] Instance result_bind : MBind result := fun A B k r =>
  match r with
  | Ok a => k a
  | Raise e => Raise e
  end.

(* ------------------------------------------------------------------ *)
(** ** Operations on Python values *)
(* ------------------------------------------------------------------ *)

(** The exception for [v.name] when the type of [v] has no such attribute. *)
Definition no_attribute (v : pyval) (name : string) : exn :=
  Exn AttributeError ("'" +:+ py_type_name v +:+ "' object has no attribute '" +:+ name +:+ "'").

(** The exception for [v[i]] when the type of [v] has no [__getitem__]. *)
Definition not_subscriptable (v : pyval) : exn :=
  Exn TypeError ("'" +:+ py_type_name v +:+ "' object is not subscriptable").

(** [v.get(key, default)]: only a [dict] has the method. *)
Definition py_dict_get (v : pyval) (key : string) (dflt : pyval) : result pyval :=
  match v with
  | PDict d => Ok (default dflt (d !! key))
  | _ => Raise (no_attribute v "get")
  end.

(** [v[0]] *)
Definition py_getitem_0 (v : pyval) : result pyval :=
  match v with
  | PList (x :: _) => Ok x
  | PList [] => Raise (Exn IndexError "list index out of range")
  | PStr (String c _) => Ok (PStr (String c EmptyString))
  | PStr EmptyString => Raise (Exn IndexError "string index out of range")
  | PDict _ => Raise (Exn KeyError "0")
  | _ => Raise (not_subscriptable v)
  end.

(** [key in v] for a string [key]. *)
Definition py_in (key : string) (v : pyval) : result bool :=
  match v with
  | PDict d => Ok (bool_decide (is_Some (d !! key)))
  | PStr s => Ok (str_contains key s)
  | PList l => Ok (existsb (fun x => match x with PStr s => String.eqb s key | _ => false end) l)
  | _ => Raise (Exn TypeError ("argument of type '" +:+ py_type_name v +:+ "' is not iterable"))
  end.

(** [v[key]] for a string [key]. The text of a [KeyError] is the [repr] of
    the key: the key between quotes, for a key without quotes or escapes. *)
Definition py_getitem_str (v : pyval) (key : string) : result pyval :=
  match v with
  | PDict d =>
      match d !! key with
      | Some x => Ok x
      | None => Raise (Exn KeyError ("'" +:+ key +:+ "'"))
      end
  | PStr _ => Raise (Exn TypeError "string indices must be integers, not 'str'")
  | PList _ => Raise (Exn TypeError "list indices must be integers or slices, not str")
  | _ => Raise (not_subscriptable v)
  end.

(** [len(v)] *)
Definition py_len (v : pyval) : result nat :=
  match v with
  | PStr s => Ok (String.length s)
  | PList l => Ok (length l)
  | PDict d => Ok (size d)
  | _ => Raise (Exn TypeError ("object of type '" +:+ py_type_name v +:+ "' has no len()"))
  end.

(* ================================================================== *)
(** * api/monica_client.py *)
(* ================================================================== *)

Module MonicaClient.

(** The attributes set by [__init__] that the calls read. *)
Record t := mk { base_url : string; api_key : string; model : string }.

(** [calculate_backoff_delay(self, attempt, base_delay, max_delay=300)].
    [attempt] is an index of [range(retry_attempts)], hence not negative
    (for a negative exponent Python's [**] leaves the integers). *)
Definition calculate_backoff_delay (attempt base_delay max_delay : Z) : Z :=
  let delay := (base_delay * 2 ^ attempt)%Z in
  py_min delay max_delay.

Definition default_max_delay : Z := 300.

(** [result.get('choices', [{}])[0].get('message', {}).get('content')] *)
Definition first_choice_content (body : pyval) : result pyval :=
  choices ← py_dict_get body "choices" (PList [PDict ∅]);
  first ← py_getitem_0 choices;
  message ← py_dict_get first "message" (PDict ∅);
  py_dict_get message "content" PNone.

(** [url = f"{self.base_url}/chat/completions"] *)
Definition endpoint (self : t) : string := base_url self +:+ "/chat/completions".

(** No method of the class, but lines 112 to 114 of [call_api] taken
    together, [response.json()], the chain of [get] and the test
    [if content]: the content that a 200 hands to the caller, when all three
    go through. *)
Definition carried_content (response : Response.t) : option pyval :=
  match Response.json response with
  | Ok body =>
      match first_choice_content body with
      | Ok content => if truthy content then Some content else None
      | Raise _ => None
      end
  | Raise _ => None
  end.

(** What one round of the loop decides inside its [try]: [Some r] is a
    [return r] from [call_api], [None] falls through to the backoff. The
    three [except] clauses (Timeout, ConnectionError, Exception) only log.
    The request body also carries [temperature] and [max_tokens], which no
    branch reads. *)
Definition call_api_attempt (e : env) (self : t) (prompt : string) (start_time : float)
  : M (option (option pyval * float)) :=
  try_except
    (response ← requests_post e (endpoint self) prompt;
     let status_code := Response.status_code response in
     if (status_code =? 200)%Z then
       body ← lift (Response.json response);
       content ← lift (first_choice_content body);
       if truthy content then
         now ← time_time e;
         mret (Some (Some content, (now - start_time)%float))
       else mret None
     else if (status_code =? 429)%Z then mret None
     else if (500 <=? status_code)%Z then mret None
     else if (400 <=? status_code)%Z && (status_code <? 500)%Z then
       now ← time_time e;
       mret (Some (None, (now - start_time)%float))
     else mret None)
    (fun _ => Some (mret None)).

(** The body of [for attempt in range(retry_attempts)]: the [try], then the
    backoff sleep, which stands outside the [try]. *)
Definition call_api_iteration (e : env) (self : t) (prompt : string)
    (retry_attempts retry_delay : Z) (start_time : float) (attempt : Z)
  : M (option (option pyval * float)) :=
  r ← call_api_attempt e self prompt start_time;
  match r with
  | Some v => mret (Some v)
  | None =>
      (if (attempt <? retry_attempts - 1)%Z
       then time_sleep (SecInt (calculate_backoff_delay attempt retry_delay default_max_delay))
       else mret tt);;
      mret None
  end.

(** [call_api(self, prompt, retry_attempts=3, retry_delay=5, ...)]: the
    content, or [None], with the elapsed seconds. *)
Definition call_api (e : env) (self : t) (prompt : string) (retry_attempts retry_delay : Z)
  : M (option pyval * float) :=
  start_time ← time_time e;
  r ← for_each (py_range retry_attempts)
        (call_api_iteration e self prompt retry_attempts retry_delay start_time);
  match r with
  | Some v => mret v
  | None =>
      now ← time_time e;
      mret (None, (now - start_time)%float)
  end.

(** [complete(self, prompt, retry_attempts=3, retry_delay=5, ...)] *)
Definition complete (e : env) (self : t) (prompt : string) (retry_attempts retry_delay : Z)
  : M pyval :=
  r ← call_api e self prompt retry_attempts retry_delay;
  match fst r with
  | None =>
      raise (Exn GenericException
               ("Monica API call failed after " +:+ pretty retry_attempts +:+ " attempts"))
  | Some content => mret content
  end.

End MonicaClient.

(* ================================================================== *)
(** * scraper/web_scraper.py *)
(* ================================================================== *)

Module WebScraper.
Import ScrapingResult.

(** [self.request_delay], as [_random_delay] tells the cases apart: a tuple,
    taken to hold two numbers as the default [(2, 5)] does, is a range for
    [random.uniform]; anything else goes to [time.sleep] as it is, be it a
    number or, say, the list that a JSON or YAML configuration gives for a
    pair. *)
Inductive request_delay_t :=
| DelayRange (lo hi : float)
| DelayFixed (d : seconds).

(** The configuration read by the scraping methods. ([timeout] and
    [user_agents] only shape the request that the outside answers.) *)
Record t := mk { request_delay : request_delay_t; max_retries : Z }.

(** The defaults of [__init__]: [request_delay = (2, 5)], [max_retries = 3]. *)
Definition default_config : t := mk (DelayRange 2 5) 3.

Definition _random_delay (e : env) (self : t) : M unit :=
  delay ← match request_delay self with
          | DelayRange lo hi => d ← random_uniform e lo hi; mret (SecFloat d)
          | DelayFixed d => mret d
          end;
  time_sleep delay.

(** [except requests.exceptions.RequestException] *)
Definition is_RequestException (x : exn) : bool :=
  match exn_class_of x with
  | RequestsTimeout | RequestsConnectionError | RequestException => true
  | _ => false
  end.

Definition failure_result (u : string) (msg : string) (method : option string) (now : string)
  : ScrapingResult.t :=
  ScrapingResult.mk u false None None None None None (Some msg) method (Some now).

(** The [try] block of one round of [scrape_static_content]: the delay before
    a retry, the request, the parse, and [return ScrapingResult(...)]. *)
Definition scrape_static_try (e : env) (self : t) (u : string) (attempt : Z)
  : M (option ref) :=
  (if (0 <? attempt)%Z then _random_delay e self else mret tt);;
  p ← session_get_and_parse e u;
  now ← datetime_now_isoformat e;
  r ← new_ScrapingResult
        (ScrapingResult.mk u true (Some (page_content p)) (page_title p)
           (page_meta_description p)
           (Some (take 50 (page_links p))) (Some (take 20 (page_images p)))
           None (Some "static") (Some now));
  mret (Some r).

(** Its two [except] clauses: [RequestException] returns a failure on the
    last round only, any other [Exception] returns one at once. *)
Definition scrape_static_except (e : env) (self : t) (u : string) (attempt : Z) (x : exn)
  : M (option ref) :=
  if is_RequestException x then
    if (attempt =? max_retries self - 1)%Z then
      now ← datetime_now_isoformat e;
      r ← new_ScrapingResult
            (failure_result u
               ("Static scraping failed after " +:+ pretty (max_retries self)
                  +:+ " attempts: " +:+ exn_msg x)
               (Some "static") now);
      mret (Some r)
    else mret None
  else
    now ← datetime_now_isoformat e;
    r ← new_ScrapingResult
          (failure_result u ("Unexpected error: " +:+ exn_msg x) (Some "static") now);
    mret (Some r).

(** One round of [for attempt in range(self.max_retries)] of
    [scrape_static_content]: [Some r] is [return r], [None] goes on. *)
Definition scrape_static_attempt (e : env) (self : t) (u : string) (attempt : Z)
  : M (option ref) :=
  try_except (scrape_static_try e self u attempt)
             (fun x => Some (scrape_static_except e self u attempt x)).

(** [scrape_static_content(self, url)]. When the loop ends without a
    [return], the Python function returns [None]. *)
Definition scrape_static_content (e : env) (self : t) (u : string) : M (option ref) :=
  for_each (py_range (max_retries self)) (scrape_static_attempt e self u).

(** The three [except] clauses of [scrape_dynamic_content] differ in the
    message only. *)
Definition dynamic_error_msg (u : string) (x : exn) : string :=
  match exn_class_of x with
  | TimeoutException => "Page load timeout for " +:+ u
  | WebDriverException => "WebDriver error for " +:+ u +:+ ": " +:+ exn_msg x
  | _ => "Unexpected error during dynamic scraping: " +:+ exn_msg x
  end.

(** [scrape_dynamic_content(self, url)] *)
Definition scrape_dynamic_content (e : env) (self : t) (u : string) : M ref :=
  try_except
    (p ← browser_render_and_parse e u;
     now ← datetime_now_isoformat e;
     new_ScrapingResult
       (ScrapingResult.mk u true (Some (page_content p)) (page_title p)
          (page_meta_description p)
          (Some (take 50 (page_links p))) (Some (take 20 (page_images p)))
          None (Some "dynamic") (Some now)))
    (fun x => Some (
       now ← datetime_now_isoformat e;
       new_ScrapingResult (failure_result u (dynamic_error_msg u x) (Some "dynamic") now))).

Definition competition_keywords : list string :=
  [ "competition"; "apply"; "application"; "deadline"; "prize"; "eligibility";
    "requirements"; "submit"; "participants"; "winner"; "startup"; "innovation";
    "entrepreneur"; "funding"; "investment"; "accelerator" ].

(** [sum(1 for keyword in competition_keywords if keyword in content_lower)] *)
Definition keyword_matches (content_lower : string) : nat :=
  sum_list ((fun _ => 1) <$> List.filter (fun keyword => str_contains keyword content_lower)
                                         competition_keywords).

(** [_is_content_sufficient(self, content: Optional[str]) -> bool] *)
Definition _is_content_sufficient (content : option string) : bool :=
  match content with
  | None => false
  | Some c =>
      if negb (truthy (PStr c)) then false
      else if String.length (py_strip c) <? 500 then false
      else
        let content_lower := py_lower c in
        3 <=? keyword_matches content_lower
  end.

(** Attribute access on a value that is a [ScrapingResult] or [None]. *)
Definition expect_object (r : option ref) : M ref :=
  match r with
  | Some l => mret l
  | None => raise (Exn AttributeError "'NoneType' object has no attribute 'success'")
  end.

Definition load (l : ref) : M ScrapingResult.t :=
  fun w =>
    match heap w !! l with
    | Some o => (Ok o, w)
    | None => (Raise (Exn GenericException "dangling reference"), w)
    end.

Definition both_failed_message (static_msg dynamic_msg : option string) : string :=
  "Both static and dynamic scraping failed. Static: " +:+ str_of_optional static_msg
    +:+ ", Dynamic: " +:+ str_of_optional dynamic_msg.

(** [scrape_url(self, url, force_dynamic=False)] *)
Definition scrape_url (e : env) (self : t) (u : string) (force_dynamic : bool) : M ref :=
  parsed_url ← lift (env_urlparse e u);
  if negb (truthy (PStr (fst parsed_url)) && truthy (PStr (snd parsed_url))) then
    now ← datetime_now_isoformat e;
    new_ScrapingResult (failure_result u "Invalid URL format" None now)
  else if force_dynamic then scrape_dynamic_content e self u
  else
    static_result ← scrape_static_content e self u;
    sref ← expect_object static_result;
    s ← load sref;
    if success s && _is_content_sufficient (content s) then mret sref
    else
      dynamic_result ← scrape_dynamic_content e self u;
      d ← load dynamic_result;
      if success d then mret dynamic_result
      else
        s' ← load sref;
        d' ← load dynamic_result;
        set_error_message sref
          (Some (both_failed_message (error_message s') (error_message d')));;
        mret sref.

(** The loop of [scrape_multiple_urls(self, urls)]: [i] is the index that
    [enumerate] counts, [n] is [len(urls)]. *)
Fixpoint scrape_urls_from (e : env) (self : t) (n i : Z) (urls : list string)
    (results : list ref) : M (list ref) :=
  match urls with
  | [] => mret results
  | u :: rest =>
      result ← scrape_url e self u false;
      let results := results ++ [result] in
      (if (i <? n - 1)%Z then _random_delay e self else mret tt);;
      scrape_urls_from e self n (i + 1) rest results
  end.

(** [scrape_multiple_urls(self, urls)] *)
Definition scrape_multiple_urls (e : env) (self : t) (urls : list string) : M (list ref) :=
  scrape_urls_from e self (Z.of_nat (length urls)) 0 urls [].

End WebScraper.

(* ================================================================== *)
(** * scraper/content_parser.py *)
(* ================================================================== *)

Module ParsedCompetitionInfo.
(** [@dataclass class ParsedCompetitionInfo]. The annotations are
    [Optional[...]], and [_dict_to_parsed_info] stores whatever the dictionary
    holds: an attribute is any Python value, [PNone] when absent. *)
Record t := mk {
  name : pyval;
  organizer : pyval;
  partners : pyval;
  application_status : pyval;
  deadline : pyval;
  target_description : pyval;
  eligibility_criteria : pyval;
  stage_preference : pyval;
  industry_focus : pyval;
  innovation_type : pyval;
  prize_fund : pyval;
  benefits : pyval;
  support_offered : pyval;
  explicit_criteria : pyval;
  implied_preferences : pyval;
  confidence_score : pyval;
  parsing_timestamp : pyval;
  raw_content_length : pyval
}.

(** The record with its three metadata attributes at their default, [None]. *)
Definition without_metadata (p : t) : t :=
  mk (name p) (organizer p) (partners p) (application_status p) (deadline p)
     (target_description p) (eligibility_criteria p)
     (stage_preference p) (industry_focus p) (innovation_type p)
     (prize_fund p) (benefits p) (support_offered p)
     (explicit_criteria p) (implied_preferences p)
     PNone PNone PNone.
End ParsedCompetitionInfo.

(** ** Texts and patterns of the parser *)

Definition lf : string := String (ascii_of_nat 10) EmptyString.
Definition dq : string := String (ascii_of_nat 34) EmptyString.

(** [c.upper()] on the characters whose capital is in U+0000..U+00FF: a..z
    and U+00E0..U+00FE without the division sign U+00F7. *)
Definition py_upper_char (c : ascii) : ascii :=
  let n := nat_of_ascii c in
  if ((97 <=? n) && (n <=? 122)) || ((224 <=? n) && (n <=? 254) && negb (n =? 247))
  then ascii_of_nat (n - 32)
  else c.

(** [s.capitalize()]: the first character as a capital, the rest in lower
    case. The code applies it to ASCII keywords only. *)
Definition py_capitalize (s : string) : string :=
  match s with
  | EmptyString => EmptyString
  | String c s' => String (py_upper_char c) (py_lower s')
  end.

(** [response.strip()]: only a [str] has the method here. *)
Definition py_str_strip (v : pyval) : result string :=
  match v with
  | PStr s => Ok (py_strip s)
  | _ => Raise (no_attribute v "strip")
  end.

(** The regular expressions of [parse_with_rules], by the order in which
    the two lists hold them:
    [U+00A3([\d,]+)], [\$([\d,]+)], [U+20AC([\d,]+)], [([\d,]+)\s*pounds?],
    [prize.*?([\d,]+)], [funding.*?([\d,]+)];
    [deadline.*?(DATE)], [apply.*?by.*?(DATE)], [close.*?(DATE)] with
    [DATE = \d{1,2}[\/\-]\d{1,2}[\/\-]\d{2,4}]. *)
Inductive regex :=
| PoundSign | DollarSign | EuroSign | PoundsWord | PrizeWord | FundingWord
| DeadlineDate | ApplyByDate | CloseDate.

(** A match object: [group(0)] and [group(1)]. *)
Record re_match := Match { group0 : string; group1 : string }.

(** [re.search(pattern, content, re.IGNORECASE)]: the regular-expression
    engine is the library's, its answer is given from outside. *)
Definition searcher : Type := regex -> string -> option re_match.

(** [for pattern in patterns: match = re.search(...); if match: ...; break] *)
Fixpoint first_match (re_search : searcher) (patterns : list regex) (content : string)
  : option re_match :=
  match patterns with
  | [] => None
  | pattern :: rest =>
      match re_search pattern content with
      | Some m => Some m
      | None => first_match re_search rest content
      end
  end.

(** [any(phrase in content_lower for phrase in phrases)] *)
Definition any_in (phrases : list string) (content_lower : string) : bool :=
  existsb (fun phrase => str_contains phrase content_lower) phrases.

(** [d[key] = v] when there is a [v], on a dictionary read by key only. *)
Definition set_if_some (key : string) (o : option pyval) (d : gmap string pyval)
  : gmap string pyval :=
  match o with
  | Some v => <[key := v]> d
  | None => d
  end.

Module MonicaAIClient.

(** [complete(self, prompt)]: the call of the wrapped [MonicaClient], with
    its defaults [retry_attempts=3] and [retry_delay=5]; the [except] clause
    logs and raises the exception again. *)
Definition complete (e : env) (self : MonicaClient.t) (prompt : string) : M pyval :=
  try_except (MonicaClient.complete e self prompt 3 5) (fun x => Some (raise x)).

End MonicaAIClient.

Module ContentParser.
Import ParsedCompetitionInfo.

(** The [weights] dictionary of [validate_parsed_data], in its written order
    (the order in which the floats are added). *)
Definition weights : list (string * list (string * float)) :=
  [ ("competition_basic_info",
      [ ("name", 0.15); ("organizer", 0.10); ("application_status", 0.15);
        ("deadline", 0.20) ]);
    ("benefits_and_prizes", [ ("prize_fund", 0.15); ("benefits", 0.10) ]);
    ("target_participants", [ ("criteria", 0.10) ]);
    ("competition_focus", [ ("stage_preference", 0.05) ]) ]%float.

(** The inner loop [for field, weight in fields.items()] over one section
    value; the accumulator is [(score, total_weight)]. *)
Fixpoint score_fields (section_value : pyval) (fields : list (string * float))
    (acc : float * float) : result (float * float) :=
  match fields with
  | [] => Ok acc
  | (field, weight) :: rest =>
      let total_weight := (snd acc + weight)%float in
      present ← py_in field section_value;
      score ← (if (present : bool) then
                 v ← py_getitem_str section_value field;
                 Ok (if truthy v then (fst acc + weight)%float else fst acc)
               else Ok (fst acc));
      score_fields section_value rest (score, total_weight)
  end.

(** The outer loop [for section, fields in weights.items()]. *)
Fixpoint score_sections (parsed_data : gmap string pyval)
    (ws : list (string * list (string * float))) (acc : float * float)
  : result (float * float) :=
  match ws with
  | [] => Ok acc
  | (section, fields) :: rest =>
      match parsed_data !! section with
      | Some section_value =>
          acc' ← score_fields section_value fields acc;
          score_sections parsed_data rest acc'
      | None => score_sections parsed_data rest acc
      end
  end.

(** [min(x, 1.0)] on floats. *)
Definition py_min_float (a b : float) : float := if PrimFloat.ltb b a then b else a.

(** [validate_parsed_data(self, parsed_data: Dict[str, Any]) -> float] *)
Definition validate_parsed_data (parsed_data : gmap string pyval) : result float :=
  acc ← score_sections parsed_data weights (0, 0)%float;
  let score := fst acc in
  let total_weight := snd acc in
  Ok (py_min_float
        (if PrimFloat.ltb 0 total_weight then (score / total_weight)%float else 0%float)
        1%float).

(** [_dict_to_parsed_info(self, data)] *)
Definition _dict_to_parsed_info (data : gmap string pyval) : result ParsedCompetitionInfo.t :=
  let basic := default (PDict ∅) (data !! "competition_basic_info") in
  let target := default (PDict ∅) (data !! "target_participants") in
  let focus := default (PDict ∅) (data !! "competition_focus") in
  let benefits := default (PDict ∅) (data !! "benefits_and_prizes") in
  let criteria := default (PDict ∅) (data !! "evaluation_criteria") in
  a1 ← py_dict_get basic "name" PNone;
  a2 ← py_dict_get basic "organizer" PNone;
  a3 ← py_dict_get basic "partners" PNone;
  a4 ← py_dict_get basic "application_status" PNone;
  a5 ← py_dict_get basic "deadline" PNone;
  a6 ← py_dict_get target "description" PNone;
  a7 ← py_dict_get target "criteria" PNone;
  a8 ← py_dict_get focus "stage_preference" PNone;
  a9 ← py_dict_get focus "industry_focus" PNone;
  a10 ← py_dict_get focus "innovation_type" PNone;
  a11 ← py_dict_get benefits "prize_fund" PNone;
  a12 ← py_dict_get benefits "benefits" PNone;
  a13 ← py_dict_get benefits "support_offered" PNone;
  a14 ← py_dict_get criteria "explicit_criteria" PNone;
  a15 ← py_dict_get criteria "implied_preferences" PNone;
  Ok (ParsedCompetitionInfo.mk a1 a2 a3 a4 a5 a6 a7 a8 a9 a10 a11 a12 a13 a14 a15
        PNone PNone PNone).

(** The dictionary [data] that [save_parsed_info] builds from the record. *)
Definition save_parsed_info_data (parsed_info : ParsedCompetitionInfo.t) : gmap string pyval :=
  {[ "competition_basic_info" :=
       PDict {[ "name" := name parsed_info;
                "organizer" := organizer parsed_info;
                "partners" := partners parsed_info;
                "application_status" := application_status parsed_info;
                "deadline" := deadline parsed_info ]};
     "target_participants" :=
       PDict {[ "description" := target_description parsed_info;
                "criteria" := eligibility_criteria parsed_info ]};
     "competition_focus" :=
       PDict {[ "stage_preference" := stage_preference parsed_info;
                "industry_focus" := industry_focus parsed_info;
                "innovation_type" := innovation_type parsed_info ]};
     "benefits_and_prizes" :=
       PDict {[ "prize_fund" := prize_fund parsed_info;
                "benefits" := benefits parsed_info;
                "support_offered" := support_offered parsed_info ]};
     "evaluation_criteria" :=
       PDict {[ "explicit_criteria" := explicit_criteria parsed_info;
                "implied_preferences" := implied_preferences parsed_info ]};
     "metadata" :=
       PDict {[ "confidence_score" := confidence_score parsed_info;
                "parsing_timestamp" := parsing_timestamp parsed_info;
                "raw_content_length" := raw_content_length parsed_info ]} ]}.

(** [save_parsed_info(self, parsed_info, output_path)]: [json.dump] of [data]. *)
Definition save_parsed_info (e : env) (parsed_info : ParsedCompetitionInfo.t)
    (output_path : string) : M unit :=
  write_file e output_path (env_json_dumps e (PDict (save_parsed_info_data parsed_info))).

(** [generate_extraction_prompt(self, content)]: the f-string, line by line. *)
Definition generate_extraction_prompt (content : string) : string :=
  "## Task: Extract structured competition information from website content" +:+ lf +:+
  lf +:+
  "### Input Content:" +:+ lf +:+
  content +:+ lf +:+
  lf +:+
  "### Extraction Requirements:" +:+ lf +:+
  "Please analyze the above content and extract the following structured information in JSON format:" +:+ lf +:+
  lf +:+
  "{" +:+ lf +:+
  "  " +:+ dq +:+ "competition_basic_info" +:+ dq +:+ ": {" +:+ lf +:+
  "    " +:+ dq +:+ "name" +:+ dq +:+ ": " +:+ dq +:+ "Competition name (or null if not found)" +:+ dq +:+ "," +:+ lf +:+
  "    " +:+ dq +:+ "organizer" +:+ dq +:+ ": " +:+ dq +:+ "Main organizing body (or null if not found)" +:+ dq +:+ "," +:+ lf +:+
  "    " +:+ dq +:+ "partners" +:+ dq +:+ ": [" +:+ dq +:+ "Partner 1" +:+ dq +:+ ", " +:+ dq +:+ "Partner 2" +:+ dq +:+ "] or null," +:+ lf +:+
  "    " +:+ dq +:+ "application_status" +:+ dq +:+ ": " +:+ dq +:+ "Current status: open/closed/upcoming (or null if unclear)" +:+ dq +:+ "," +:+ lf +:+
  "    " +:+ dq +:+ "deadline" +:+ dq +:+ ": " +:+ dq +:+ "Application deadline in any format found (or null if not mentioned)" +:+ dq +:+ lf +:+
  "  }," +:+ lf +:+
  "  " +:+ dq +:+ "target_participants" +:+ dq +:+ ": {" +:+ lf +:+
  "    " +:+ dq +:+ "description" +:+ dq +:+ ": " +:+ dq +:+ "Overall description of target participants (or null)" +:+ dq +:+ "," +:+ lf +:+
  "    " +:+ dq +:+ "criteria" +:+ dq +:+ ": [" +:+ dq +:+ "Eligibility criterion 1" +:+ dq +:+ ", " +:+ dq +:+ "Eligibility criterion 2" +:+ dq +:+ "] or null" +:+ lf +:+
  "  }," +:+ lf +:+
  "  " +:+ dq +:+ "competition_focus" +:+ dq +:+ ": {" +:+ lf +:+
  "    " +:+ dq +:+ "stage_preference" +:+ dq +:+ ": " +:+ dq +:+ "Preferred project stage: idea/MVP/prototype/seed/etc (or null)" +:+ dq +:+ "," +:+ lf +:+
  "    " +:+ dq +:+ "industry_focus" +:+ dq +:+ ": [" +:+ dq +:+ "Industry 1" +:+ dq +:+ ", " +:+ dq +:+ "Industry 2" +:+ dq +:+ "] or null," +:+ lf +:+
  "    " +:+ dq +:+ "innovation_type" +:+ dq +:+ ": " +:+ dq +:+ "Type of innovation preferred (or null)" +:+ dq +:+ lf +:+
  "  }," +:+ lf +:+
  "  " +:+ dq +:+ "benefits_and_prizes" +:+ dq +:+ ": {" +:+ lf +:+
  "    " +:+ dq +:+ "prize_fund" +:+ dq +:+ ": " +:+ dq +:+ "Total prize amount with currency (or null if not mentioned)" +:+ dq +:+ "," +:+ lf +:+
  "    " +:+ dq +:+ "benefits" +:+ dq +:+ ": [" +:+ dq +:+ "Benefit 1" +:+ dq +:+ ", " +:+ dq +:+ "Benefit 2" +:+ dq +:+ "] or null," +:+ lf +:+
  "    " +:+ dq +:+ "support_offered" +:+ dq +:+ ": [" +:+ dq +:+ "Support type 1" +:+ dq +:+ ", " +:+ dq +:+ "Support type 2" +:+ dq +:+ "] or null" +:+ lf +:+
  "  }," +:+ lf +:+
  "  " +:+ dq +:+ "evaluation_criteria" +:+ dq +:+ ": {" +:+ lf +:+
  "    " +:+ dq +:+ "explicit_criteria" +:+ dq +:+ ": [" +:+ dq +:+ "Stated evaluation criterion 1" +:+ dq +:+ ", " +:+ dq +:+ "Criterion 2" +:+ dq +:+ "] or null," +:+ lf +:+
  "    " +:+ dq +:+ "implied_preferences" +:+ dq +:+ ": [" +:+ dq +:+ "Inferred preference 1" +:+ dq +:+ ", " +:+ dq +:+ "Preference 2" +:+ dq +:+ "] or null" +:+ lf +:+
  "  }" +:+ lf +:+
  "}" +:+ lf +:+
  lf +:+
  "### Extraction Guidelines:" +:+ lf +:+
  "1. Extract information exactly as presented in the source text" +:+ lf +:+
  "2. Use null for any field where information is not clearly available" +:+ lf +:+
  "3. For dates, preserve the original format found in the text" +:+ lf +:+
  "4. For monetary amounts, include the currency symbol/code as written" +:+ lf +:+
  "5. Focus on explicit information; only infer when patterns are very clear" +:+ lf +:+
  "6. If multiple pieces of similar information exist, include the most comprehensive" +:+ lf +:+
  "7. Maintain original terminology and phrasing where possible" +:+ lf +:+
  lf +:+
  "### Output Format:" +:+ lf +:+
  "Respond with ONLY the JSON object, no additional text or explanation.".

(** [parse_with_llm(self, content)]; [self.llm_client] is the client or
    [None], and the result [None] is [PNone]. Both [except] clauses return
    [None]. *)
Definition parse_with_llm (e : env) (llm_client : option MonicaClient.t) (content : string)
  : M pyval :=
  match llm_client with
  | None => mret PNone
  | Some client =>
      try_except
        (let prompt := generate_extraction_prompt content in
         response ← MonicaAIClient.complete e client prompt;
         text ← lift (py_str_strip response);
         lift (env_json_loads e text))
        (fun _ => Some (mret PNone))
  end.

Definition prize_patterns : list regex :=
  [PoundSign; DollarSign; EuroSign; PoundsWord; PrizeWord; FundingWord].

Definition deadline_patterns : list regex := [DeadlineDate; ApplyByDate; CloseDate].

(** The [if]/[elif] chain on the status phrases. *)
Definition detect_status (content_lower : string) : option string :=
  if any_in ["applications closed"; "deadline passed"; "no longer accepting"] content_lower
  then Some "closed"
  else if any_in ["applications open"; "now accepting"; "apply now"] content_lower
  then Some "open"
  else if any_in ["coming soon"; "opening soon"; "applications will open"] content_lower
  then Some "upcoming"
  else None.

Definition benefit_keywords : list string :=
  [ "mentorship"; "networking"; "funding"; "investment"; "support";
    "guidance"; "resources"; "exposure"; "recognition"; "accelerator" ].

(** The list [benefits] that the loop over [benefit_keywords] appends to. *)
Definition found_benefits (content_lower : string) : list string :=
  py_capitalize <$> List.filter (fun keyword => str_contains keyword content_lower)
                                benefit_keywords.

Definition stage_keywords : list (string * list string) :=
  [ ("idea", ["idea stage"; "early idea"; "concept"]);
    ("mvp", ["mvp"; "minimum viable product"; "prototype"]);
    ("seed", ["seed stage"; "early stage"; "startup"]);
    ("growth", ["scaling"; "growth stage"; "expansion"]) ].

(** [for stage, keywords in stage_keywords.items(): if any(...): ...; break] *)
Fixpoint detect_stage (stages : list (string * list string)) (content_lower : string)
  : option string :=
  match stages with
  | [] => None
  | (stage, keywords) :: rest =>
      if any_in keywords content_lower then Some stage
      else detect_stage rest content_lower
  end.

(** [parse_with_rules(self, content)] *)
Definition parse_with_rules (re_search : searcher) (content : string) : gmap string pyval :=
  let content_lower := py_lower content in
  let prize_fund :=
    (fun m => PStr (group0 m)) <$> first_match re_search prize_patterns content in
  let deadline :=
    (fun m => PStr (group1 m)) <$> first_match re_search deadline_patterns content in
  let application_status := PStr <$> detect_status content_lower in
  let benefits := found_benefits content_lower in
  let benefits_entry :=
    match benefits with
    | [] => None
    | _ => Some (PList (PStr <$> take 5 benefits))
    end in
  let stage_preference := PStr <$> detect_stage stage_keywords content_lower in
  {[ "competition_basic_info" :=
       PDict (set_if_some "application_status" application_status
                (set_if_some "deadline" deadline ∅));
     "target_participants" := PDict ∅;
     "competition_focus" := PDict (set_if_some "stage_preference" stage_preference ∅);
     "benefits_and_prizes" :=
       PDict (set_if_some "benefits" benefits_entry
                (set_if_some "prize_fund" prize_fund ∅));
     "evaluation_criteria" := PDict ∅ ]}.

(** The outer loop of [validate_parsed_data] on a value that need not be a
    [dict]: [section in parsed_data], then [parsed_data[section]] (which the
    code evaluates at each field; every section has a field). *)
Fixpoint score_sections_of (parsed_data : pyval)
    (ws : list (string * list (string * float))) (acc : float * float)
  : result (float * float) :=
  match ws with
  | [] => Ok acc
  | (section, fields) :: rest =>
      present ← py_in section parsed_data;
      if (present : bool) then
        section_value ← py_getitem_str parsed_data section;
        acc' ← score_fields section_value fields acc;
        score_sections_of parsed_data rest acc'
      else score_sections_of parsed_data rest acc
  end.

(** [validate_parsed_data] as [parse_content] calls it: on whatever
    [json.loads] has returned. *)
Definition validate_parsed_data_of (parsed_data : pyval) : result float :=
  acc ← score_sections_of parsed_data weights (0, 0)%float;
  let score := fst acc in
  let total_weight := snd acc in
  Ok (py_min_float
        (if PrimFloat.ltb 0 total_weight then (score / total_weight)%float else 0%float)
        1%float).

(** [_dict_to_parsed_info] as [parse_content] calls it: [data.get] is there
    for a [dict] only. *)
Definition _dict_to_parsed_info_of (data : pyval) : result ParsedCompetitionInfo.t :=
  match data with
  | PDict d => _dict_to_parsed_info d
  | _ => Raise (no_attribute data "get")
  end.

(** The three assignments to the attributes of [result] in [parse_content]. *)
Definition with_metadata (p : ParsedCompetitionInfo.t) (confidence timestamp length : pyval)
  : ParsedCompetitionInfo.t :=
  mk (name p) (organizer p) (partners p) (application_status p) (deadline p)
     (target_description p) (eligibility_criteria p)
     (stage_preference p) (industry_focus p) (innovation_type p)
     (prize_fund p) (benefits p) (support_offered p)
     (explicit_criteria p) (implied_preferences p)
     confidence timestamp length.

(** [parse_content(self, content)] *)
Definition parse_content (e : env) (re_search : searcher) (llm_client : option MonicaClient.t)
    (content : string) : M ParsedCompetitionInfo.t :=
  parsed_data ← match llm_client with
                | Some _ => parse_with_llm e llm_client content
                | None => mret PNone
                end;
  let parsed_data :=
    if negb (truthy parsed_data) then PDict (parse_with_rules re_search content)
    else parsed_data in
  confidence ← lift (validate_parsed_data_of parsed_data);
  result ← lift (_dict_to_parsed_info_of parsed_data);
  now ← datetime_now_isoformat e;
  mret (with_metadata result (PFloat confidence) (PStr now)
          (PInt (Z.of_nat (String.length content)))).

(** [save_to_competition_dir(self, parsed_info, competition_name, base_dir)] *)
Definition save_to_competition_dir (e : env) (parsed_info : ParsedCompetitionInfo.t)
    (competition_name base_dir : string) : M unit :=
  let output_dir := path_join (path_join base_dir competition_name) "competition_info" in
  mkdir e output_dir;;
  let output_path := path_join output_dir "parsed_competition_info.json" in
  save_parsed_info e parsed_info output_path.

End ContentParser.

(* ================================================================== *)
(** * workflow/workflow_execution.py *)
(* ================================================================== *)

(** The newline character. *)
Definition nl : string := String (ascii_of_nat 10) EmptyString.

(** [s.replace(old, new)] for a non-empty [old]: every occurrence, left to
    right, without overlap. [skip] counts the characters of a match that are
    still to be dropped. *)
Fixpoint py_replace_go (old new s : string) (skip : nat) : string :=
  match s with
  | EmptyString => EmptyString
  | String c s' =>
      match skip with
      | S k => py_replace_go old new s' k
      | O =>
          if String.prefix old s
          then new +:+ py_replace_go old new s' (String.length old - 1)
          else String c (py_replace_go old new s' 0)
      end
  end.

Definition py_replace (s old new : string) : string := py_replace_go old new s 0.

(** [sep.join(parts)] *)
Fixpoint py_join (sep : string) (parts : list string) : string :=
  match parts with
  | [] => EmptyString
  | [p] => p
  | p :: rest => p +:+ sep +:+ py_join sep rest
  end.

(** [Path(p).name] for a path without a trailing separator: what follows
    the last [/]. *)
Fixpoint path_name_go (acc p : string) : string :=
  match p with
  | EmptyString => acc
  | String c p' =>
      if Ascii.eqb c "/"%char then path_name_go EmptyString p'
      else path_name_go (acc +:+ String c EmptyString) p'
  end.

Definition path_name (p : string) : string := path_name_go EmptyString p.

(** [d[k] = v] on a dictionary whose order of insertion is read later. *)
Definition dict_set (d : list (string * pyval)) (k : string) (v : pyval)
  : list (string * pyval) :=
  if existsb (fun kv => String.eqb (fst kv) k) d
  then List.map (fun kv => if String.eqb (fst kv) k then (k, v) else kv) d
  else d ++ [(k, v)].

Module WorkflowExecutor.

(** The entries of [self.config] that the stages read. *)
Record t := mk {
  input_base : string;
  output_base : string;
  prompt_template : string;
  reference_docs : list (string * list string);
  llm_settings : MonicaClient.t;
  scraper_settings : WebScraper.t
}.

Definition competition_info_dir (self : t) (competition_name : string) : string :=
  path_join (path_join (input_base self) competition_name) "competition_info".

(** [result.content or "No content extracted"] *)
Definition content_or_placeholder (c : option string) : string :=
  match c with
  | Some s => if truthy (PStr s) then s else "No content extracted"
  | None => "No content extracted"
  end.

Definition py_optional_str (o : option string) : pyval :=
  match o with
  | Some s => PStr s
  | None => PNone
  end.

(** [len(x or [])] and [len(x or '')] *)
Definition len_or_empty {A} (o : option (list A)) : Z :=
  Z.of_nat (length (default [] o)).

Definition scraping_metadata (r : ScrapingResult.t) : pyval :=
  PDict {[ "url" := PStr (ScrapingResult.url r);
           "success" := PBool (ScrapingResult.success r);
           "title" := py_optional_str (ScrapingResult.title r);
           "meta_description" := py_optional_str (ScrapingResult.meta_description r);
           "scraping_method" := py_optional_str (ScrapingResult.scraping_method r);
           "timestamp" := py_optional_str (ScrapingResult.timestamp r);
           "error_message" := py_optional_str (ScrapingResult.error_message r);
           "links_count" := PInt (len_or_empty (ScrapingResult.links r));
           "images_count" := PInt (len_or_empty (ScrapingResult.images r));
           "content_length" :=
             PInt (Z.of_nat (String.length (default EmptyString (ScrapingResult.content r)))) ]}.

(** [execute_scraping(self, competition_name, target_url) -> bool] *)
Definition execute_scraping (e : env) (self : t) (competition_name target_url : string)
  : M bool :=
  try_except
    (let output_dir := competition_info_dir self competition_name in
     mkdir e output_dir;;
     result ← WebScraper.scrape_url e (scraper_settings self) target_url false;
     r ← WebScraper.load result;
     if negb (ScrapingResult.success r) then mret false
     else
       write_file e (path_join output_dir "scraped_content.txt")
         (content_or_placeholder (ScrapingResult.content r));;
       write_file e (path_join output_dir "scraping_metadata.json")
         (env_json_dumps e (scraping_metadata r));;
       mret true)
    (fun _ => Some (mret false)).

(** [load_prompt_template(self)] *)
Definition load_prompt_template (e : env) (self : t) : M string :=
  read_file e (prompt_template self).

(** The loop [for file_path in file_list] of [load_reference_docs]. *)
Fixpoint read_category (e : env) (file_list : list string) (category_content : list string)
  : M (list string) :=
  match file_list with
  | [] => mret category_content
  | file_path :: rest =>
      found ← path_exists file_path;
      cc ← (if (found : bool) then
              try_except
                (text ← read_file e file_path;
                 mret (category_content ++ ["## " +:+ path_name file_path +:+ nl +:+ text]))
                (fun _ => Some (mret category_content))
            else mret category_content);
      read_category e rest cc
  end.

(** The loop [for category, file_list in reference_docs.items()]. *)
Fixpoint read_categories (e : env) (cats : list (string * list string))
    (docs : list (string * pyval)) : M (list (string * pyval)) :=
  match cats with
  | [] => mret docs
  | (category, file_list) :: rest =>
      cc ← read_category e file_list [];
      read_categories e rest
        (match cc with
         | [] => docs
         | _ => dict_set docs ("reference_" +:+ category) (PStr (py_join (nl +:+ nl) cc))
         end)
  end.

(** [load_reference_docs(self, competition_name)] *)
Definition load_reference_docs (e : env) (self : t) (competition_name : string)
  : M (list (string * pyval)) :=
  let parsed_info_path :=
    path_join (competition_info_dir self competition_name) "parsed_competition_info.json" in
  let content_path :=
    path_join (competition_info_dir self competition_name) "scraped_content.txt" in
  found ← path_exists parsed_info_path;
  docs ← (if (found : bool) then
            text ← read_file e parsed_info_path;
            v ← lift (env_json_loads e text);
            mret (dict_set [] "competition_info" v)
          else mret []);
  found' ← path_exists content_path;
  docs' ← (if (found' : bool) then
             text ← read_file e content_path;
             mret (dict_set docs "scraped_content" (PStr text))
           else mret docs);
  read_categories e (reference_docs self) docs'.

(** [f"{content}"] *)
Definition py_format (e : env) (v : pyval) : string :=
  match v with
  | PStr s => s
  | _ => env_repr e v
  end.

(** [construct_final_prompt(self, template, reference_docs, competition_name)] *)
Definition construct_final_prompt (e : env) (template : string)
    (docs : list (string * pyval)) (competition_name : string) : M string :=
  let prompt := py_replace template "{COMPETITION_NAME}" competition_name in
  now ← datetime_now_isoformat e;
  let prompt := py_replace prompt "{TIMESTAMP}" now in
  let reference_data :=
    fold_left (fun acc kv => acc +:+ nl +:+ "## " +:+ fst kv +:+ nl +:+ py_format e (snd kv) +:+ nl)
              docs EmptyString in
  let prompt := py_replace prompt "{reference_data}" reference_data in
  let prompt := py_replace prompt "{history_data}" EmptyString in
  mret prompt.

(** The document that [call_llm_for_application] returns from its [except]. *)
Definition fallback_document (error : string) (prompt_length : nat) (now : string) : string :=
  "# Application Generation Failed" +:+ nl +:+ nl +:+
  "An error occurred while generating the application content: " +:+ error +:+ nl +:+ nl +:+
  "**Original prompt length:** " +:+ pretty prompt_length +:+ " characters" +:+ nl +:+
  "**Error timestamp:** " +:+ now +:+ nl +:+ nl +:+
  "Please check the logs for more details and verify your Monica AI configuration." +:+ nl +:+ nl +:+
  "---" +:+ nl +:+
  "*Competition Application Automation System*" +:+ nl.

(** [call_llm_for_application(self, prompt) -> str]. The success log line
    takes [len(application_content)] inside the [try]. *)
Definition call_llm_for_application (e : env) (self : t) (prompt : string) : M pyval :=
  try_except
    (application_content ← MonicaClient.complete e (llm_settings self) prompt 3 5;
     _ ← lift (py_len application_content);
     mret application_content)
    (fun x => Some (
       now ← datetime_now_isoformat e;
       mret (PStr (fallback_document (exn_msg x) (String.length prompt) now)))).

Definition application_path (self : t) (competition_name : string) : string :=
  path_join (path_join (output_base self) competition_name)
            (competition_name +:+ "_application.md").

(** [execute_application_generation(self, competition_name) -> bool] *)
Definition execute_application_generation (e : env) (self : t) (competition_name : string)
  : M bool :=
  try_except
    (template ← load_prompt_template e self;
     docs ← load_reference_docs e self competition_name;
     final_prompt ← construct_final_prompt e template docs competition_name;
     application_content ← call_llm_for_application e self final_prompt;
     mkdir e (path_join (output_base self) competition_name);;
     match application_content with
     | PStr text => write_file e (application_path self competition_name) text
     | _ =>
         write_file e (application_path self competition_name) EmptyString;;
         raise (Exn TypeError "write() argument must be str")
     end;;
     mret true)
    (fun _ => Some (mret false)).

(** [execute_parsing(self, competition_name) -> bool]. [MonicaAIClient]
    wraps a [MonicaClient] built from [llm_settings]. The function logs its
    start; the branch without the file of scraped content logs an error
    before it returns, and so does the [except] clause. *)
Definition execute_parsing (e : env) (re_search : searcher) (self : t)
    (competition_name : string) : M bool :=
  try_except
    (let input_dir := competition_info_dir self competition_name in
     let content_file := path_join input_dir "scraped_content.txt" in
     found ← path_exists content_file;
     if negb found then mret false
     else
       content ← read_file e content_file;
       parsed_info ← ContentParser.parse_content e re_search (Some (llm_settings self)) content;
       ContentParser.save_to_competition_dir e parsed_info competition_name (input_base self);;
       mret true)
    (fun _ => Some (mret false)).

(** What [get_user_inputs] comes to: the pair it returns, [sys.exit(0)]
    after a confirmation that is not a yes, or the [EOFError] of [input()]
    when the input has no line left. *)
Inductive user_inputs :=
| Inputs (competition_name target_url : string)
| Cancelled
| EndOfInput.

(** [while True: x = input(...).strip(); if x: break]: the first line that
    is not blank, stripped, and the lines after it. *)
Fixpoint read_until_nonblank (lines : list string) : option (string * list string) :=
  match lines with
  | [] => None
  | line :: rest =>
      let x := py_strip line in
      if truthy (PStr x) then Some (x, rest) else read_until_nonblank rest
  end.

(** [get_user_inputs(self)] on the lines that [input()] is going to read. *)
Definition get_user_inputs (lines : list string) : user_inputs :=
  match read_until_nonblank lines with
  | None => EndOfInput
  | Some (competition_name, rest) =>
      match read_until_nonblank rest with
      | None => EndOfInput
      | Some (target_url, rest') =>
          let target_url :=
            if negb (String.prefix "http://" target_url || String.prefix "https://" target_url)
            then "https://" +:+ target_url
            else target_url in
          match rest' with
          | [] => EndOfInput
          | line :: _ =>
              let confirm := py_lower (py_strip line) in
              if negb (String.eqb confirm "y" || String.eqb confirm "yes")
              then Cancelled
              else Inputs competition_name target_url
          end
      end
  end.

(** How a call that may leave through [sys.exit] ends. *)
Inductive outcome :=
| Returned (success : bool)
| Exited (status : Z).

(** [execute_complete_workflow(self) -> bool]. [SystemExit] is no
    [Exception] and passes the [except] clause; [EOFError] is one, and the
    clause logs it before it returns [False]. *)
Definition execute_complete_workflow (e : env) (re_search : searcher) (self : t)
    (lines : list string) : M outcome :=
  match get_user_inputs lines with
  | Cancelled => mret (Exited 0)
  | EndOfInput => mret (Returned false)
  | Inputs competition_name target_url =>
      try_except
        (scraped ← execute_scraping e self competition_name target_url;
         if negb scraped then mret (Returned false)
         else
           parsed ← execute_parsing e re_search self competition_name;
           if negb parsed then mret (Returned false)
           else
             generated ← execute_application_generation e self competition_name;
             if negb generated then mret (Returned false)
             else mret (Returned true))
        (fun _ => Some (mret (Returned false)))
  end.

End WorkflowExecutor.

(* ================================================================== *)
(** * run_workflow.py *)
(* ================================================================== *)

(** [sys.exit(main())]: the exit status of the process. The executor is
    built from its configuration before the call. *)
Definition run_workflow_main (e : env) (re_search : searcher) (self : WorkflowExecutor.t)
    (lines : list string) : M Z :=
  try_except
    (o ← WorkflowExecutor.execute_complete_workflow e re_search self lines;
     match o with
     | WorkflowExecutor.Returned true => mret 0%Z
     | WorkflowExecutor.Returned false => mret 1%Z
     | WorkflowExecutor.Exited status => mret status
     end)
    (fun _ => Some (mret 1%Z)).

(* ================================================================== *)
(** * workflow/scrape_website.py *)
(* ================================================================== *)

Module CompetitionScraper.

(** The attributes of the scraper and the entries of its configuration that
    [execute_scraping] reads; [output_directory] is
    [config.get('output_directory', 'input')]. *)
Record t := mk {
  competition_name : string;
  target_url : string;
  output_directory : string;
  scraper_settings : WebScraper.t
}.

(** [get_output_directory(self)] *)
Definition get_output_directory (e : env) (self : t) : M string :=
  let output_dir :=
    path_join (path_join (output_directory self) (competition_name self)) "competition_info" in
  mkdir e output_dir;;
  mret output_dir.

(** [json.dump] of a list of strings. *)
Definition dump_strings (e : env) (l : list string) : string :=
  env_json_dumps e (PList (PStr <$> l)).

(** [save_scraping_result(self, result, output_dir)]. The first two files
    are written as [WorkflowExecutor.execute_scraping] writes them. *)
Definition save_scraping_result (e : env) (result : ScrapingResult.t) (output_dir : string)
  : M unit :=
  write_file e (path_join output_dir "scraped_content.txt")
    (WorkflowExecutor.content_or_placeholder (ScrapingResult.content result));;
  write_file e (path_join output_dir "scraping_metadata.json")
    (env_json_dumps e (WorkflowExecutor.scraping_metadata result));;
  match ScrapingResult.links result with
  | Some (link :: links) =>
      write_file e (path_join output_dir "extracted_links.json")
        (dump_strings e (link :: links))
  | _ => mret tt
  end;;
  match ScrapingResult.images result with
  | Some (image :: images) =>
      write_file e (path_join output_dir "extracted_images.json")
        (dump_strings e (image :: images))
  | _ => mret tt
  end.

(** [execute_scraping(self) -> bool] *)
Definition execute_scraping (e : env) (self : t) : M bool :=
  try_except
    (output_dir ← get_output_directory e self;
     result ← WebScraper.scrape_url e (scraper_settings self) (target_url self) false;
     r ← WebScraper.load result;
     save_scraping_result e r output_dir;;
     mret (ScrapingResult.success r))
    (fun _ => Some (mret false)).

End CompetitionScraper.

(* ================================================================== *)
(** * Notions used to state the properties *)
(* ================================================================== *)

(** ** A small program logic for [M] *)

(** Running [m] from [w] ends in a result and a world that satisfy [Q]. *)
Definition ensures {A} (m : M A) (w : world) (Q : result A -> world -> Prop) : Prop :=
  Q (m w).1 (m w).2.

Definition is_browse (ev : event) : bool :=
  match ev with
  | EvBrowse _ => true
  | _ => false
  end.

Definition is_post (ev : event) : bool :=
  match ev with
  | EvPost _ _ => true
  | _ => false
  end.

Definition is_sleep (ev : event) : bool :=
  match ev with
  | EvSleep _ => true
  | _ => false
  end.

(** [w'] is [w] after some events, none of them a browser fetch, and some
    allocations: no object of [w] has changed and no file has. *)
Definition grows (w w' : world) : Prop :=
  (exists os, heap w' = heap w ++ os)
  /\ (exists evs, trace w' = trace w ++ evs /\ forallb (fun ev => negb (is_browse ev)) evs = true)
  /\ files w' = files w.

(** A reference returned by the static stage started in [w0] denotes the
    object allocated last, and that object is younger than [w0]. *)
Definition fresh_result (w0 : world) (r : option ref) (w : world) : Prop :=
  grows w0 w /\ (forall l, r = Some l -> length (heap w0) <= l /\ S l = length (heap w)).

(** What one round of the static loop guarantees. *)
Definition static_post (self : WebScraper.t) (attempt : Z) (w0 : world)
    (r : result (option ref)) (w : world) : Prop :=
  exists v, r = Ok v /\ fresh_result w0 v w
    /\ (attempt = (WebScraper.max_retries self - 1)%Z -> v <> None).

(** Every object of [h] is in [h'], unchanged. *)
Definition heap_kept (h h' : list ScrapingResult.t) : Prop :=
  forall l o, h !! l = Some o -> h' !! l = Some o.

(** Every object of [h] is in [h'] with every attribute but [error_message]
    unchanged. *)
Definition heap_kept_but_error_message (h h' : list ScrapingResult.t) : Prop :=
  forall l o, h !! l = Some o ->
    exists o', h' !! l = Some o'
      /\ ScrapingResult.with_error_message o' (ScrapingResult.error_message o) = o.

(** [scrape_url] past the URL check, with the static stage already run and
    its result at [sref]: the rest of the function, word for word. *)
Definition after_static (e : env) (self : WebScraper.t) (u : string) (sref : ref) : M ref :=
  s ← WebScraper.load sref;
  if ScrapingResult.success s
     && WebScraper._is_content_sufficient (ScrapingResult.content s)
  then mret sref
  else
    dynamic_result ← WebScraper.scrape_dynamic_content e self u;
    d ← WebScraper.load dynamic_result;
    if ScrapingResult.success d then mret dynamic_result
    else
      s' ← WebScraper.load sref;
      d' ← WebScraper.load dynamic_result;
      set_error_message sref
        (Some (WebScraper.both_failed_message (ScrapingResult.error_message s')
                 (ScrapingResult.error_message d')));;
      mret sref.

(** ** Example worlds *)

Definition empty_world : world := World [] [] ∅.

(** A stand-in for [urllib.parse.urlparse] on the examples: scheme and host
    of an [https://host/...] address, two empty strings otherwise. *)
Fixpoint up_to_slash (s : string) : string :=
  match s with
  | EmptyString => EmptyString
  | String c s' => if Ascii.eqb c "/"%char then EmptyString else String c (up_to_slash s')
  end.

Definition example_urlparse (u : string) : result (string * string) :=
  if String.prefix "https://" u
  then Ok ("https", up_to_slash (String.substring 8 (String.length u - 8) u))
  else Ok (EmptyString, EmptyString).

(** The [n]-th request of a kind gets the [n]-th answer of the list, and a
    timeout once the list is used up. *)
Definition nth_answer {A} (p : event -> bool) (answers : list (result A)) (t : list event)
  : result A :=
  nth (length (List.filter p t)) answers (Raise (Exn RequestsTimeout "timed out")).

Definition is_get (ev : event) : bool :=
  match ev with
  | EvGet _ => true
  | _ => false
  end.

(** An outside that answers the POSTs, the GETs and the browser as listed;
    the clock counts the events so far, and the file system never fails. *)
Definition example_env (posts : list (result Response.t)) (gets : list (result page))
    (browser : result page) : env :=
  Env (fun t _ _ => nth_answer is_post posts t)
      (fun t _ => nth_answer is_get gets t)
      (fun _ _ => browser)
      (fun t => PrimFloat.of_uint63 (Uint63.of_Z (Z.of_nat (length t))))
      (fun _ => "2025-01-01T00:00:00")
      (fun _ lo _ => lo)
      (fun _ => None)
      example_urlparse
      (fun _ => "{}")
      (fun _ => Ok (PDict ∅))
      (fun _ => "{}").

(** Nothing answers: every request times out, the browser cannot start. *)
Definition unreachable_env : env :=
  example_env [] [] (Raise (Exn WebDriverException "chrome not reachable")).

Definition example_client : MonicaClient.t :=
  MonicaClient.mk "https://openapi.monica.im/v1" "key" "gpt-4.1".

Definition example_workflow : WorkflowExecutor.t :=
  WorkflowExecutor.mk "input" "output" "prompt.md" [] example_client WebScraper.default_config.

(** [n] copies of a character. *)
Fixpoint str_repeat (c : ascii) (n : nat) : string :=
  match n with
  | O => EmptyString
  | S n' => String c (str_repeat c n')
  end.

(** A 200 whose JSON body is [{}], and a 404. *)
Definition response_without_content : Response.t :=
  Response.mk 200 (Ok (PDict ∅)) "{}".

Definition response_not_found : Response.t :=
  Response.mk 404 (Raise (Exn JSONDecodeError "Expecting value")) "Not Found".

(** The first POST gets [r]; nothing else answers. *)
Definition env_answering (r : Response.t) : env :=
  example_env [Ok r] [] (Raise (Exn WebDriverException "chrome not reachable")).

(** A world whose only file is the prompt template. *)
Definition world_with_template : world :=
  World [] [] {[ "prompt.md" := "Apply to {COMPETITION_NAME} on {TIMESTAMP}.{reference_data}" ]}.

(** ** Notions for the retry loop of [call_api] *)

(** What the specification asks of a successful answer, read off the JSON
    itself and not off the code: the document is an object whose [choices]
    is a list, the first choice is an object whose [message] is an object,
    and that object has a [content]. *)
Definition content_at_first_choice (body : pyval) : option pyval :=
  match body with
  | PDict d =>
      match d !! "choices" with
      | Some (PList (PDict c :: _)) =>
          match c !! "message" with
          | Some (PDict m) => m !! "content"
          | _ => None
          end
      | _ => None
      end
  | _ => None
  end.

(** A non-empty content string. *)
Definition non_empty_text (v : pyval) : bool :=
  match v with
  | PStr s => negb (String.eqb s "")
  | _ => false
  end.

(** An answer after which [call_api] goes on to the next attempt: an
    exception, a 429, a 5xx, a 200 that carries no content, or any other
    status outside [400, 500). *)
Definition retryable (o : result Response.t) : bool :=
  match o with
  | Raise _ => true
  | Ok r =>
      let s := Response.status_code r in
      if (s =? 200)%Z then
        match MonicaClient.carried_content r with
        | Some _ => false
        | None => true
        end
      else (s =? 429)%Z || negb ((400 <=? s)%Z && (s <? 500)%Z)
  end.

(** The events of the rounds [attempts] of a call with [retry_attempts]
    attempts when every one of them falls through: a request each, and the
    backoff sleep after every round but the last of the call. *)
Definition retry_events (self : MonicaClient.t) (prompt : string)
    (retry_attempts retry_delay : Z) (attempts : list Z) : list event :=
  attempts ≫= fun attempt =>
    EvPost (MonicaClient.endpoint self) prompt ::
    if (attempt <? retry_attempts - 1)%Z
    then [EvSleep (SecInt (MonicaClient.calculate_backoff_delay attempt retry_delay
                             MonicaClient.default_max_delay))]
    else [].

(** A 429, and a 200 whose body carries [content] at the first choice. *)
Definition response_rate_limited : Response.t :=
  Response.mk 429 (Raise (Exn JSONDecodeError "Expecting value")) "Too Many Requests".

Definition body_with_content (content : string) : pyval :=
  PDict {[ "choices" :=
             PList [PDict {[ "message" := PDict {[ "content" := PStr content ]} ]}] ]}.

Definition response_with_content (content : string) : Response.t :=
  Response.mk 200 (Ok (body_with_content content)) "".

(** The same with a content of any type. *)
Definition body_with_value (content : pyval) : pyval :=
  PDict {[ "choices" :=
             PList [PDict {[ "message" := PDict {[ "content" := content ]} ]}] ]}.

Definition response_with_value (content : pyval) : Response.t :=
  Response.mk 200 (Ok (body_with_value content)) "".

(** The first POST is turned away with a 429, the second is answered. *)
Definition env_rate_limited_once : env :=
  example_env [Ok response_rate_limited; Ok (response_with_content "Hi")] []
    (Raise (Exn WebDriverException "chrome not reachable")).

Definition count_events (p : event -> bool) (evs : list event) : nat :=
  length (List.filter p evs).

(** ** Notions for the stages of the scraper *)

(** The duration that [_random_delay] sleeps when the events so far are [t],
    and the events of drawing it. *)
Definition delay_seconds (e : env) (self : WebScraper.t) (t : list event) : seconds :=
  match WebScraper.request_delay self with
  | WebScraper.DelayRange lo hi => SecFloat (env_uniform e t lo hi)
  | WebScraper.DelayFixed d => d
  end.

(** A duration that [time.sleep] accepts and that stays below [10^9]
    seconds, some 31 years: the process sleeps for it on any machine. *)
Definition ordinary_duration (d : seconds) : bool :=
  match sleep_error d with
  | Some _ => false
  | None =>
      match d with
      | SecInt z | SecObject (PInt z) => (z <=? 1000000000)%Z
      | SecFloat f | SecObject (PFloat f) => PrimFloat.leb f 1e9%float
      | SecObject _ => true
      end
  end.

(** The default configuration but for a fixed [request_delay]. *)
Definition config_with_delay (d : seconds) : WebScraper.t :=
  WebScraper.mk (WebScraper.DelayFixed d) 3.

Definition delay_draw (self : WebScraper.t) : list event :=
  match WebScraper.request_delay self with
  | WebScraper.DelayRange _ _ => [EvRandom]
  | WebScraper.DelayFixed _ => []
  end.

(** The result that a stage constructs from a page. *)
Definition page_result (u : string) (p : page) (method now : string) : ScrapingResult.t :=
  ScrapingResult.mk u true (Some (page_content p)) (page_title p) (page_meta_description p)
    (Some (take 50 (page_links p))) (Some (take 20 (page_images p)))
    None (Some method) (Some now).

(** What holds of every result as a stage constructs it for [u]. *)
Definition as_constructed (u : string) (o : ScrapingResult.t) : Prop :=
  ScrapingResult.url o = u
  /\ (exists now, ScrapingResult.timestamp o = Some now)
  /\ if ScrapingResult.success o
     then ScrapingResult.error_message o = None
          /\ (exists c, ScrapingResult.content o = Some c)
          /\ (exists ls, ScrapingResult.links o = Some ls /\ length ls <= 50)
          /\ (exists ims, ScrapingResult.images o = Some ims /\ length ims <= 20)
     else (exists m, ScrapingResult.error_message o = Some m)
          /\ ScrapingResult.content o = None
          /\ ScrapingResult.links o = None
          /\ ScrapingResult.images o = None.

(** A page of a few words, and an outside whose first GET returns it while
    the browser cannot start. *)
Definition short_page : page := Page "Welcome" (Some "Home") None [] [].

Definition env_short_page : env :=
  example_env [] [Ok short_page] (Raise (Exn WebDriverException "chrome not reachable")).


(** ** Notions for the parser *)

(** The events of a call of the client: readings of the clock, requests
    that carry the prompt, and sleeps. *)
Definition client_event (self : MonicaClient.t) (prompt : string) (ev : event) : Prop :=
  ev = EvClock \/ ev = EvPost (MonicaClient.endpoint self) prompt \/ is_sleep ev = true.

(** A value that has neither [in] nor [get]: [None], a truth value or a
    number. *)
Definition is_scalar (v : pyval) : bool :=
  match v with
  | PNone | PBool _ | PInt _ | PFloat _ => true
  | _ => false
  end.

Definition is_dict (v : pyval) : bool :=
  match v with
  | PDict _ => true
  | _ => false
  end.

(** The sections that [_dict_to_parsed_info] reads. *)
Definition parsed_sections : list string :=
  [ "competition_basic_info"; "target_participants"; "competition_focus";
    "benefits_and_prizes"; "evaluation_criteria" ].

(** No pattern matches. *)
Definition no_match : searcher := fun _ _ => None.

(** The outside [e] with another [json.loads]. *)
Definition with_json_loads (e : env) (loads : string -> result pyval) : env :=
  Env (env_post e) (env_get e) (env_browse e) (env_time e) (env_now e) (env_uniform e)
      (env_io_error e) (env_urlparse e) (env_json_dumps e) loads (env_repr e).

(** The language model answers with the text [[1]], a JSON list. *)
Definition env_llm_answers_a_list : env :=
  with_json_loads
    (example_env [Ok (response_with_content "[1]")] []
       (Raise (Exn WebDriverException "chrome not reachable")))
    (fun _ => Ok (PList [PInt 1])).

(** The object [{"target_participants": null}]. *)
Definition null_section : gmap string pyval := {[ "target_participants" := PNone ]}.

(** ** Notions for the stages of the workflow *)

(** Every file of [w] is a file of [w'], whatever it holds by then. *)
Definition keeps_files (w w' : world) : Prop := dom (files w) ⊆ dom (files w').

(** A computation that removes no file. *)
Definition monotone {A} (m : M A) : Prop := forall w, keeps_files w (m w).2.

Definition has_file (path : string) (w : world) : Prop := is_Some (files w !! path).

(** The files that the stages hand to one another. *)
Definition scraped_content_path (self : WorkflowExecutor.t) (competition_name : string)
  : string :=
  path_join (WorkflowExecutor.competition_info_dir self competition_name)
            "scraped_content.txt".

Definition parsed_info_path (self : WorkflowExecutor.t) (competition_name : string) : string :=
  path_join (WorkflowExecutor.competition_info_dir self competition_name)
            "parsed_competition_info.json".

(** A world in which the scraped content of the competition [Demo] is on
    disk, and one that has the prompt template as well. *)
Definition world_with_content : world :=
  World [] [] {[ "input/Demo/competition_info/scraped_content.txt" := "Apply now" ]}.

(** The answers of a user who names the competition [Demo], gives a URL
    without a scheme, and confirms. *)
Definition demo_answers : list string := ["Demo"; "example.com/"; "y"].

Definition demo_scraper : CompetitionScraper.t :=
  CompetitionScraper.mk "Demo" "https://example.com/" "input" WebScraper.default_config.

(** The answers of a user who declines at the confirmation. *)
Definition declining_answers : list string := ["Demo"; "example.com/"; "n"].

(** The result that [scrape_url] returns for a site that nothing reaches,
    with the default configuration. *)
Definition unreachable_result : ScrapingResult.t :=
  ScrapingResult.mk "https://example.com/" false None None None None None
    (Some ("Both static and dynamic scraping failed. Static: Static scraping failed after 3 "
           +:+ "attempts: timed out, Dynamic: WebDriver error for https://example.com/: "
           +:+ "chrome not reachable"))
    (Some "static") (Some "2025-01-01T00:00:00").

(** ** Examples for the generation stage *)

(** A 200 whose content is the list [[1]], not a text. *)
Definition response_with_list_content : Response.t :=
  Response.mk 200
    (Ok (PDict {[ "choices" :=
                    PList [PDict {[ "message" :=
                                      PDict {[ "content" := PList [PInt 1] ]} ]}] ]}))
    "".

Definition env_content_is_a_list : env :=
  example_env [Ok response_with_list_content] []
    (Raise (Exn WebDriverException "chrome not reachable")).

(** The outside whose [json.loads] rejects every text. *)
Definition env_invalid_json : env :=
  with_json_loads unreachable_env (fun _ => Raise (Exn JSONDecodeError "Expecting value")).

(** The prompt template and a file of parsed information are on disk. *)
Definition world_with_parsed_info : world :=
  World [] []
    {[ "prompt.md" := "Apply to {COMPETITION_NAME}.";
       "input/Demo/competition_info/parsed_competition_info.json" := "{" ]}.

Definition is_str (v : pyval) : bool :=
  match v with
  | PStr _ => true
  | _ => false
  end.

(* ================================================================== *)
(** * Properties *)
(* ================================================================== *)

(** ** The monad and its program logic *)

Lemma M_bind_unfold {A B} (m : M A) (k : A -> M B) (w : world) :
  (m ≫= k) w = match m w with
               | (Ok a, w') => k a w'
               | (Raise x, w') => (Raise x, w')
               end.
Proof. reflexivity. Qed.

Lemma emit_emit_all ev w : emit ev w = emit_all [ev] w.
Proof. reflexivity. Qed.

Lemma emit_all_emit_all evs evs' w : emit_all evs' (emit_all evs w) = emit_all (evs ++ evs') w.
Proof. unfold emit_all. cbn. by rewrite app_assoc. Qed.

Lemma trace_emit_all evs w : trace (emit_all evs w) = trace w ++ evs.
Proof. reflexivity. Qed.

Lemma ensures_run {A} (m : M A) w Q :
  ensures m w Q -> exists r w', m w = (r, w') /\ Q r w'.
Proof. unfold ensures. destruct (m w) as [r w']. eauto. Qed.

Lemma ensures_ret {A} (a : A) w (Q : result A -> world -> Prop) :
  Q (Ok a) w -> ensures (mret a) w Q.
Proof. done. Qed.

Lemma ensures_bind {A B} (m : M A) (k : A -> M B) w (Q : result B -> world -> Prop) :
  ensures m w (fun r w' =>
    match r with
    | Ok a => ensures (k a) w' Q
    | Raise x => Q (Raise x) w'
    end) ->
  ensures (m ≫= k) w Q.
Proof.
  unfold ensures. rewrite M_bind_unfold. by destruct (m w) as [[a|x] w'].
Qed.

Lemma ensures_try {A} (body : M A) handler w (Q : result A -> world -> Prop) :
  ensures body w (fun r w' =>
    match r with
    | Ok a => Q (Ok a) w'
    | Raise x =>
        match handler x with
        | Some h => ensures h w' Q
        | None => Q (Raise x) w'
        end
    end) ->
  ensures (try_except body handler) w Q.
Proof.
  unfold ensures, try_except. destruct (body w) as [[a|x] w']; cbn; [done|].
  by destruct (handler x).
Qed.

Lemma ensures_consequence {A} (m : M A) w (Q Q' : result A -> world -> Prop) :
  ensures m w Q -> (forall r w', Q r w' -> Q' r w') -> ensures m w Q'.
Proof. unfold ensures. auto. Qed.

Lemma ensures_new_result w o (Q : result ref -> world -> Prop) :
  Q (Ok (length (heap w))) (World (trace w) (heap w ++ [o]) (files w)) ->
  ensures (new_ScrapingResult o) w Q.
Proof. done. Qed.

Lemma ensures_now e w (Q : result string -> world -> Prop) :
  Q (Ok (env_now e (trace w))) (emit EvClock w) ->
  ensures (datetime_now_isoformat e) w Q.
Proof. done. Qed.

Lemma ensures_uniform e a b w (Q : result float -> world -> Prop) :
  Q (Ok (env_uniform e (trace w) a b)) (emit EvRandom w) ->
  ensures (random_uniform e a b) w Q.
Proof. done. Qed.

Lemma ensures_sleep d w (Q : result unit -> world -> Prop) :
  (forall x, sleep_error d = Some x -> Q (Raise x) w) ->
  (sleep_error d = None -> Q (Ok tt) (emit (EvSleep d) w)) ->
  ensures (time_sleep d) w Q.
Proof. unfold ensures, time_sleep. destruct (sleep_error d); eauto. Qed.

Lemma ensures_get e u w (Q : result page -> world -> Prop) :
  Q (env_get e (trace w) u) (emit (EvGet u) w) ->
  ensures (session_get_and_parse e u) w Q.
Proof. done. Qed.

Ltac ensures_step :=
  lazymatch goal with
  | |- ensures (mbind _ _) _ _ => apply ensures_bind
  | |- ensures (try_except _ _) _ _ => apply ensures_try
  | |- ensures (mret _) _ _ => apply ensures_ret
  | |- ensures (datetime_now_isoformat _) _ _ => apply ensures_now
  | |- ensures (new_ScrapingResult _) _ _ => apply ensures_new_result
  | |- ensures (random_uniform _ _ _) _ _ => apply ensures_uniform
  | |- ensures (session_get_and_parse _ _) _ _ => apply ensures_get
  end;
  cbn beta iota.

(** The loop rule: [R] holds of the world between rounds, [S] of a value
    returned from inside the loop, [N] of every round that fell through. *)
Lemma ensures_for_each {I A} (body : I -> M (option A)) (R : world -> Prop)
    (S : I -> A -> world -> Prop) (N : I -> Prop) indices w :
  (forall i w, R w ->
     ensures (body i) w (fun r w' =>
       exists v, r = Ok v /\
         match v with
         | Some a => S i a w'
         | None => R w' /\ N i
         end)) ->
  R w ->
  ensures (for_each indices body) w (fun r w' =>
    exists v, r = Ok v /\
      match v with
      | Some a => exists i, i ∈ indices /\ S i a w'
      | None => R w' /\ forall i, i ∈ indices -> N i
      end).
Proof.
  intros Hbody. revert w. induction indices as [|i rest IH]; intros w HR.
  - apply ensures_ret. exists None. split; [done|]. split; [done|]. by intros i ?%elem_of_nil.
  - cbn [for_each]. apply ensures_bind.
    eapply ensures_consequence; [apply (Hbody i w HR)|].
    intros r w' (v & -> & Hv). destruct v as [a|].
    + apply ensures_ret. exists (Some a). split; [done|].
      exists i. split; [left|done].
    + destruct Hv as [HR' HN].
      eapply ensures_consequence; [apply (IH w' HR')|].
      intros r w'' (v & -> & Hv). exists v. split; [done|].
      destruct v as [a|].
      * destruct Hv as (j & Hj & HS). exists j. split; [by right|done].
      * destruct Hv as [HR'' Hall]. split; [done|].
        intros j [->|Hj]%elem_of_cons; [done|by apply Hall].
Qed.

Lemma for_each_cons {I A} (i : I) (rest : list I) (body : I -> M (option A)) w :
  for_each (i :: rest) body w =
  match body i w with
  | (Ok (Some v), w') => (Ok (Some v), w')
  | (Ok None, w') => for_each rest body w'
  | (Raise x, w') => (Raise x, w')
  end.
Proof.
  cbn [for_each]. rewrite M_bind_unfold.
  destruct (body i w) as [[[v|]|x] w']; reflexivity.
Qed.

Lemma elem_of_py_range n i : i ∈ py_range n <-> (0 <= i < n)%Z.
Proof.
  unfold py_range. rewrite list_elem_of_fmap. split.
  - intros (k & -> & Hk). apply elem_of_seq in Hk. lia.
  - intros Hi. exists (Z.to_nat i). split; [lia|]. apply elem_of_seq. lia.
Qed.

Lemma py_range_pos n : (1 <= n)%Z -> py_range n = 0%Z :: (Z.of_nat <$> seq 1 (Z.to_nat n - 1)).
Proof.
  intros Hn. unfold py_range.
  replace (Z.to_nat n) with (S (Z.to_nat n - 1)) at 1 by lia. reflexivity.
Qed.

(** ** Python values and strings *)

Lemma py_min_spec a b : py_min a b = Z.min a b.
Proof. unfold py_min. destruct (Z.ltb_spec b a); lia. Qed.

Lemma truthy_str s : truthy (PStr s) = true <-> s <> "".
Proof. unfold truthy. destruct (String.eqb_spec s ""); split; try done. Qed.

Lemma prefix_lower k s :
  String.prefix k s = true -> String.prefix (py_lower k) (py_lower s) = true.
Proof.
  revert s. induction k as [|a k IH]; intros [|b s]; simpl; try done.
  destruct (ascii_dec a b) as [->|]; [|done].
  intros H. destruct (ascii_dec (py_lower_char b) (py_lower_char b)); [|done]. by apply IH.
Qed.

Lemma str_contains_cons k c s :
  str_contains k (String c s) = if String.prefix k (String c s) then true else str_contains k s.
Proof. reflexivity. Qed.

(** Lowering both strings keeps an occurrence. *)
Lemma str_contains_lower k s :
  str_contains k s = true -> str_contains (py_lower k) (py_lower s) = true.
Proof.
  induction s as [|c s IH].
  - by destruct k.
  - change (py_lower (String c s)) with (String (py_lower_char c) (py_lower s)).
    rewrite !str_contains_cons.
    destruct (String.prefix k (String c s)) eqn:E.
    + intros _. apply prefix_lower in E.
      change (py_lower (String c s)) with (String (py_lower_char c) (py_lower s)) in E.
      by rewrite E.
    + intros H. apply IH in H. rewrite H.
      by destruct (String.prefix (py_lower k) (String (py_lower_char c) (py_lower s))).
Qed.

Lemma prefix_app x t : String.prefix x (x +:+ t) = true.
Proof.
  induction x as [|c x IH]; [by destruct t|].
  change (String c x +:+ t) with (String c (x +:+ t)). cbn [String.prefix].
  destruct (ascii_dec c c); [exact IH|congruence].
Qed.

Lemma str_contains_prefix x t : str_contains x (x +:+ t) = true.
Proof.
  destruct (x +:+ t) as [|c s] eqn:E.
  - destruct x; [done|]. discriminate E.
  - rewrite str_contains_cons, <- E. by rewrite prefix_app.
Qed.

Lemma str_contains_skip x a t : str_contains x t = true -> str_contains x (a +:+ t) = true.
Proof.
  intros H. induction a as [|c a IH]; [done|].
  change (String c a +:+ t) with (String c (a +:+ t)).
  rewrite str_contains_cons, IH. by destruct (String.prefix x (String c (a +:+ t))).
Qed.

(* ------------------------------------------------------------------ *)
(** ** C5: the backoff delay *)
(* ------------------------------------------------------------------ *)

(** C5. For every attempt index [n >= 0], [calculate_backoff_delay n base_delay
    max_delay] is [min (base_delay * 2^n) max_delay]; hence it never exceeds
    [max_delay]. It does not decrease when [n] grows if the base delay is
    not negative, and it does not increase if the base delay is not
    positive: below zero the doubling drives the delay down, strictly so
    while it stays under [max_delay]. For base 5 and maximum 300 the delays
    of attempts 0..6 are 5, 10, 20, 40, 80, 160, 300. *)
Theorem C5_calculate_backoff_delay_min (base_delay max_delay : Z) :
  (forall n, (0 <= n)%Z ->
     MonicaClient.calculate_backoff_delay n base_delay max_delay
     = Z.min (base_delay * 2 ^ n) max_delay)
  /\ (forall n, (0 <= n)%Z ->
        (MonicaClient.calculate_backoff_delay n base_delay max_delay <= max_delay)%Z)
  /\ ((0 <= base_delay)%Z -> forall n m, (0 <= n <= m)%Z ->
        (MonicaClient.calculate_backoff_delay n base_delay max_delay
         <= MonicaClient.calculate_backoff_delay m base_delay max_delay)%Z)
  /\ ((base_delay <= 0)%Z -> forall n m, (0 <= n <= m)%Z ->
        (MonicaClient.calculate_backoff_delay m base_delay max_delay
         <= MonicaClient.calculate_backoff_delay n base_delay max_delay)%Z)
  /\ ((base_delay < 0)%Z -> forall n m, (0 <= n < m)%Z ->
        (base_delay * 2 ^ n <= max_delay)%Z ->
        (MonicaClient.calculate_backoff_delay m base_delay max_delay
         < MonicaClient.calculate_backoff_delay n base_delay max_delay)%Z)
  /\ (fun n => MonicaClient.calculate_backoff_delay n 5 300) <$> [0; 1; 2; 3; 4; 5; 6]%Z
     = [5; 10; 20; 40; 80; 160; 300]%Z.
Proof.
  unfold MonicaClient.calculate_backoff_delay.
  split; [|split; [|split; [|split; [|split]]]].
  - intros n _. apply py_min_spec.
  - intros n _. rewrite py_min_spec. lia.
  - intros Hb n m [Hn Hnm]. rewrite !py_min_spec.
    assert (2 ^ n <= 2 ^ m)%Z by (apply Z.pow_le_mono_r; lia).
    apply Z.min_le_compat_r. apply Z.mul_le_mono_nonneg_l; lia.
  - intros Hb n m [Hn Hnm]. rewrite !py_min_spec.
    assert (2 ^ n <= 2 ^ m)%Z by (apply Z.pow_le_mono_r; lia).
    apply Z.min_le_compat_r. apply Z.mul_le_mono_nonpos_l; lia.
  - intros Hb n m [Hn Hnm] Hmax. rewrite !py_min_spec.
    assert (2 ^ n < 2 ^ m)%Z by (apply Z.pow_lt_mono_r; lia).
    assert (base_delay * 2 ^ m < base_delay * 2 ^ n)%Z by (apply Z.mul_lt_mono_neg_l; lia).
    lia.
  - reflexivity.
Qed.

(** With the defaults of [call_api], base 5 and maximum 300, the delay grows
    from attempt 5 to attempt 6; with base -1 it falls from attempt 0 to
    attempt 1. *)
Lemma C5_backoff_witness :
  (MonicaClient.calculate_backoff_delay 5 5 300
   <= MonicaClient.calculate_backoff_delay 6 5 300)%Z
  /\ (MonicaClient.calculate_backoff_delay 1 (-1) 300
      < MonicaClient.calculate_backoff_delay 0 (-1) 300)%Z.
Proof.
  split.
  - apply (proj1 (proj2 (proj2 (C5_calculate_backoff_delay_min 5 300)))); lia.
  - apply (proj1 (proj2 (proj2 (proj2 (proj2 (C5_calculate_backoff_delay_min (-1) 300))))));
      [lia|lia|vm_compute; discriminate].
Defined.

(** C5 as stated fails for a negative base delay: with base -1 and maximum
    300 the delays of attempts 0, 1, 2 are -1, -2, -4, so the delay is not
    non-decreasing in the attempt index. *)
Lemma C5_counterexample_negative_base_delay :
  (fun n => MonicaClient.calculate_backoff_delay n (-1) 300) <$> [0; 1; 2]%Z
  = [-1; -2; -4]%Z
  /\ ~ (forall n m, (0 <= n <= m)%Z ->
          (MonicaClient.calculate_backoff_delay n (-1) 300
           <= MonicaClient.calculate_backoff_delay m (-1) 300)%Z).
Proof.
  split; [reflexivity|].
  intros H. specialize (H 0%Z 1%Z ltac:(lia)). vm_compute in H. by apply H.
Qed.

(* ------------------------------------------------------------------ *)
(** ** C7: the sufficiency check *)
(* ------------------------------------------------------------------ *)

Lemma keyword_matches_length cl :
  WebScraper.keyword_matches cl
  = length (List.filter (fun kw => str_contains kw cl) WebScraper.competition_keywords).
Proof.
  unfold WebScraper.keyword_matches.
  generalize (List.filter (fun kw => str_contains kw cl) WebScraper.competition_keywords).
  intros l. induction l as [|x l IH]; [done|]. rewrite fmap_cons. simpl. by f_equal.
Qed.

Lemma filter_length_sum {A} (f : A -> bool) (l : list A) :
  length (List.filter f l) = sum_list ((fun x => if f x then 1 else 0) <$> l).
Proof.
  induction l as [|x l IH]; [done|].
  rewrite fmap_cons. cbn [List.filter sum_list sum_list_with]. destruct (f x); cbn; lia.
Qed.

Lemma filter_none {A} (f : A -> bool) (l : list A) :
  (forall x, x ∈ l -> f x = false) -> List.filter f l = [].
Proof.
  induction l as [|x l IH]; intros H; [done|].
  cbn. rewrite (H x) by left. apply IH. intros y Hy. apply H. by right.
Qed.

Lemma is_content_sufficient_iff content :
  WebScraper._is_content_sufficient content = true <->
  exists c, content = Some c
    /\ 500 <= String.length (py_strip c)
    /\ 3 <= length (List.filter (fun kw => str_contains kw (py_lower c))
                      WebScraper.competition_keywords).
Proof.
  unfold WebScraper._is_content_sufficient. destruct content as [c|].
  2:{ split; [done|]. by intros (c & ? & _). }
  rewrite keyword_matches_length. split.
  - intros H. exists c. split; [done|].
    destruct (negb _) eqn:E1; [done|].
    destruct (Nat.ltb_spec (String.length (py_strip c)) 500); [done|].
    apply Nat.leb_le in H. lia.
  - intros (c' & [= <-] & Hlen & Hkw).
    assert (c <> "") as Hne by (intros ->; vm_compute in Hlen; lia).
    assert (truthy (PStr c) = true) as -> by (by apply truthy_str).
    cbn [negb].
    destruct (Nat.ltb_spec (String.length (py_strip c)) 500); [lia|].
    by apply Nat.leb_le.
Qed.

(** C7, as the code has it. [_is_content_sufficient content] is true exactly
    when the content is present, its length after stripping leading and
    trailing whitespace is at least 500, and at least 3 keywords of the list
    occur in its lower-cased text. In particular a string that contains
    "deadline", "apply" and "prize" and still has 500 characters once stripped
    is sufficient, and a string in which no keyword occurs is not sufficient,
    whatever its length. *)
Theorem C7_is_content_sufficient_on_stripped_length :
  (forall content,
      WebScraper._is_content_sufficient content = true <->
      exists c, content = Some c
        /\ 500 <= String.length (py_strip c)
        /\ 3 <= length (List.filter (fun kw => str_contains kw (py_lower c))
                          WebScraper.competition_keywords))
  /\ (forall c,
        500 <= String.length (py_strip c) ->
        str_contains "deadline" c = true ->
        str_contains "apply" c = true ->
        str_contains "prize" c = true ->
        WebScraper._is_content_sufficient (Some c) = true)
  /\ (forall c,
        (forall kw, kw ∈ WebScraper.competition_keywords ->
                    str_contains kw (py_lower c) = false) ->
        WebScraper._is_content_sufficient (Some c) = false).
Proof.
  split; [exact is_content_sufficient_iff|]. split.
  - intros c Hlen Hd Ha Hp. apply is_content_sufficient_iff.
    exists c. split; [done|]. split; [done|].
    apply str_contains_lower in Hd, Ha, Hp.
    change (py_lower "deadline") with "deadline" in Hd.
    change (py_lower "apply") with "apply" in Ha.
    change (py_lower "prize") with "prize" in Hp.
    rewrite filter_length_sum. unfold WebScraper.competition_keywords.
    rewrite !fmap_cons. cbn [sum_list sum_list_with]. rewrite Hd, Ha, Hp. cbv iota.
    repeat match goal with
           | |- context [if ?b then 1 else 0] => generalize (if b then 1 else 0); intro
           end.
    unfold id. lia.
  - intros c Hnone.
    destruct (WebScraper._is_content_sufficient (Some c)) eqn:E; [|done].
    apply is_content_sufficient_iff in E as (c' & [= <-] & _ & Hkw).
    rewrite filter_none in Hkw by done. cbn in Hkw. lia.
Qed.

Lemma C7_sufficient_witness :
  WebScraper._is_content_sufficient
    (Some ("deadline apply prize" +:+ str_repeat "x" 580)) = true.
Proof.
  apply (proj1 (proj2 C7_is_content_sufficient_on_stripped_length));
    [apply Nat.leb_le; vm_compute; reflexivity | vm_compute; reflexivity ..].
Defined.

(** C7 as stated fails: 600 characters that contain "deadline", "apply" and
    "prize" but end in 580 blanks are not sufficient. *)
Lemma C7_counterexample_trailing_blanks :
  let c := "deadline apply prize" +:+ str_repeat " " 580 in
  String.length c = 600
  /\ str_contains "deadline" c = true
  /\ str_contains "apply" c = true
  /\ str_contains "prize" c = true
  /\ WebScraper._is_content_sufficient (Some c) = false.
Proof. vm_compute. done. Qed.

(* ------------------------------------------------------------------ *)
(** ** C1: the confidence score *)
(* ------------------------------------------------------------------ *)

Lemma validate_basic_name_only (parsed_data d : gmap string pyval) (v : pyval) :
  parsed_data !! "competition_basic_info" = Some (PDict d) ->
  parsed_data !! "benefits_and_prizes" = None ->
  parsed_data !! "target_participants" = None ->
  parsed_data !! "competition_focus" = None ->
  d !! "name" = Some v -> truthy v = true ->
  d !! "organizer" = None -> d !! "application_status" = None -> d !! "deadline" = None ->
  ContentParser.validate_parsed_data parsed_data
  = Ok (0.15 / (0.15 + 0.10 + 0.15 + 0.20))%float.
Proof.
  intros H1 H2 H3 H4 Hn Hv Ho Ha Hd.
  unfold ContentParser.validate_parsed_data, ContentParser.weights.
  cbn [ContentParser.score_sections]. rewrite H1, H2, H3, H4.
  cbn [ContentParser.score_fields py_in py_getitem_str mbind result_bind fst snd].
  rewrite Hn, Ho, Ha, Hd.
  cbn [bool_decide decide_rel is_Some_dec mbind result_bind]. rewrite Hv. reflexivity.
Qed.

Lemma validate_no_section (parsed_data : gmap string pyval) :
  (forall section fields,
      (section, fields) ∈ ContentParser.weights -> parsed_data !! section = None) ->
  ContentParser.validate_parsed_data parsed_data = Ok 0%float.
Proof.
  intros H. unfold ContentParser.validate_parsed_data.
  assert (forall ws acc, ws ⊆ ContentParser.weights ->
            ContentParser.score_sections parsed_data ws acc = Ok acc) as Hs.
  { induction ws as [|[section fields] ws IH]; intros acc Hsub; [done|].
    cbn [ContentParser.score_sections]. rewrite (H section fields) by (apply Hsub; left).
    apply IH. intros x Hx. apply Hsub. by right. }
  rewrite Hs by done. reflexivity.
Qed.

(** C1, as the code has it. When the only weighted section present is
    [competition_basic_info] and it holds exactly a non-empty [name], the
    denominator is the weight of all four fields of that section:
    the score is 0.15 / (0.15 + 0.10 + 0.15 + 0.20), a float just below 0.25.
    The empty dictionary, and any dictionary without a weighted section,
    scores 0.0. *)
Theorem C1_validate_parsed_data_score :
  (forall v, truthy v = true ->
     ContentParser.validate_parsed_data
       {[ "competition_basic_info" := PDict {[ "name" := v ]} ]}
     = Ok (0.15 / (0.15 + 0.10 + 0.15 + 0.20))%float)
  /\ ((0.15 / (0.15 + 0.10 + 0.15 + 0.20)) <? 0.25)%float = true
  /\ ContentParser.validate_parsed_data ∅ = Ok 0%float
  /\ (forall parsed_data : gmap string pyval,
        (forall section fields,
            (section, fields) ∈ ContentParser.weights -> parsed_data !! section = None) ->
        ContentParser.validate_parsed_data parsed_data = Ok 0%float).
Proof.
  split; [|split; [reflexivity|split]].
  - intros v Hv. eapply validate_basic_name_only; try done.
  - apply validate_no_section. intros. apply lookup_empty.
  - apply validate_no_section.
Qed.

Lemma C1_name_only_witness :
  ContentParser.validate_parsed_data
    {[ "competition_basic_info" := PDict {[ "name" := PStr "X" ]} ]}
  = Ok (0.15 / (0.15 + 0.10 + 0.15 + 0.20))%float.
Proof.
  apply (proj1 C1_validate_parsed_data_score (PStr "X")). reflexivity.
Defined.

(** C1 as stated fails: the score of [{"competition_basic_info": {"name": "X"}}]
    is not 1.0. *)
Lemma C1_counterexample_name_only_is_not_one :
  ContentParser.validate_parsed_data
    {[ "competition_basic_info" := PDict {[ "name" := PStr "X" ]} ]}
  <> Ok 1%float.
Proof.
  intros H.
  apply (f_equal (fun r => match r with Ok x => PrimFloat.eqb x 1 | Raise _ => true end)) in H.
  vm_compute in H. discriminate.
Qed.

(* ------------------------------------------------------------------ *)
(** ** C2: the round trip through the JSON layout *)
(* ------------------------------------------------------------------ *)

(** C2, as the code has it. Re-parsing the dictionary that [save_parsed_info]
    builds gives back the fifteen content attributes of the record; the
    [metadata] block is not read, so [confidence_score], [parsing_timestamp]
    and [raw_content_length] come back as [None]. The record comes back
    whole exactly when these three were [None]. *)
Theorem C2_roundtrip_resets_metadata (p : ParsedCompetitionInfo.t) :
  ContentParser._dict_to_parsed_info (ContentParser.save_parsed_info_data p)
  = Ok (ParsedCompetitionInfo.without_metadata p)
  /\ (ContentParser._dict_to_parsed_info (ContentParser.save_parsed_info_data p) = Ok p
      <-> ParsedCompetitionInfo.confidence_score p = PNone
          /\ ParsedCompetitionInfo.parsing_timestamp p = PNone
          /\ ParsedCompetitionInfo.raw_content_length p = PNone).
Proof.
  assert (ContentParser._dict_to_parsed_info (ContentParser.save_parsed_info_data p)
          = Ok (ParsedCompetitionInfo.without_metadata p)) as H.
  { destruct p. vm_compute. reflexivity. }
  split; [exact H|]. rewrite H. destruct p; cbn. split.
  - intros [= <- <- <-]. done.
  - intros (-> & -> & ->). done.
Qed.

(** C2 as stated fails: a record with a confidence score does not come back. *)
Lemma C2_counterexample_confidence_score_lost :
  let p := ParsedCompetitionInfo.mk (PStr "Innovate Prize") PNone PNone (PStr "open") PNone
             PNone PNone PNone PNone PNone PNone PNone PNone PNone PNone
             (PFloat 0.5) (PStr "2025-01-01T00:00:00") (PInt 600) in
  ContentParser._dict_to_parsed_info (ContentParser.save_parsed_info_data p) <> Ok p.
Proof.
  cbn zeta. intros H.
  apply (f_equal (fun r => match r with
                           | Ok q => ParsedCompetitionInfo.raw_content_length q
                           | Raise _ => PNone
                           end)) in H.
  vm_compute in H. discriminate.
Qed.

(* ------------------------------------------------------------------ *)
(** ** C4 and C6: what one attempt of [call_api] decides *)
(* ------------------------------------------------------------------ *)

Section call_api_attempts.
Import MonicaClient.
Variables (e : env) (self : MonicaClient.t) (prompt : string) (start_time : float).

(** Status 200: a return with the content when there is one to carry. *)
Lemma attempt_200 w response :
  env_post e (trace w) (endpoint self) prompt = Ok response ->
  Response.status_code response = 200%Z ->
  call_api_attempt e self prompt start_time w =
  match carried_content response with
  | Some content =>
      (Ok (Some (Some content, (env_time e (trace w ++ [EvPost (endpoint self) prompt]) - start_time)%float)),
       emit_all [EvPost (endpoint self) prompt; EvClock] w)
  | None => (Ok None, emit_all [EvPost (endpoint self) prompt] w)
  end.
Proof.
  intros Hpost Hst. unfold call_api_attempt, try_except.
  rewrite M_bind_unfold. unfold requests_post at 1. rewrite Hpost, Hst.
  cbn [Z.eqb Pos.eqb]. unfold carried_content.
  rewrite M_bind_unfold. unfold lift at 1.
  destruct (Response.json response) as [body|x]; [|done].
  rewrite M_bind_unfold. unfold lift at 1.
  destruct (first_choice_content body) as [content|x]; [|done].
  destruct (truthy content); [|done].
  rewrite M_bind_unfold. unfold time_time at 1. cbn.
  by rewrite !emit_emit_all, emit_all_emit_all.
Qed.

(** A request that raises is logged, nothing else. *)
Lemma attempt_raise w x :
  env_post e (trace w) (endpoint self) prompt = Raise x ->
  call_api_attempt e self prompt start_time w = (Ok None, emit_all [EvPost (endpoint self) prompt] w).
Proof.
  intros Hpost. unfold call_api_attempt, try_except.
  rewrite M_bind_unfold. unfold requests_post at 1. by rewrite Hpost.
Qed.

(** A 4xx other than 429: [return None, elapsed_time]. *)
Lemma attempt_client_error w response :
  env_post e (trace w) (endpoint self) prompt = Ok response ->
  (400 <= Response.status_code response < 500)%Z ->
  Response.status_code response <> 429%Z ->
  call_api_attempt e self prompt start_time w =
  (Ok (Some (None, (env_time e (trace w ++ [EvPost (endpoint self) prompt]) - start_time)%float)),
   emit_all [EvPost (endpoint self) prompt; EvClock] w).
Proof.
  intros Hpost Hrange H429. unfold call_api_attempt, try_except.
  rewrite M_bind_unfold. unfold requests_post at 1. rewrite Hpost.
  destruct (Z.eqb_spec (Response.status_code response) 200); [lia|].
  destruct (Z.eqb_spec (Response.status_code response) 429); [lia|].
  destruct (Z.leb_spec 500 (Response.status_code response)); [lia|].
  destruct (Z.leb_spec 400 (Response.status_code response)); [|lia].
  destruct (Z.ltb_spec (Response.status_code response) 500); [|lia].
  cbn [andb]. rewrite M_bind_unfold. unfold time_time at 1. cbn.
  by rewrite !emit_emit_all, emit_all_emit_all.
Qed.

(** 429, 5xx and the statuses below 400 other than 200 fall through. *)
Lemma attempt_other_status w response :
  env_post e (trace w) (endpoint self) prompt = Ok response ->
  Response.status_code response <> 200%Z ->
  (Response.status_code response = 429 \/ Response.status_code response < 400
   \/ 500 <= Response.status_code response)%Z ->
  call_api_attempt e self prompt start_time w = (Ok None, emit_all [EvPost (endpoint self) prompt] w).
Proof.
  intros Hpost H200 Hst. unfold call_api_attempt, try_except.
  rewrite M_bind_unfold. unfold requests_post at 1. rewrite Hpost.
  destruct (Z.eqb_spec (Response.status_code response) 200); [lia|].
  destruct (Z.eqb_spec (Response.status_code response) 429); [done|].
  destruct (Z.leb_spec 500 (Response.status_code response)); [done|].
  destruct (Z.leb_spec 400 (Response.status_code response)); [|done].
  destruct (Z.ltb_spec (Response.status_code response) 500); [lia|done].
Qed.

(** The [try] of an attempt never lets an exception out. *)
Lemma attempt_never_raises w :
  exists r w', call_api_attempt e self prompt start_time w = (Ok r, w').
Proof.
  destruct (env_post e (trace w) (endpoint self) prompt) as [response|x] eqn:Hpost.
  - destruct (Z.eq_dec (Response.status_code response) 200%Z) as [H200|H200].
    + rewrite (attempt_200 _ _ Hpost H200). destruct (carried_content response); eauto.
    + destruct (Z.eq_dec (Response.status_code response) 429%Z) as [H429|H429].
      { erewrite attempt_other_status; eauto. }
      destruct (Z_lt_le_dec (Response.status_code response) 400%Z).
      { erewrite attempt_other_status; eauto. }
      destruct (Z_lt_le_dec (Response.status_code response) 500%Z).
      { erewrite attempt_client_error; eauto. }
      erewrite attempt_other_status; eauto.
  - erewrite attempt_raise; eauto.
Qed.

Variables (retry_attempts retry_delay : Z).

Lemma iteration_fallthrough attempt w w1 :
  call_api_attempt e self prompt start_time w = (Ok None, w1) ->
  call_api_iteration e self prompt retry_attempts retry_delay start_time attempt w
  = ((if (attempt <? retry_attempts - 1)%Z
      then time_sleep (SecInt (calculate_backoff_delay attempt retry_delay default_max_delay))
      else mret tt);; mret None) w1.
Proof.
  intros H. unfold call_api_iteration. rewrite M_bind_unfold, H. reflexivity.
Qed.

Lemma iteration_return attempt w v w1 :
  call_api_attempt e self prompt start_time w = (Ok (Some v), w1) ->
  call_api_iteration e self prompt retry_attempts retry_delay start_time attempt w
  = (Ok (Some v), w1).
Proof.
  intros H. unfold call_api_iteration. rewrite M_bind_unfold, H. reflexivity.
Qed.

End call_api_attempts.

Lemma carried_content_Some response content :
  MonicaClient.carried_content response = Some content <->
  exists body, Response.json response = Ok body
    /\ MonicaClient.first_choice_content body = Ok content /\ truthy content = true.
Proof.
  unfold MonicaClient.carried_content. split.
  - destruct (Response.json response) as [body|]; [|done].
    destruct (MonicaClient.first_choice_content body) as [c|] eqn:Ec; [|done].
    destruct (truthy c) eqn:E; [|done]. intros [= <-]. by exists body.
  - intros (body & -> & -> & ->). done.
Qed.

Lemma first_choice_content_truthy body content :
  MonicaClient.first_choice_content body = Ok content /\ truthy content = true
  <-> content_at_first_choice body = Some content /\ truthy content = true.
Proof.
  unfold MonicaClient.first_choice_content, content_at_first_choice.
  destruct body as [| | | | | |d]; try (split; intros [H _]; discriminate H).
  cbn. destruct (d !! "choices") as [choices|]; cbn.
  2:{ rewrite lookup_empty. cbn. split; [intros [[= <-] H]; discriminate H|].
      intros [H _]; discriminate H. }
  destruct choices as [| | | |s|l|d']; try (split; intros [H _]; discriminate H).
  - destruct s as [|c s]; cbn; split; intros [H _]; discriminate H.
  - destruct l as [|first l]; [split; intros [H _]; discriminate H|].
    destruct first as [| | | | | |c]; try (split; intros [H _]; discriminate H).
    cbn. destruct (c !! "message") as [message|]; cbn.
    2:{ rewrite lookup_empty. cbn. split; [intros [[= <-] H]; discriminate H|].
        intros [H _]; discriminate H. }
    destruct message as [| | | | | |m]; try (split; intros [H _]; discriminate H).
    cbn. destruct (m !! "content") as [v|]; cbn.
    + split; intros [[= <-] H]; done.
    + split; [intros [[= <-] H]; discriminate H|intros [H _]; discriminate H].
Qed.

(** C4. An attempt of [call_api] returns a content exactly when the response
    has status 200, its JSON is an object that carries a content at the
    message of the first choice, and that content is truthy; it then returns
    that very content after one request and one reading of the clock. A
    non-empty text is truthy and an empty one is not, but the test is
    [if content], not a test for a text: a number other than zero or a
    non-empty list is returned as well. A 200 without a truthy content
    there (a body of another shape, on which the lookup raises inside the
    [try], included) neither returns nor raises: the attempt falls through
    to the backoff, sleeping when attempts remain, and the whole round is
    the one that a request that raised (a timeout, say) would have made. *)
Theorem C4_success_condition_and_malformed_200
    (e : env) (self : MonicaClient.t) (prompt : string)
    (retry_attempts retry_delay : Z) (start_time : float) (w : world) :
  let url := MonicaClient.endpoint self in
  (forall content,
      (exists elapsed w',
          MonicaClient.call_api_attempt e self prompt start_time w
          = (Ok (Some (Some content, elapsed)), w'))
      <-> (exists response body,
              env_post e (trace w) url prompt = Ok response
              /\ Response.status_code response = 200%Z
              /\ Response.json response = Ok body
              /\ content_at_first_choice body = Some content
              /\ truthy content = true))
  /\ (forall response body content,
        env_post e (trace w) url prompt = Ok response ->
        Response.status_code response = 200%Z ->
        Response.json response = Ok body ->
        content_at_first_choice body = Some content ->
        truthy content = true ->
        MonicaClient.call_api_attempt e self prompt start_time w
        = (Ok (Some (Some content,
                     (env_time e (trace w ++ [EvPost url prompt]) - start_time)%float)),
           emit_all [EvPost url prompt; EvClock] w))
  /\ (forall content, non_empty_text content = true -> truthy content = true)
  /\ (forall s, truthy (PStr s) = true <-> s <> "")
  /\ (forall response,
        env_post e (trace w) url prompt = Ok response ->
        Response.status_code response = 200%Z ->
        (forall body content,
            Response.json response = Ok body ->
            content_at_first_choice body = Some content ->
            truthy content = false) ->
        MonicaClient.call_api_attempt e self prompt start_time w
        = (Ok None, emit_all [EvPost url prompt] w)
        /\ (forall attempt,
              MonicaClient.call_api_iteration e self prompt retry_attempts retry_delay
                start_time attempt w
              = ((if (attempt <? retry_attempts - 1)%Z
                  then time_sleep
                         (SecInt (MonicaClient.calculate_backoff_delay attempt retry_delay
                                    MonicaClient.default_max_delay))
                  else mret tt);; mret None)
                  (emit_all [EvPost url prompt] w))
        /\ (forall e' x attempt,
              env_post e' (trace w) url prompt = Raise x ->
              MonicaClient.call_api_iteration e' self prompt retry_attempts retry_delay
                start_time attempt w
              = MonicaClient.call_api_iteration e self prompt retry_attempts retry_delay
                  start_time attempt w)).
Proof.
  intros url.
  assert (forall response content,
            MonicaClient.carried_content response = Some content <->
            exists body, Response.json response = Ok body
              /\ content_at_first_choice body = Some content /\ truthy content = true)
    as Hcarried.
  { intros response content. rewrite carried_content_Some.
    split; intros (body & Hjson & H); exists body; (split; [done|]);
      by apply first_choice_content_truthy. }
  split; [|split; [|split; [|split]]].
  - intros content. split.
    + intros (elapsed & w' & H).
      destruct (env_post e (trace w) (MonicaClient.endpoint self) prompt)
        as [response|x] eqn:Hpost.
      2:{ rewrite (attempt_raise _ _ _ _ _ _ Hpost) in H. done. }
      destruct (Z.eq_dec (Response.status_code response) 200%Z) as [H200|H200].
      * rewrite (attempt_200 _ _ _ _ _ _ Hpost H200) in H.
        destruct (MonicaClient.carried_content response) as [c|] eqn:Hc; [|done].
        injection H as -> _ _.
        apply Hcarried in Hc as (body & Hjson & Hat & Ht).
        by exists response, body.
      * exfalso.
        destruct (Z.eq_dec (Response.status_code response) 429%Z) as [H429|H429].
        { rewrite (attempt_other_status _ _ _ _ _ _ Hpost) in H; [done|lia|lia]. }
        destruct (Z_lt_le_dec (Response.status_code response) 400%Z).
        { rewrite (attempt_other_status _ _ _ _ _ _ Hpost) in H; [done|lia|lia]. }
        destruct (Z_lt_le_dec (Response.status_code response) 500%Z).
        { rewrite (attempt_client_error _ _ _ _ _ _ Hpost) in H; [done|lia|lia]. }
        rewrite (attempt_other_status _ _ _ _ _ _ Hpost) in H; [done|lia|lia].
    + intros (response & body & Hpost & H200 & Hjson & Hat & Ht).
      rewrite (attempt_200 _ _ _ _ _ _ Hpost H200).
      replace (MonicaClient.carried_content response) with (Some content); [eauto|].
      symmetry. apply Hcarried. by exists body.
  - intros response body content Hpost H200 Hjson Hat Ht.
    rewrite (attempt_200 _ _ _ _ _ _ Hpost H200).
    replace (MonicaClient.carried_content response) with (Some content); [done|].
    symmetry. apply Hcarried. by exists body.
  - intros [| | | |s| |]; done.
  - apply truthy_str.
  - intros response Hpost H200 Hnone.
    assert (MonicaClient.carried_content response = None) as Hc.
    { destruct (MonicaClient.carried_content response) as [c|] eqn:Hc; [|done].
      apply Hcarried in Hc as (body & Hjson & Hat & Ht).
      by rewrite (Hnone body c Hjson Hat) in Ht. }
    assert (MonicaClient.call_api_attempt e self prompt start_time w
            = (Ok None, emit_all [EvPost (MonicaClient.endpoint self) prompt] w)) as Hatt.
    { by rewrite (attempt_200 _ _ _ _ _ _ Hpost H200), Hc. }
    split; [done|]. split.
    + intros attempt. by apply iteration_fallthrough.
    + intros e' x attempt Hpost'.
      rewrite (iteration_fallthrough _ _ _ _ _ _ _ _ _ Hatt).
      apply iteration_fallthrough. by eapply attempt_raise.
Qed.

(** A 200 whose content is the text [Hi] is returned by the attempt; a 200
    whose body is [{}] makes the first of three attempts fall through and
    sleep the first backoff, 5 seconds. *)
Lemma C4_success_and_malformed_200_witness :
  MonicaClient.call_api_attempt (env_answering (response_with_content "Hi"))
    example_client "hello" 0%float empty_world
  = (Ok (Some (Some (PStr "Hi"), 1%float)),
     emit_all [EvPost (MonicaClient.endpoint example_client) "hello"; EvClock] empty_world)
  /\ MonicaClient.call_api_iteration (env_answering response_without_content)
    example_client "hello" 3 5 0%float 0%Z empty_world
  = (Ok None,
     emit_all [EvPost (MonicaClient.endpoint example_client) "hello"; EvSleep (SecInt 5)]
       empty_world).
Proof.
  split.
  - apply (proj1 (proj2 (C4_success_condition_and_malformed_200
                           (env_answering (response_with_content "Hi"))
                           example_client "hello" 3 5 0%float empty_world))
             (response_with_content "Hi") (body_with_content "Hi") (PStr "Hi"));
      reflexivity.
  - destruct (proj2 (proj2 (proj2 (proj2
               (C4_success_condition_and_malformed_200
                  (env_answering response_without_content)
                  example_client "hello" 3 5 0%float empty_world))))
               response_without_content eq_refl eq_refl)
      as (_ & Hround & _).
    + intros body content [= <-]. vm_compute. discriminate.
    + rewrite Hround. reflexivity.
Defined.

(** C4 as stated fails: a 200 whose content is the number 5, which is no
    text, is a success; the attempt and [call_api] return the number. *)
Lemma C4_counterexample_content_that_is_no_text :
  non_empty_text (PInt 5) = false
  /\ MonicaClient.call_api_attempt (env_answering (response_with_value (PInt 5)))
       example_client "hello" 0%float empty_world
     = (Ok (Some (Some (PInt 5), 1%float)),
        emit_all [EvPost (MonicaClient.endpoint example_client) "hello"; EvClock]
          empty_world)
  /\ (exists elapsed w',
        MonicaClient.call_api (env_answering (response_with_value (PInt 5)))
          example_client "hello" 3 5 empty_world
        = (Ok (Some (PInt 5), elapsed), w')).
Proof. split; [done|]. split; [by vm_compute|]. eexists _, _. by vm_compute. Qed.

Lemma for_each_app {I A} (l1 l2 : list I) (body : I -> M (option A)) w :
  for_each (l1 ++ l2) body w =
  match for_each l1 body w with
  | (Ok None, w') => for_each l2 body w'
  | other => other
  end.
Proof.
  revert w. induction l1 as [|i l1 IH]; intros w; [done|].
  rewrite <- app_comm_cons, !for_each_cons.
  destruct (body i w) as [[[v|]|x] w']; [done| |done]. apply IH.
Qed.

Lemma py_range_split n k :
  (0 <= k < n)%Z ->
  exists rest, py_range n = py_range k ++ k :: rest.
Proof.
  intros Hk. unfold py_range.
  replace (Z.to_nat n) with (Z.to_nat k + S (Z.to_nat n - S (Z.to_nat k))) by lia.
  rewrite seq_app, fmap_app. cbn [seq fmap list_fmap].
  eexists. f_equal. f_equal. lia.
Qed.

(** C6. When an attempt of [call_api] gets a status in [400, 500) other than
    429, the call stops there and returns [(None, elapsed)]: after the
    request only the clock is read, there is no sleep and no further request.
    This is stated for the attempt of any index [k] (the rounds before it
    having fallen through), for the loop at any point, whatever attempts were
    left, and for the first attempt, where the whole call makes exactly one
    request. *)
Theorem C6_client_error_stops_immediately
    (e : env) (self : MonicaClient.t) (prompt : string) (retry_attempts retry_delay : Z) :
  (forall k w wk response,
      (0 <= k < retry_attempts)%Z ->
      for_each (py_range k)
        (MonicaClient.call_api_iteration e self prompt retry_attempts retry_delay
           (env_time e (trace w)))
        (emit_all [EvClock] w)
      = (Ok None, wk) ->
      env_post e (trace wk) (MonicaClient.endpoint self) prompt = Ok response ->
      (400 <= Response.status_code response < 500)%Z ->
      Response.status_code response <> 429%Z ->
      MonicaClient.call_api e self prompt retry_attempts retry_delay w
      = (Ok (None,
             (env_time e (trace wk ++ [EvPost (MonicaClient.endpoint self) prompt])
              - env_time e (trace w))%float),
         emit_all [EvPost (MonicaClient.endpoint self) prompt; EvClock] wk))
  /\
  (forall start_time attempt rest w response,
      env_post e (trace w) (MonicaClient.endpoint self) prompt = Ok response ->
      (400 <= Response.status_code response < 500)%Z ->
      Response.status_code response <> 429%Z ->
      for_each (attempt :: rest)
        (MonicaClient.call_api_iteration e self prompt retry_attempts retry_delay start_time) w
      = (Ok (Some (None,
                   (env_time e (trace w ++ [EvPost (MonicaClient.endpoint self) prompt])
                    - start_time)%float)),
         emit_all [EvPost (MonicaClient.endpoint self) prompt; EvClock] w))
  /\ (forall w response,
        (1 <= retry_attempts)%Z ->
        env_post e (trace w ++ [EvClock]) (MonicaClient.endpoint self) prompt = Ok response ->
        (400 <= Response.status_code response < 500)%Z ->
        Response.status_code response <> 429%Z ->
        MonicaClient.call_api e self prompt retry_attempts retry_delay w
        = (Ok (None,
               (env_time e (trace w ++ [EvClock; EvPost (MonicaClient.endpoint self) prompt])
                - env_time e (trace w))%float),
           emit_all [EvClock; EvPost (MonicaClient.endpoint self) prompt; EvClock] w)
        /\ length (List.filter is_post
                     [EvClock; EvPost (MonicaClient.endpoint self) prompt; EvClock]) = 1
        /\ List.filter is_sleep
             [EvClock; EvPost (MonicaClient.endpoint self) prompt; EvClock] = []).
Proof.
  assert (forall start_time attempt rest w response,
      env_post e (trace w) (MonicaClient.endpoint self) prompt = Ok response ->
      (400 <= Response.status_code response < 500)%Z ->
      Response.status_code response <> 429%Z ->
      for_each (attempt :: rest)
        (MonicaClient.call_api_iteration e self prompt retry_attempts retry_delay start_time) w
      = (Ok (Some (None,
                   (env_time e (trace w ++ [EvPost (MonicaClient.endpoint self) prompt])
                    - start_time)%float)),
         emit_all [EvPost (MonicaClient.endpoint self) prompt; EvClock] w)) as Hloop.
  { intros start_time attempt rest w response Hpost Hrange H429.
    rewrite for_each_cons.
    erewrite iteration_return; [reflexivity|]. by eapply attempt_client_error. }
  split; [|split; [exact Hloop|]].
  { intros k w wk response Hk Hbefore Hpost Hrange H429.
    destruct (py_range_split retry_attempts k Hk) as [rest Hsplit].
    unfold MonicaClient.call_api. rewrite M_bind_unfold. unfold time_time at 1.
    rewrite emit_emit_all, M_bind_unfold, Hsplit, for_each_app, Hbefore.
    by erewrite Hloop. }
  intros w response Hn Hpost Hrange H429. split; [|done].
  unfold MonicaClient.call_api. rewrite M_bind_unfold. unfold time_time at 1.
  rewrite M_bind_unfold, py_range_pos by done.
  rewrite emit_emit_all.
  erewrite Hloop; [|rewrite trace_emit_all; exact Hpost|done|done].
  cbn [mret M_ret]. rewrite emit_all_emit_all, trace_emit_all, <- app_assoc. reflexivity.
Qed.

(** A 404 on the first of three attempts: one request, then the return. *)
Lemma C6_first_attempt_404_witness :
  (MonicaClient.call_api (env_answering response_not_found) example_client "hello" 3 5
     empty_world).2
  = emit_all [EvClock; EvPost (MonicaClient.endpoint example_client) "hello"; EvClock]
      empty_world.
Proof.
  destruct (proj2 (proj2 (C6_client_error_stops_immediately
                            (env_answering response_not_found) example_client "hello" 3 5))
             empty_world response_not_found
             ltac:(lia) eq_refl ltac:(cbn; lia) ltac:(cbn; lia)) as [Hcall _].
  rewrite Hcall. reflexivity.
Defined.

(* ------------------------------------------------------------------ *)
(** ** C8, C9: the two stages of the scraper and [scrape_url] *)
(* ------------------------------------------------------------------ *)

Lemma grows_refl w : grows w w.
Proof.
  split; [|split; [|done]].
  - exists []. by rewrite app_nil_r.
  - exists []. by rewrite app_nil_r.
Qed.

Lemma grows_trans w1 w2 w3 : grows w1 w2 -> grows w2 w3 -> grows w1 w3.
Proof.
  intros ((os1 & H1) & (ev1 & T1 & F1) & G1) ((os2 & H2) & (ev2 & T2 & F2) & G2).
  split; [|split].
  - exists (os1 ++ os2). by rewrite H2, H1, app_assoc.
  - exists (ev1 ++ ev2). split; [by rewrite T2, T1, app_assoc|].
    by rewrite forallb_app, F1, F2.
  - congruence.
Qed.

Lemma grows_emit ev w0 w : is_browse ev = false -> grows w0 w -> grows w0 (emit ev w).
Proof.
  intros H G. eapply grows_trans; [exact G|]. split; [|split; [|done]].
  - exists []. by rewrite app_nil_r.
  - exists [ev]. split; [done|]. cbn. by rewrite H.
Qed.

Lemma grows_alloc w0 w o :
  grows w0 w -> grows w0 (World (trace w) (heap w ++ [o]) (files w)).
Proof.
  intros G. eapply grows_trans; [exact G|]. split; [|split; [|done]].
  - by exists [o].
  - exists []. by rewrite app_nil_r.
Qed.

Lemma fresh_result_alloc w0 w o :
  grows w0 w ->
  fresh_result w0 (Some (length (heap w))) (World (trace w) (heap w ++ [o]) (files w)).
Proof.
  intros G. split; [by apply grows_alloc|]. intros l [= <-]. cbn. rewrite length_app. cbn.
  destruct G as [[os ->] _]. rewrite length_app. lia.
Qed.

Lemma fresh_result_none w0 w : grows w0 w -> fresh_result w0 None w.
Proof. by split. Qed.

Create HintDb grows.
#[local] Hint Resolve grows_refl grows_emit grows_alloc fresh_result_alloc fresh_result_none
  : grows.

Lemma ensures_random_delay e self w0 w (Q : result unit -> world -> Prop) :
  grows w0 w ->
  (forall r w', grows w0 w' -> Q r w') ->
  ensures (WebScraper._random_delay e self) w Q.
Proof.
  intros G HQ. unfold WebScraper._random_delay. ensures_step.
  destruct (WebScraper.request_delay self) as [lo hi|d]; repeat ensures_step.
  - apply ensures_sleep; intros; apply HQ; auto with grows.
  - apply ensures_sleep; intros; apply HQ; auto with grows.
Qed.

Lemma static_except_spec e self u attempt x w0 w :
  grows w0 w ->
  ensures (WebScraper.scrape_static_except e self u attempt x) w (static_post self attempt w0).
Proof.
  intros G. unfold WebScraper.scrape_static_except, static_post.
  destruct (WebScraper.is_RequestException x);
    [destruct (Z.eqb_spec attempt (WebScraper.max_retries self - 1))|];
    repeat ensures_step; eexists; (split; [done|]); split; auto with grows.
Qed.

Lemma static_attempt_spec e self u attempt w0 w :
  grows w0 w ->
  ensures (WebScraper.scrape_static_attempt e self u attempt) w (static_post self attempt w0).
Proof.
  intros G. unfold WebScraper.scrape_static_attempt, WebScraper.scrape_static_try.
  ensures_step. ensures_step.
  assert (forall w1, grows w0 w1 ->
    ensures (session_get_and_parse e u) w1 (fun r w' =>
      match r with
      | Ok p => ensures
          (now ← datetime_now_isoformat e;
           r ← new_ScrapingResult
                 (ScrapingResult.mk u true (Some (page_content p)) (page_title p)
                    (page_meta_description p)
                    (Some (take 50 (page_links p))) (Some (take 20 (page_images p)))
                    None (Some "static") (Some now));
           mret (Some r)) w'
          (fun r w' =>
             match r with
             | Ok a => static_post self attempt w0 (Ok a) w'
             | Raise x =>
                 ensures (WebScraper.scrape_static_except e self u attempt x) w'
                   (static_post self attempt w0)
             end)
      | Raise x =>
          ensures (WebScraper.scrape_static_except e self u attempt x) w'
            (static_post self attempt w0)
      end)) as Hget.
  { intros w1 G1. ensures_step.
    destruct (env_get e (trace w1) u) as [p|x];
      [|apply static_except_spec; auto with grows].
    repeat ensures_step. eexists; split; [done|]. split; [auto 6 with grows|done]. }
  destruct (Z.ltb_spec 0 attempt).
  - eapply ensures_random_delay; [exact G|]. intros [[]|x] w1 G1.
    + ensures_step. apply Hget, G1.
    + by apply static_except_spec.
  - ensures_step. ensures_step. apply Hget, G.
Qed.

(** The static stage returns a result whenever it is allowed one attempt,
    and whatever it returns is the object it allocated last. *)
Lemma static_content_spec e self u w :
  ensures (WebScraper.scrape_static_content e self u) w (fun r w' =>
    exists v, r = Ok v /\ fresh_result w v w'
      /\ ((1 <= WebScraper.max_retries self)%Z -> v <> None)).
Proof.
  unfold WebScraper.scrape_static_content.
  eapply ensures_consequence.
  - apply (ensures_for_each (WebScraper.scrape_static_attempt e self u) (grows w)
             (fun _ a w' => fresh_result w (Some a) w')
             (fun attempt => attempt <> (WebScraper.max_retries self - 1)%Z)).
    2: apply grows_refl.
    intros i w1 G1. eapply ensures_consequence; [apply (static_attempt_spec _ _ _ _ w w1 G1)|].
    intros r w' (v & -> & F' & Hlast). exists v. split; [done|].
    destruct v as [a|]; [done|]. split; [apply F'|]. intros ->. by apply Hlast.
  - cbn beta. intros r w' (v & -> & Hv). exists v. split; [done|].
    destruct v as [a|].
    + destruct Hv as (_ & _ & HF). by split.
    + destruct Hv as [G' Hall]. split; [by apply fresh_result_none|].
      intros Hn _. apply (Hall (WebScraper.max_retries self - 1)%Z); [|done].
      apply elem_of_py_range. lia.
Qed.

(** Without an attempt the loop body never runs: the function ends without
    a [return]. *)
Lemma static_content_no_attempt e self u w :
  (WebScraper.max_retries self <= 0)%Z ->
  WebScraper.scrape_static_content e self u w = (Ok None, w).
Proof.
  intros Hn. unfold WebScraper.scrape_static_content, py_range.
  replace (Z.to_nat (WebScraper.max_retries self)) with 0 by lia. reflexivity.
Qed.

(** The dynamic stage always returns a result: the one object it allocates. *)
Lemma dynamic_content_spec e self u w :
  exists d,
    WebScraper.scrape_dynamic_content e self u w
    = (Ok (length (heap w)),
       World (trace w ++ [EvBrowse u; EvClock]) (heap w ++ [d]) (files w)).
Proof.
  unfold WebScraper.scrape_dynamic_content, try_except.
  rewrite M_bind_unfold. unfold browser_render_and_parse at 1.
  destruct (env_browse e (trace w) u) as [p|x];
    unfold mbind, M_bind, datetime_now_isoformat, new_ScrapingResult; cbn;
    eexists; by rewrite <- app_assoc.
Qed.

Lemma load_lookup l o w : heap w !! l = Some o -> WebScraper.load l w = (Ok o, w).
Proof. intros H. unfold WebScraper.load. by rewrite H. Qed.

(** [scrape_url], one layer unfolded. *)
Lemma scrape_url_unfold e self u force w :
  WebScraper.scrape_url e self u force w =
  match env_urlparse e u with
  | Raise x => (Raise x, w)
  | Ok (scheme, netloc) =>
      if negb (truthy (PStr scheme) && truthy (PStr netloc)) then
        (Ok (length (heap w)),
         World (trace w ++ [EvClock])
           (heap w ++ [WebScraper.failure_result u "Invalid URL format" None
                         (env_now e (trace w))])
           (files w))
      else if force then WebScraper.scrape_dynamic_content e self u w
      else
        match WebScraper.scrape_static_content e self u w with
        | (Ok (Some sref), w1) => after_static e self u sref w1
        | (Ok None, w1) =>
            (Raise (Exn AttributeError "'NoneType' object has no attribute 'success'"), w1)
        | (Raise x, w1) => (Raise x, w1)
        end
  end.
Proof.
  unfold WebScraper.scrape_url. rewrite M_bind_unfold. unfold lift at 1.
  destruct (env_urlparse e u) as [[scheme netloc]|x]; [|done]. cbn [fst snd].
  destruct (negb (truthy (PStr scheme) && truthy (PStr netloc))); [done|].
  destruct force; [done|]. rewrite M_bind_unfold.
  destruct (WebScraper.scrape_static_content e self u w) as [[[sref|]|x] w1]; reflexivity.
Qed.

Lemma scrape_url_valid e self u scheme netloc w :
  env_urlparse e u = Ok (scheme, netloc) -> scheme <> "" -> netloc <> "" ->
  WebScraper.scrape_url e self u false w =
  match WebScraper.scrape_static_content e self u w with
  | (Ok (Some sref), w1) => after_static e self u sref w1
  | (Ok None, w1) =>
      (Raise (Exn AttributeError "'NoneType' object has no attribute 'success'"), w1)
  | (Raise x, w1) => (Raise x, w1)
  end.
Proof.
  intros Hparse Hs Hn. rewrite scrape_url_unfold, Hparse.
  apply truthy_str in Hs, Hn. by rewrite Hs, Hn.
Qed.

(** What follows the static stage, by cases. *)
Lemma after_static_cases e self u sref s w1 :
  heap w1 !! sref = Some s ->
  exists d,
    let w2 := World (trace w1 ++ [EvBrowse u; EvClock]) (heap w1 ++ [d]) (files w1) in
    WebScraper.scrape_dynamic_content e self u w1 = (Ok (length (heap w1)), w2)
    /\ after_static e self u sref w1 =
       if ScrapingResult.success s
          && WebScraper._is_content_sufficient (ScrapingResult.content s)
       then (Ok sref, w1)
       else if ScrapingResult.success d then (Ok (length (heap w1)), w2)
       else (Ok sref,
             World (trace w2)
               (<[sref := ScrapingResult.with_error_message s
                     (Some (WebScraper.both_failed_message (ScrapingResult.error_message s)
                              (ScrapingResult.error_message d)))]> (heap w2))
               (files w2)).
Proof.
  intros Hs. destruct (dynamic_content_spec e self u w1) as [d Hdyn].
  exists d. cbn zeta. split; [done|].
  unfold after_static. rewrite M_bind_unfold, (load_lookup _ _ _ Hs).
  destruct (ScrapingResult.success s
            && WebScraper._is_content_sufficient (ScrapingResult.content s)); [done|].
  assert (forall os : list ScrapingResult.t, (heap w1 ++ os) !! sref = Some s) as Hs2.
  { intros os. by apply lookup_app_l_Some. }
  assert ((heap w1 ++ [d]) !! length (heap w1) = Some d) as Hd.
  { by apply list_lookup_middle. }
  rewrite M_bind_unfold, Hdyn.
  rewrite M_bind_unfold, (load_lookup _ d) by done.
  destruct (ScrapingResult.success d); [done|].
  rewrite M_bind_unfold, (load_lookup _ s) by apply Hs2.
  rewrite M_bind_unfold, (load_lookup _ d) by done.
  rewrite M_bind_unfold. unfold set_error_message at 1. cbn [heap].
  rewrite Hs2. reflexivity.
Qed.

Lemma heap_kept_refl h : heap_kept h h.
Proof. by intros l o H. Qed.

Lemma heap_kept_app h os : heap_kept h (h ++ os).
Proof. intros l o H. by apply lookup_app_l_Some. Qed.

Lemma with_error_message_same o :
  ScrapingResult.with_error_message o (ScrapingResult.error_message o) = o.
Proof. by destruct o. Qed.

Lemma with_error_message_back o m :
  ScrapingResult.with_error_message (ScrapingResult.with_error_message o m)
    (ScrapingResult.error_message o) = o.
Proof. by destruct o. Qed.

Lemma static_content_heap e self u w r w1 :
  WebScraper.scrape_static_content e self u w = (r, w1) ->
  exists v os, r = Ok v /\ heap w1 = heap w ++ os
    /\ (forall sref, v = Some sref -> length (heap w) <= sref /\ S sref = length (heap w1)).
Proof.
  intros Hrun.
  destruct (ensures_run _ _ _ (static_content_spec e self u w))
    as (r' & w1' & Hstatic & v & -> & [G F] & _).
  rewrite Hrun in Hstatic. injection Hstatic as -> ->.
  destruct G as [[os Hos] _]. by exists v, os.
Qed.

(** Past the static stage: what [scrape_url] does to the results that exist
    by then. *)
Lemma after_static_frame e self u sref s w1 r w' :
  heap w1 !! sref = Some s ->
  after_static e self u sref w1 = (r, w') ->
  heap_kept_but_error_message (heap w1) (heap w')
  /\ (forall l o, l <> sref -> heap w1 !! l = Some o -> heap w' !! l = Some o)
  /\ (forall dref w2 o,
         WebScraper.scrape_dynamic_content e self u w1 = (Ok dref, w2) ->
         heap w' !! dref = Some o -> heap w2 !! dref = Some o)
  /\ (forall s',
         heap w' !! sref = Some s' -> s' <> s ->
         r = Ok sref
         /\ ScrapingResult.success s
            && WebScraper._is_content_sufficient (ScrapingResult.content s) = false
         /\ exists d, heap w' !! length (heap w1) = Some d
              /\ ScrapingResult.success d = false).
Proof.
  intros Hs Hrun.
  pose proof (lookup_lt_Some _ _ _ Hs) as Hlt.
  destruct (after_static_cases e self u sref s w1 Hs) as (d & Hdyn & Hafter).
  cbn zeta in Hdyn, Hafter. rewrite Hafter in Hrun. clear Hafter.
  destruct (ScrapingResult.success s
            && WebScraper._is_content_sufficient (ScrapingResult.content s)) eqn:Hc.
  { injection Hrun as <- <-. split; [|split; [|split]].
    - intros l o Hl. exists o. split; [done|apply with_error_message_same].
    - done.
    - intros dref w2 o Hdyn'. rewrite Hdyn in Hdyn'. injection Hdyn' as <- <-.
      intros Hl. apply lookup_lt_Some in Hl. lia.
    - intros s' Hs'. rewrite Hs in Hs'. by injection Hs' as <-. }
  destruct (ScrapingResult.success d) eqn:Hd.
  { injection Hrun as <- <-. cbn [heap]. split; [|split; [|split]].
    - intros l o Hl. exists o. split; [by apply lookup_app_l_Some|].
      apply with_error_message_same.
    - intros l o _ Hl. by apply lookup_app_l_Some.
    - intros dref w2 o Hdyn'. rewrite Hdyn in Hdyn'. by injection Hdyn' as <- <-.
    - intros s' Hs'. rewrite (lookup_app_l_Some _ _ _ _ Hs) in Hs'. by injection Hs' as <-. }
  injection Hrun as <- <-. cbn [heap]. split; [|split; [|split]].
  - intros l o Hl. destruct (decide (l = sref)) as [Heq|Hne].
    + subst l. rewrite Hs in Hl. injection Hl as <-. eexists. split.
      * apply list_lookup_insert_eq. rewrite length_app. lia.
      * apply with_error_message_back.
    + exists o. split; [|apply with_error_message_same].
      rewrite list_lookup_insert_ne by done. by apply lookup_app_l_Some.
  - intros l o Hne Hl. rewrite list_lookup_insert_ne by done. by apply lookup_app_l_Some.
  - intros dref w2 o Hdyn'. rewrite Hdyn in Hdyn'. injection Hdyn' as <- <-. cbn [heap].
    by rewrite list_lookup_insert_ne by lia.
  - intros s' _ _. split; [done|]. split; [done|]. exists d. split; [|done].
    rewrite list_lookup_insert_ne by lia. by apply list_lookup_middle.
Qed.

(** [execute_scraping] runs [scrape_url] once, after creating the output
    directory, and leaves the heap as [scrape_url] left it. *)
Lemma execute_scraping_heap e cfg competition_name u w b w' :
  WorkflowExecutor.execute_scraping e cfg competition_name u w = (b, w') ->
  heap w' = heap w
  \/ exists w0, heap w0 = heap w
       /\ heap w'
          = heap (WebScraper.scrape_url e (WorkflowExecutor.scraper_settings cfg) u false w0).2.
Proof.
  unfold WorkflowExecutor.execute_scraping.
  generalize (WebScraper.scrape_url e (WorkflowExecutor.scraper_settings cfg) u false).
  intros scrape. unfold try_except, mbind, M_bind, mret, M_ret, mkdir, write_file,
    WebScraper.load.
  intros H.
  destruct (env_io_error e (trace w)) as [x|]; [left; by injection H as <- <-|].
  right. exists (emit (EvMkdir (WorkflowExecutor.competition_info_dir cfg competition_name)) w).
  split; [done|].
  destruct (scrape _) as [[result|x] w''] eqn:Hscrape; cbn [snd]; [|by injection H as <- <-].
  destruct (heap w'' !! result) as [o|]; [|by injection H as <- <-].
  destruct (negb (ScrapingResult.success o)); [by injection H as <- <-|].
  destruct (env_io_error e (trace w'')) as [x|]; [by injection H as <- <-|].
  cbn [trace] in H.
  destruct (env_io_error e _) as [x|]; by injection H as <- <-.
Qed.

(** C8, as the code has it. The static and the dynamic stage construct
    results and assign to none; [scrape_url] leaves every result of an earlier
    call as it was; of the results that exist once its static stage has
    returned, every attribute but [error_message] stays as constructed, no
    result but the static one changes at all, the dynamic result stays as
    constructed, and the static result's [error_message] is overwritten only
    when it is returned after both stages failed. The orchestrator's
    [execute_scraping] adds no change of its own to the heap. *)
Theorem C8_only_error_message_of_static_result_is_overwritten
    (e : env) (self : WebScraper.t) (u : string) (w : world) :
  (forall r w1, WebScraper.scrape_static_content e self u w = (r, w1) ->
                heap_kept (heap w) (heap w1))
  /\ (forall r w2, WebScraper.scrape_dynamic_content e self u w = (r, w2) ->
                   heap_kept (heap w) (heap w2))
  /\ (forall force r w',
        WebScraper.scrape_url e self u force w = (r, w') ->
        heap_kept (heap w) (heap w')
        /\ forall scheme netloc sref w1,
             force = false ->
             env_urlparse e u = Ok (scheme, netloc) -> scheme <> "" -> netloc <> "" ->
             WebScraper.scrape_static_content e self u w = (Ok (Some sref), w1) ->
             heap_kept_but_error_message (heap w1) (heap w')
             /\ (forall l o, l <> sref -> heap w1 !! l = Some o -> heap w' !! l = Some o)
             /\ (forall dref w2 o,
                    WebScraper.scrape_dynamic_content e self u w1 = (Ok dref, w2) ->
                    heap w' !! dref = Some o -> heap w2 !! dref = Some o)
             /\ (forall s s',
                    heap w1 !! sref = Some s -> heap w' !! sref = Some s' -> s' <> s ->
                    r = Ok sref
                    /\ ScrapingResult.success s
                       && WebScraper._is_content_sufficient (ScrapingResult.content s) = false
                    /\ exists d, heap w' !! length (heap w1) = Some d
                         /\ ScrapingResult.success d = false))
  /\ (forall cfg competition_name b w',
        WorkflowExecutor.execute_scraping e cfg competition_name u w = (b, w') ->
        heap w' = heap w
        \/ exists w0, heap w0 = heap w
             /\ heap w'
                = heap (WebScraper.scrape_url e (WorkflowExecutor.scraper_settings cfg)
                          u false w0).2).
Proof.
  split; [|split; [|split]].
  - intros r w1 Hrun. destruct (static_content_heap _ _ _ _ _ _ Hrun) as (v & os & _ & -> & _).
    apply heap_kept_app.
  - intros r w2 Hrun. destruct (dynamic_content_spec e self u w) as [d Hd].
    rewrite Hrun in Hd. injection Hd as -> ->. apply heap_kept_app.
  - intros force r w' Hrun. rewrite scrape_url_unfold in Hrun.
    destruct (env_urlparse e u) as [[scheme0 netloc0]|x] eqn:Hparse.
    2:{ injection Hrun as <- <-. split; [apply heap_kept_refl|]. by intros. }
    destruct (negb (truthy (PStr scheme0) && truthy (PStr netloc0))) eqn:Hvalid.
    { injection Hrun as <- <-. split; [apply heap_kept_app|].
      intros scheme netloc sref w1 _ [= -> ->] Hs%truthy_str Hn%truthy_str.
      by rewrite Hs, Hn in Hvalid. }
    destruct force.
    { split; [|by intros].
      destruct (dynamic_content_spec e self u w) as [d Hd].
      rewrite Hrun in Hd. injection Hd as -> ->. apply heap_kept_app. }
    destruct (WebScraper.scrape_static_content e self u w) as [[[sref0|]|x] w10] eqn:Hstatic.
    + destruct (static_content_heap _ _ _ _ _ _ Hstatic) as (v & os & [= <-] & Hos & Hfresh).
      destruct (Hfresh sref0 eq_refl) as [Hge Hlast].
      assert (is_Some (heap w10 !! sref0)) as [s Hs] by (apply lookup_lt_is_Some; lia).
      destruct (after_static_frame _ _ _ _ _ _ _ _ Hs Hrun) as (F1 & F2 & F3 & F4).
      split.
      * intros l o Hl. apply F2; [apply lookup_lt_Some in Hl; lia|].
        rewrite Hos. by apply lookup_app_l_Some.
      * intros scheme netloc sref w1 _ _ _ _ [= <- <-].
        split; [done|]. split; [done|]. split; [done|].
        intros s0 s' Hs0. rewrite Hs in Hs0. injection Hs0 as <-. apply F4.
    + injection Hrun as <- <-. split; [|by intros].
      destruct (static_content_heap _ _ _ _ _ _ Hstatic) as (v & os & _ & -> & _).
      apply heap_kept_app.
    + injection Hrun as <- <-. split; [|by intros].
      destruct (static_content_heap _ _ _ _ _ _ Hstatic) as (v & os & _ & -> & _).
      apply heap_kept_app.
  - intros cfg competition_name b w'. apply execute_scraping_heap.
Qed.

(** A site that nothing reaches, scraped with the default configuration:
    the static result is returned, and only its [error_message] differs from
    what the static stage constructed. *)
Lemma C8_unreachable_site_witness :
  exists s s',
    heap (WebScraper.scrape_static_content unreachable_env WebScraper.default_config
            "https://example.org/prize" empty_world).2 !! 0 = Some s
    /\ heap (WebScraper.scrape_url unreachable_env WebScraper.default_config
               "https://example.org/prize" false empty_world).2 !! 0 = Some s'
    /\ ScrapingResult.with_error_message s' (ScrapingResult.error_message s) = s.
Proof.
  destruct (WebScraper.scrape_url unreachable_env WebScraper.default_config
              "https://example.org/prize" false empty_world) as [r w'] eqn:Hrun.
  destruct (WebScraper.scrape_static_content unreachable_env WebScraper.default_config
              "https://example.org/prize" empty_world) as [r1 w1] eqn:Hstatic.
  assert (r1 = Ok (Some 0)) as ->.
  { apply (f_equal fst) in Hstatic. vm_compute in Hstatic. congruence. }
  destruct (proj1 (proj2 (proj2
              (C8_only_error_message_of_static_result_is_overwritten
                 unreachable_env WebScraper.default_config "https://example.org/prize"
                 empty_world))) false r w' Hrun) as [_ Hframe].
  destruct (Hframe "https" "example.org" 0 w1 eq_refl eq_refl ltac:(done) ltac:(done) Hstatic)
    as (Hkept & _).
  assert (is_Some (heap w1 !! 0)) as [s Hs].
  { apply (f_equal snd) in Hstatic. cbn [snd] in Hstatic. subst w1.
    vm_compute. eauto. }
  destruct (Hkept 0 s Hs) as (s' & Hs' & Heq).
  exists s, s'. done.
Defined.

(** C8 as stated fails: when both stages fail, [scrape_url] assigns a new
    [error_message] to the result that the static stage constructed. *)
Lemma C8_counterexample_error_message_overwritten :
  let static_run :=
    WebScraper.scrape_static_content unreachable_env WebScraper.default_config
      "https://example.org/prize" empty_world in
  let url_run :=
    WebScraper.scrape_url unreachable_env WebScraper.default_config
      "https://example.org/prize" false empty_world in
  static_run.1 = Ok (Some 0)
  /\ url_run.1 = Ok 0
  /\ ScrapingResult.error_message <$> heap static_run.2 !! 0
     = Some (Some "Static scraping failed after 3 attempts: timed out")
  /\ ScrapingResult.error_message <$> heap url_run.2 !! 0
     = Some (Some ("Both static and dynamic scraping failed. "
                   +:+ "Static: Static scraping failed after 3 attempts: timed out, "
                   +:+ "Dynamic: WebDriver error for https://example.org/prize: "
                   +:+ "chrome not reachable")).
Proof. vm_compute. done. Qed.

(** C9: the code does not do what the claim says. With [max_retries] at 0
    (or below) the loop of [scrape_static_content] has no round, the function
    ends without a [return] and hands back [None], not a [ScrapingResult];
    [scrape_url] then raises [AttributeError] on [static_result.success],
    and nothing in it catches that. *)
Theorem C9_scrape_url_raises_without_attempts
    (e : env) (self : WebScraper.t) (u scheme netloc : string) (w : world) :
  (WebScraper.max_retries self <= 0)%Z ->
  env_urlparse e u = Ok (scheme, netloc) -> scheme <> "" -> netloc <> "" ->
  WebScraper.scrape_static_content e self u w = (Ok None, w)
  /\ WebScraper.scrape_url e self u false w
     = (Raise (Exn AttributeError "'NoneType' object has no attribute 'success'"), w).
Proof.
  intros Hretries Hparse Hscheme Hnetloc.
  pose proof (static_content_no_attempt e self u w Hretries) as Hstatic.
  split; [done|].
  by rewrite (scrape_url_valid _ _ _ _ _ _ Hparse Hscheme Hnetloc), Hstatic.
Qed.

Lemma C9_max_retries_zero_witness :
  WebScraper.scrape_url unreachable_env
    (WebScraper.mk (WebScraper.DelayRange 2 5) 0) "https://example.org/prize" false empty_world
  = (Raise (Exn AttributeError "'NoneType' object has no attribute 'success'"), empty_world).
Proof.
  apply (C9_scrape_url_raises_without_attempts unreachable_env
           (WebScraper.mk (WebScraper.DelayRange 2 5) 0)
           "https://example.org/prize" "https" "example.org" empty_world);
    [cbn; lia | reflexivity | done | done].
Defined.

(* ------------------------------------------------------------------ *)
(** ** C10: a failed LLM call still ends in a written application *)
(* ------------------------------------------------------------------ *)

Lemma complete_raises_on_None e self prompt retry_attempts retry_delay w elapsed w' :
  MonicaClient.call_api e self prompt retry_attempts retry_delay w = (Ok (None, elapsed), w') ->
  MonicaClient.complete e self prompt retry_attempts retry_delay w
  = (Raise (Exn GenericException
              ("Monica API call failed after " +:+ pretty retry_attempts +:+ " attempts")),
     w').
Proof.
  intros H. unfold MonicaClient.complete. rewrite M_bind_unfold, H. reflexivity.
Qed.

Lemma fallback_document_embeds error n now :
  str_contains error (WorkflowExecutor.fallback_document error n now) = true.
Proof.
  unfold WorkflowExecutor.fallback_document.
  do 4 apply str_contains_skip. apply str_contains_prefix.
Qed.

Lemma call_llm_fallback e self prompt w x w' :
  MonicaClient.complete e (WorkflowExecutor.llm_settings self) prompt 3 5 w = (Raise x, w') ->
  WorkflowExecutor.call_llm_for_application e self prompt w
  = (Ok (PStr (WorkflowExecutor.fallback_document (exn_msg x) (String.length prompt)
                 (env_now e (trace w')))),
     emit EvClock w').
Proof.
  intros H. unfold WorkflowExecutor.call_llm_for_application, try_except.
  rewrite M_bind_unfold, H. reflexivity.
Qed.

(** C10. When the call to the LLM inside [call_llm_for_application] raises
    (as [complete] does once [call_api] has used up its attempts), the
    exception is caught there and the fallback document, which embeds the
    error message, is returned as if it were the application. So, the
    stages before it having succeeded and the file system accepting the
    write, [execute_application_generation] writes that document to the
    application file and returns [True]. *)
Theorem C10_llm_failure_is_reported_as_success
    (e : env) (self : WorkflowExecutor.t) (competition_name : string)
    (w w1 w2 w3 w4 : world) (template prompt : string) (docs : list (string * pyval))
    (x : exn) :
  WorkflowExecutor.load_prompt_template e self w = (Ok template, w1) ->
  WorkflowExecutor.load_reference_docs e self competition_name w1 = (Ok docs, w2) ->
  WorkflowExecutor.construct_final_prompt e template docs competition_name w2
  = (Ok prompt, w3) ->
  MonicaClient.complete e (WorkflowExecutor.llm_settings self) prompt 3 5 w3 = (Raise x, w4) ->
  let document :=
    WorkflowExecutor.fallback_document (exn_msg x) (String.length prompt)
      (env_now e (trace w4)) in
  let output_dir := path_join (WorkflowExecutor.output_base self) competition_name in
  WorkflowExecutor.call_llm_for_application e self prompt w3
  = (Ok (PStr document), emit EvClock w4)
  /\ str_contains (exn_msg x) document = true
  /\ (env_io_error e (trace w4 ++ [EvClock]) = None ->
      env_io_error e (trace w4 ++ [EvClock; EvMkdir output_dir]) = None ->
      exists w',
        WorkflowExecutor.execute_application_generation e self competition_name w
        = (Ok true, w')
        /\ files w' !! WorkflowExecutor.application_path self competition_name
           = Some document)
  /\ (forall elapsed w0 w0',
        MonicaClient.call_api e (WorkflowExecutor.llm_settings self) prompt 3 5 w0
        = (Ok (None, elapsed), w0') ->
        MonicaClient.complete e (WorkflowExecutor.llm_settings self) prompt 3 5 w0
        = (Raise (Exn GenericException "Monica API call failed after 3 attempts"), w0')).
Proof.
  intros Htemplate Hdocs Hprompt Hllm document output_dir.
  pose proof (call_llm_fallback _ _ _ _ _ _ Hllm) as Hcall. fold document in Hcall.
  split; [exact Hcall|]. split; [apply fallback_document_embeds|]. split.
  - intros Hio1 Hio2. eexists. split.
    + unfold WorkflowExecutor.execute_application_generation, try_except.
      rewrite M_bind_unfold, Htemplate, M_bind_unfold, Hdocs, M_bind_unfold, Hprompt.
      rewrite M_bind_unfold, Hcall.
      rewrite M_bind_unfold. unfold mkdir at 1. cbn [trace emit].
      fold output_dir. rewrite Hio1.
      rewrite M_bind_unfold. unfold write_file at 1. cbn [trace emit].
      rewrite <- app_assoc. cbn [app]. rewrite Hio2. reflexivity.
    + cbn [files]. apply lookup_insert_eq.
  - intros elapsed w0 w0' Hnone.
    rewrite (complete_raises_on_None _ _ _ _ _ _ _ _ Hnone). vm_compute. reflexivity.
Qed.

(** Nothing answers the three requests: the application file is written all
    the same, with the error in it, and the stage returns [True]. *)
Lemma C10_unreachable_llm_witness :
  exists w' document,
    WorkflowExecutor.execute_application_generation unreachable_env example_workflow
      "prize" world_with_template = (Ok true, w')
    /\ files w' !! "output/prize/prize_application.md" = Some document
    /\ str_contains "Monica API call failed after 3 attempts" document = true.
Proof.
  edestruct (C10_llm_failure_is_reported_as_success unreachable_env example_workflow "prize"
               world_with_template)
    as (_ & Hembeds & Hwrites & _).
  - vm_compute. reflexivity.
  - vm_compute. reflexivity.
  - vm_compute. reflexivity.
  - vm_compute. reflexivity.
  - destruct Hwrites as (w' & Hrun & Hfile); [reflexivity|reflexivity|].
    eexists _, _. split; [exact Hrun|]. split; [exact Hfile|]. exact Hembeds.
Defined.

(* ================================================================== *)
(** * Further properties of the code *)
(* ================================================================== *)

(* ------------------------------------------------------------------ *)
(** ** The retry loop of [call_api] and [complete] *)
(* ------------------------------------------------------------------ *)

Lemma attempt_retryable e self prompt start_time w :
  retryable (env_post e (trace w) (MonicaClient.endpoint self) prompt) = true ->
  MonicaClient.call_api_attempt e self prompt start_time w
  = (Ok None, emit_all [EvPost (MonicaClient.endpoint self) prompt] w).
Proof.
  unfold retryable.
  destruct (env_post e (trace w) (MonicaClient.endpoint self) prompt) as [r|x] eqn:Hpost.
  2:{ intros _. by eapply attempt_raise. }
  cbn zeta. destruct (Z.eqb_spec (Response.status_code r) 200) as [H200|H200].
  - rewrite (attempt_200 _ _ _ _ _ _ Hpost H200).
    by destruct (MonicaClient.carried_content r).
  - intros H. eapply attempt_other_status; [done|done|].
    destruct (Z.eqb_spec (Response.status_code r) 429); [lia|]. cbn in H.
    apply negb_true_iff, andb_false_iff in H as [H|H].
    + apply Z.leb_gt in H. lia.
    + apply Z.ltb_ge in H. lia.
Qed.

Lemma sleep_error_int_cases z :
  sleep_error_int z
  = if (0 <=? z)%Z && (z <=? 9223372036)%Z then None
    else if (-9223372036 <=? z)%Z && (z <? 0)%Z then Some sleep_negative
    else Some sleep_overflow.
Proof.
  unfold sleep_error_int.
  destruct (Z.ltb_spec z (-9223372036)), (Z.ltb_spec 9223372036 z), (Z.ltb_spec z 0),
    (Z.leb_spec 0 z), (Z.leb_spec z 9223372036), (Z.leb_spec (-9223372036) z);
    cbn; try reflexivity; lia.
Qed.

Lemma backoff_delay_valid attempt retry_delay :
  (0 <= attempt)%Z -> (0 <= retry_delay)%Z ->
  sleep_error
    (SecInt (MonicaClient.calculate_backoff_delay attempt retry_delay
               MonicaClient.default_max_delay)) = None.
Proof.
  intros Ha Hd. cbn [sleep_error]. rewrite sleep_error_int_cases.
  unfold MonicaClient.calculate_backoff_delay.
  rewrite py_min_spec. unfold MonicaClient.default_max_delay.
  assert (0 <= 2 ^ attempt)%Z by (apply Z.pow_nonneg; lia).
  assert (0 <= retry_delay * 2 ^ attempt)%Z by (by apply Z.mul_nonneg_nonneg).
  destruct (Z.leb_spec 0 (Z.min (retry_delay * 2 ^ attempt) 300)); [|lia].
  destruct (Z.leb_spec (Z.min (retry_delay * 2 ^ attempt) 300) 9223372036); [|lia].
  reflexivity.
Qed.

Lemma retry_events_snoc self prompt n d attempts attempt :
  retry_events self prompt n d (attempts ++ [attempt])
  = retry_events self prompt n d attempts
    ++ EvPost (MonicaClient.endpoint self) prompt ::
       if (attempt <? n - 1)%Z
       then [EvSleep (SecInt (MonicaClient.calculate_backoff_delay attempt d
                                MonicaClient.default_max_delay))]
       else [].
Proof.
  unfold retry_events. rewrite bind_app. cbn. by rewrite app_nil_r.
Qed.

Lemma py_range_succ k : (0 <= k)%Z -> py_range (k + 1) = py_range k ++ [k].
Proof.
  intros Hk. unfold py_range.
  replace (Z.to_nat (k + 1)) with (Z.to_nat k + 1) by lia.
  rewrite seq_app, fmap_app. cbn. f_equal. f_equal. lia.
Qed.

(** The rounds before attempt [k] all fall through, given that the answers
    they get are retryable. *)
Lemma call_api_rounds_fall_through e self prompt n d start_time w k :
  (0 <= d)%Z -> (0 <= k)%Z ->
  (forall j, (0 <= j < k)%Z ->
     retryable (env_post e (trace w ++ retry_events self prompt n d (py_range j))
                  (MonicaClient.endpoint self) prompt) = true) ->
  for_each (py_range k) (MonicaClient.call_api_iteration e self prompt n d start_time) w
  = (Ok None, emit_all (retry_events self prompt n d (py_range k)) w).
Proof.
  intros Hd Hk. pattern k. apply natlike_ind; [| |exact Hk]; clear k Hk.
  - intros _. cbn. unfold emit_all. rewrite app_nil_r. by destruct w.
  - intros k Hk IH Hretry. unfold Z.succ. rewrite py_range_succ by done.
    rewrite for_each_app, IH by (intros j Hj; apply Hretry; lia).
    rewrite for_each_cons.
    rewrite (iteration_fallthrough _ _ _ _ _ _ _ _
               (emit_all (EvPost (MonicaClient.endpoint self) prompt :: nil)
                  (emit_all (retry_events self prompt n d (py_range k)) w))).
    2:{ apply attempt_retryable. rewrite trace_emit_all. apply Hretry. lia. }
    rewrite retry_events_snoc, M_bind_unfold.
    destruct (k <? n - 1)%Z.
    + unfold time_sleep. rewrite backoff_delay_valid by done.
      cbn. rewrite emit_emit_all, !emit_all_emit_all. reflexivity.
    + cbn. rewrite !emit_all_emit_all. reflexivity.
Qed.

(** X1. A success at attempt [k] after [k] retryable answers: [call_api]
    returns the content of that response, having made [k + 1] requests and
    slept the backoff delays of attempts 0 to [k - 1], and nothing more. *)
Theorem X1_call_api_succeeds_after_retries
    (e : env) (self : MonicaClient.t) (prompt : string) (n d k : Z) (w : world)
    (response : Response.t) (content : pyval) :
  (0 <= d)%Z -> (0 <= k < n)%Z ->
  (forall j, (0 <= j < k)%Z ->
     retryable (env_post e (trace w ++ EvClock :: retry_events self prompt n d (py_range j))
                  (MonicaClient.endpoint self) prompt) = true) ->
  env_post e (trace w ++ EvClock :: retry_events self prompt n d (py_range k))
    (MonicaClient.endpoint self) prompt = Ok response ->
  Response.status_code response = 200%Z ->
  MonicaClient.carried_content response = Some content ->
  MonicaClient.call_api e self prompt n d w
  = (Ok (Some content,
         (env_time e (trace w ++ EvClock :: retry_events self prompt n d (py_range k)
                        ++ [EvPost (MonicaClient.endpoint self) prompt])
          - env_time e (trace w))%float),
     emit_all (EvClock :: retry_events self prompt n d (py_range k)
                 ++ [EvPost (MonicaClient.endpoint self) prompt; EvClock]) w).
Proof.
  intros Hd Hk Hretry Hpost H200 Hcontent.
  destruct (py_range_split n k Hk) as [rest Hsplit].
  unfold MonicaClient.call_api. rewrite M_bind_unfold. unfold time_time at 1.
  rewrite emit_emit_all, M_bind_unfold, Hsplit, for_each_app.
  rewrite call_api_rounds_fall_through; [|done|lia|].
  2:{ intros j Hj. rewrite trace_emit_all, <- app_assoc. by apply Hretry. }
  rewrite for_each_cons.
  erewrite iteration_return.
  2:{ erewrite attempt_200; [|rewrite !trace_emit_all, <- app_assoc; exact Hpost|done].
      rewrite Hcontent. reflexivity. }
  cbn [mret M_ret]. rewrite !emit_all_emit_all, !trace_emit_all.
  rewrite <- !app_assoc. reflexivity.
Qed.

Lemma X1_rate_limited_once_witness :
  MonicaClient.call_api env_rate_limited_once example_client "hello" 3 5 empty_world
  = (Ok (Some (PStr "Hi"),
         (env_time env_rate_limited_once
            (trace empty_world ++ EvClock ::
               retry_events example_client "hello" 3 5 (py_range 1)
               ++ [EvPost (MonicaClient.endpoint example_client) "hello"])
          - env_time env_rate_limited_once (trace empty_world))%float),
     emit_all (EvClock :: retry_events example_client "hello" 3 5 (py_range 1)
                 ++ [EvPost (MonicaClient.endpoint example_client) "hello"; EvClock])
       empty_world).
Proof.
  apply (X1_call_api_succeeds_after_retries env_rate_limited_once example_client "hello"
           3 5 1 empty_world (response_with_content "Hi") (PStr "Hi")).
  - lia.
  - lia.
  - intros j Hj. assert (j = 0%Z) as -> by lia. vm_compute. reflexivity.
  - vm_compute. reflexivity.
  - reflexivity.
  - vm_compute. reflexivity.
Defined.

Lemma py_range_nonpos n : (n <= 0)%Z -> py_range n = [].
Proof. intros Hn. unfold py_range. by replace (Z.to_nat n) with 0 by lia. Qed.

Lemma count_events_app p evs1 evs2 :
  count_events p (evs1 ++ evs2) = count_events p evs1 + count_events p evs2.
Proof. unfold count_events. by rewrite List.filter_app, length_app. Qed.

Lemma count_retry_events self prompt n d k :
  (0 <= k)%Z ->
  count_events is_post (retry_events self prompt n d (py_range k)) = Z.to_nat k
  /\ count_events is_sleep (retry_events self prompt n d (py_range k))
     = Z.to_nat (Z.min k (n - 1)).
Proof.
  intros Hk. pattern k. apply natlike_ind; [| |exact Hk]; clear k Hk.
  - split; [done|]. replace (Z.to_nat (Z.min 0 (n - 1))) with 0 by lia. reflexivity.
  - intros k Hk [IHp IHs]. unfold Z.succ.
    rewrite py_range_succ, retry_events_snoc, !count_events_app, IHp, IHs by done.
    destruct (Z.ltb_spec k (n - 1)); cbn; lia.
Qed.

(** X2. When every answer is retryable and [retry_delay] is not negative,
    [call_api] makes [retry_attempts] requests with the backoff sleeps
    between them (one fewer than the requests) and returns [(None, elapsed)];
    [complete] then raises its exception. *)
Theorem X2_call_api_exhausts_its_attempts
    (e : env) (self : MonicaClient.t) (prompt : string) (n d : Z) (w : world) :
  (0 <= d)%Z ->
  (forall j, (0 <= j < n)%Z ->
     retryable (env_post e (trace w ++ EvClock :: retry_events self prompt n d (py_range j))
                  (MonicaClient.endpoint self) prompt) = true) ->
  let evs := EvClock :: retry_events self prompt n d (py_range n) in
  MonicaClient.call_api e self prompt n d w
  = (Ok (None, (env_time e (trace w ++ evs) - env_time e (trace w))%float),
     emit_all (evs ++ [EvClock]) w)
  /\ MonicaClient.complete e self prompt n d w
     = (Raise (Exn GenericException
                 ("Monica API call failed after " +:+ pretty n +:+ " attempts")),
        emit_all (evs ++ [EvClock]) w)
  /\ count_events is_post evs = Z.to_nat n
  /\ count_events is_sleep evs = Z.to_nat (n - 1).
Proof.
  intros Hd Hretry evs.
  assert (MonicaClient.call_api e self prompt n d w
          = (Ok (None, (env_time e (trace w ++ evs) - env_time e (trace w))%float),
             emit_all (evs ++ [EvClock]) w)) as Hcall.
  { unfold MonicaClient.call_api. rewrite M_bind_unfold. unfold time_time at 1.
    rewrite emit_emit_all, M_bind_unfold.
    destruct (Z_lt_le_dec n 0) as [Hn|Hn].
    - subst evs. rewrite py_range_nonpos by lia. cbn [for_each mret M_ret].
      rewrite M_bind_unfold. unfold time_time at 1. cbn [mret M_ret].
      rewrite emit_emit_all, !emit_all_emit_all, trace_emit_all. reflexivity.
    - rewrite call_api_rounds_fall_through; [|done|done|].
      2:{ intros j Hj. rewrite trace_emit_all, <- app_assoc. by apply Hretry. }
      rewrite M_bind_unfold. unfold time_time at 1. cbn [mret M_ret].
      rewrite emit_emit_all, !emit_all_emit_all, !trace_emit_all, <- !app_assoc.
      reflexivity. }
  split; [exact Hcall|]. split; [by apply complete_raises_on_None in Hcall|].
  subst evs. change (EvClock :: ?l) with ([EvClock] ++ l).
  rewrite !count_events_app.
  destruct (Z_lt_le_dec n 0) as [Hn|Hn].
  - rewrite py_range_nonpos by lia. cbn. lia.
  - destruct (count_retry_events self prompt n d n Hn) as [-> ->]. cbn. lia.
Qed.

Lemma X2_unreachable_witness :
  let evs := EvClock :: retry_events example_client "hello" 3 5 (py_range 3) in
  MonicaClient.call_api unreachable_env example_client "hello" 3 5 empty_world
  = (Ok (None, (env_time unreachable_env (trace empty_world ++ evs)
                - env_time unreachable_env (trace empty_world))%float),
     emit_all (evs ++ [EvClock]) empty_world)
  /\ MonicaClient.complete unreachable_env example_client "hello" 3 5 empty_world
     = (Raise (Exn GenericException
                 ("Monica API call failed after " +:+ pretty 3%Z +:+ " attempts")),
        emit_all (evs ++ [EvClock]) empty_world)
  /\ count_events is_post evs = Z.to_nat 3
  /\ count_events is_sleep evs = Z.to_nat (3 - 1).
Proof.
  apply (X2_call_api_exhausts_its_attempts unreachable_env example_client "hello" 3 5
           empty_world).
  - lia.
  - intros j Hj. assert (j = 0 \/ j = 1 \/ j = 2)%Z as [->|[->| ->]] by lia; reflexivity.
Defined.

(** X3. A negative [retry_delay] makes the first backoff sleep raise: when
    more than one attempt is allowed and the first answer is retryable,
    [call_api] lets the exception of [time.sleep] out after one request, and
    so does [complete]. Down to -9223372036 seconds it is the [ValueError]
    of a negative duration; below, the count of nanoseconds overflows first
    and it is an [OverflowError]. *)
Theorem X3_negative_retry_delay_raises
    (e : env) (self : MonicaClient.t) (prompt : string) (n d : Z) (w : world) :
  (d < 0)%Z -> (1 < n)%Z ->
  retryable (env_post e (trace w ++ [EvClock]) (MonicaClient.endpoint self) prompt) = true ->
  let x := if (-9223372036 <=? d)%Z
           then Exn ValueError "sleep length must be non-negative"
           else Exn OverflowError "timestamp too large to convert to C _PyTime_t" in
  MonicaClient.call_api e self prompt n d w
  = (Raise x, emit_all [EvClock; EvPost (MonicaClient.endpoint self) prompt] w)
  /\ MonicaClient.complete e self prompt n d w
     = (Raise x, emit_all [EvClock; EvPost (MonicaClient.endpoint self) prompt] w).
Proof.
  intros Hd Hn Hretry x.
  assert (MonicaClient.call_api e self prompt n d w
          = (Raise x,
             emit_all [EvClock; EvPost (MonicaClient.endpoint self) prompt] w)) as Hcall.
  { unfold MonicaClient.call_api. rewrite M_bind_unfold. unfold time_time at 1.
    rewrite M_bind_unfold.
    destruct (py_range_split n 0 ltac:(lia)) as [rest ->]. cbn [py_range app].
    change (py_range 0) with (@nil Z). cbn [app]. rewrite for_each_cons.
    erewrite iteration_fallthrough.
    2:{ apply attempt_retryable. exact Hretry. }
    destruct (Z.ltb_spec 0 (n - 1)); [|lia].
    rewrite M_bind_unfold. unfold time_sleep.
    replace (sleep_error _) with (Some x).
    2:{ symmetry. cbn [sleep_error]. rewrite sleep_error_int_cases.
        unfold MonicaClient.calculate_backoff_delay.
        rewrite py_min_spec. unfold MonicaClient.default_max_delay.
        rewrite Z.pow_0_r, Z.mul_1_r, Z.min_l by lia. subst x.
        destruct (Z.leb_spec 0 d); [lia|]. destruct (Z.ltb_spec d 0); [|lia].
        cbn [andb]. rewrite andb_true_r. by destruct (-9223372036 <=? d)%Z. }
    rewrite emit_emit_all, emit_all_emit_all. reflexivity. }
  split; [exact Hcall|].
  unfold MonicaClient.complete. rewrite M_bind_unfold, Hcall. reflexivity.
Qed.

(** A delay of -1 second, and one of minus ten thousand million seconds. *)
Lemma X3_negative_delay_witness :
  (MonicaClient.call_api unreachable_env example_client "hello" 3 (-1) empty_world
   = (Raise (Exn ValueError "sleep length must be non-negative"),
      emit_all [EvClock; EvPost (MonicaClient.endpoint example_client) "hello"] empty_world)
   /\ MonicaClient.complete unreachable_env example_client "hello" 3 (-1) empty_world
      = (Raise (Exn ValueError "sleep length must be non-negative"),
         emit_all [EvClock; EvPost (MonicaClient.endpoint example_client) "hello"]
           empty_world))
  /\ (MonicaClient.call_api unreachable_env example_client "hello" 3 (-10000000000)
        empty_world
      = (Raise (Exn OverflowError "timestamp too large to convert to C _PyTime_t"),
         emit_all [EvClock; EvPost (MonicaClient.endpoint example_client) "hello"]
           empty_world)
      /\ MonicaClient.complete unreachable_env example_client "hello" 3 (-10000000000)
           empty_world
         = (Raise (Exn OverflowError "timestamp too large to convert to C _PyTime_t"),
            emit_all [EvClock; EvPost (MonicaClient.endpoint example_client) "hello"]
              empty_world)).
Proof.
  split.
  - apply (X3_negative_retry_delay_raises unreachable_env example_client "hello" 3 (-1)
             empty_world); [lia|lia|reflexivity].
  - apply (X3_negative_retry_delay_raises unreachable_env example_client "hello" 3
             (-10000000000) empty_world); [lia|lia|reflexivity].
Defined.

(** What one attempt comes to: it falls through after its request, or it
    returns after its request and a reading of the clock; a content it
    returns is truthy. *)
Lemma attempt_cases e self prompt start_time w :
  MonicaClient.call_api_attempt e self prompt start_time w
  = (Ok None, emit_all [EvPost (MonicaClient.endpoint self) prompt] w)
  \/ exists v,
       MonicaClient.call_api_attempt e self prompt start_time w
       = (Ok (Some v), emit_all [EvPost (MonicaClient.endpoint self) prompt; EvClock] w)
       /\ forall content, fst v = Some content -> truthy content = true.
Proof.
  destruct (retryable (env_post e (trace w) (MonicaClient.endpoint self) prompt)) eqn:Hretry.
  { left. by apply attempt_retryable. }
  right. unfold retryable in Hretry.
  destruct (env_post e (trace w) (MonicaClient.endpoint self) prompt) as [r|x] eqn:Hpost;
    [|done].
  cbn zeta in Hretry. destruct (Z.eqb_spec (Response.status_code r) 200) as [H200|H200].
  - rewrite (attempt_200 _ _ _ _ _ _ Hpost H200).
    destruct (MonicaClient.carried_content r) as [content|] eqn:Hcontent; [|done].
    eexists. split; [reflexivity|]. intros c [= <-].
    unfold MonicaClient.carried_content in Hcontent.
    destruct (Response.json r) as [body|]; [|done].
    destruct (MonicaClient.first_choice_content body) as [c|]; [|done].
    destruct (truthy c) eqn:Hc; [|done]. by injection Hcontent as ->.
  - apply orb_false_iff in Hretry as [H429 Hrange].
    apply Z.eqb_neq in H429. apply negb_false_iff, andb_true_iff in Hrange as [Hlo Hhi].
    apply Z.leb_le in Hlo. apply Z.ltb_lt in Hhi.
    eexists. split; [by eapply attempt_client_error|]. done.
Qed.

Lemma loop_returns_truthy e self prompt n d start_time attempts :
  forall w v w',
    for_each attempts (MonicaClient.call_api_iteration e self prompt n d start_time) w
    = (Ok (Some v), w') ->
    forall content, fst v = Some content -> truthy content = true.
Proof.
  induction attempts as [|attempt attempts IH]; intros w v w' Hrun; [done|].
  rewrite for_each_cons in Hrun.
  destruct (attempt_cases e self prompt start_time w) as [Hatt|(v0 & Hatt & Hv0)].
  - rewrite (iteration_fallthrough _ _ _ _ _ _ _ _ _ Hatt), M_bind_unfold in Hrun.
    match type of Hrun with
    | context [?m (emit_all ?evs w)] => destruct (m (emit_all evs w)) as [[[]|x] w1]
    end; [|done].
    cbn [mret M_ret] in Hrun. by eapply IH.
  - rewrite (iteration_return _ _ _ _ _ _ _ _ _ _ Hatt) in Hrun.
    by injection Hrun as <- _.
Qed.

(** X4. Whatever [complete] returns is truthy: an empty string, or any other
    falsy content, never comes out of it. *)
Theorem X4_complete_returns_truthy_content
    (e : env) (self : MonicaClient.t) (prompt : string) (n d : Z) (w w' : world)
    (content : pyval) :
  MonicaClient.complete e self prompt n d w = (Ok content, w') ->
  truthy content = true.
Proof.
  unfold MonicaClient.complete, MonicaClient.call_api.
  rewrite !M_bind_unfold. unfold time_time at 1. rewrite M_bind_unfold.
  destruct (for_each _ _ _) as [[[v|]|x] w1] eqn:Hloop; [| |done].
  - cbn [mret M_ret]. destruct v as [[c|] elapsed]; [|done]. cbn.
    intros [= <- _]. by eapply loop_returns_truthy.
  - rewrite M_bind_unfold. unfold time_time at 1. done.
Qed.

Lemma X4_rate_limited_once_witness : truthy (PStr "Hi") = true.
Proof.
  apply (X4_complete_returns_truthy_content env_rate_limited_once example_client "hello" 3 5
           empty_world
           (emit_all (EvClock :: retry_events example_client "hello" 3 5 (py_range 1)
                        ++ [EvPost (MonicaClient.endpoint example_client) "hello"; EvClock])
              empty_world)).
  vm_compute. reflexivity.
Defined.

(** The loop over the first [k] attempts, for a delay that is not negative:
    it returns at an attempt [j] after the rounds before it, or it falls
    through all of them. *)
Lemma call_api_loop_shape e self prompt n d start_time w k :
  (0 <= d)%Z -> (0 <= k)%Z ->
  (exists j v, (0 <= j < k)%Z
     /\ for_each (py_range k) (MonicaClient.call_api_iteration e self prompt n d start_time) w
        = (Ok (Some v),
           emit_all (retry_events self prompt n d (py_range j)
                       ++ [EvPost (MonicaClient.endpoint self) prompt; EvClock]) w))
  \/ for_each (py_range k) (MonicaClient.call_api_iteration e self prompt n d start_time) w
     = (Ok None, emit_all (retry_events self prompt n d (py_range k)) w).
Proof.
  intros Hd Hk. pattern k. apply natlike_ind; [| |exact Hk]; clear k Hk.
  - right. cbn. unfold emit_all. rewrite app_nil_r. by destruct w.
  - intros k Hk IH. unfold Z.succ. rewrite py_range_succ, for_each_app by done.
    destruct IH as [(j & v & Hj & ->)| ->].
    { left. exists j, v. split; [lia|done]. }
    rewrite for_each_cons.
    destruct (attempt_cases e self prompt start_time
                (emit_all (retry_events self prompt n d (py_range k)) w))
      as [Hatt|(v & Hatt & _)].
    + right. rewrite (iteration_fallthrough _ _ _ _ _ _ _ _ _ Hatt).
      rewrite retry_events_snoc, M_bind_unfold.
      destruct (k <? n - 1)%Z.
      * unfold time_sleep. rewrite backoff_delay_valid by done.
        cbn. rewrite emit_emit_all, !emit_all_emit_all. reflexivity.
      * cbn. rewrite !emit_all_emit_all. reflexivity.
    + left. exists k, v. split; [lia|].
      rewrite (iteration_return _ _ _ _ _ _ _ _ _ _ Hatt), emit_all_emit_all. reflexivity.
Qed.

(** X5. With a [retry_delay] that is not negative [call_api] never raises,
    whatever the outside answers; it makes at most [retry_attempts] requests
    and sleeps only between two requests; it changes no object and no file. *)
Theorem X5_call_api_never_raises
    (e : env) (self : MonicaClient.t) (prompt : string) (n d : Z) (w : world) :
  (0 <= d)%Z ->
  exists v evs,
    MonicaClient.call_api e self prompt n d w = (Ok v, emit_all evs w)
    /\ count_events is_post evs <= Z.to_nat n
    /\ count_events is_sleep evs <= Nat.pred (count_events is_post evs).
Proof.
  intros Hd. unfold MonicaClient.call_api. rewrite M_bind_unfold. unfold time_time at 1.
  rewrite emit_emit_all, M_bind_unfold.
  destruct (Z_lt_le_dec n 0) as [Hn|Hn].
  { rewrite py_range_nonpos by lia. cbn [for_each mret M_ret].
    rewrite M_bind_unfold. unfold time_time at 1. cbn [mret M_ret].
    rewrite emit_emit_all, !emit_all_emit_all. eexists _, _. split; [reflexivity|].
    cbn. lia. }
  destruct (call_api_loop_shape e self prompt n d (env_time e (trace w))
              (emit_all [EvClock] w) n Hd Hn) as [(j & v & Hj & ->)| ->].
  - cbn [mret M_ret]. rewrite emit_all_emit_all. eexists _, _. split; [reflexivity|].
    change ([EvClock] ++ ?l) with ([EvClock] ++ l).
    rewrite !count_events_app.
    destruct (count_retry_events self prompt n d j ltac:(lia)) as [-> ->]. cbn. lia.
  - rewrite M_bind_unfold. unfold time_time at 1. cbn [mret M_ret].
    rewrite emit_emit_all, !emit_all_emit_all. eexists _, _. split; [reflexivity|].
    rewrite !count_events_app.
    destruct (count_retry_events self prompt n d n Hn) as [-> ->]. cbn. lia.
Qed.

Lemma X5_unreachable_witness :
  exists v evs,
    MonicaClient.call_api unreachable_env example_client "hello" 3 5 empty_world
    = (Ok v, emit_all evs empty_world)
    /\ count_events is_post evs <= Z.to_nat 3
    /\ count_events is_sleep evs <= Nat.pred (count_events is_post evs).
Proof.
  apply (X5_call_api_never_raises unreachable_env example_client "hello" 3 5 empty_world).
  lia.
Defined.

(* ------------------------------------------------------------------ *)
(** ** The stages of the scraper, run by run *)
(* ------------------------------------------------------------------ *)

(** [time.sleep] raises one of three classes, none of them of [requests]. *)
Lemma sleep_error_class d y :
  sleep_error d = Some y ->
  exn_class_of y = ValueError \/ exn_class_of y = OverflowError
  \/ exn_class_of y = TypeError.
Proof.
  assert (forall z, sleep_error_int z = Some y ->
            exn_class_of y = ValueError \/ exn_class_of y = OverflowError
            \/ exn_class_of y = TypeError) as Hint.
  { intros z. unfold sleep_error_int.
    destruct (_ || _)%bool; [intros [= <-]; auto|].
    destruct (z <? 0)%Z; [intros [= <-]; auto|done]. }
  assert (forall f, sleep_error_float f = Some y ->
            exn_class_of y = ValueError \/ exn_class_of y = OverflowError
            \/ exn_class_of y = TypeError) as Hfloat.
  { intros f. unfold sleep_error_float.
    destruct (PrimFloat.is_nan f); [intros [= <-]; auto|].
    destruct (_ && _)%bool; [|intros [= <-]; auto].
    destruct (_ || _)%bool; [intros [= <-]; auto|done]. }
  destruct d as [z|f|[|b|z|f|s|l|m]]; cbn [sleep_error];
    first [apply Hint | apply Hfloat | done | intros [= <-]; auto].
Qed.

Lemma sleep_error_not_of_requests d y :
  sleep_error d = Some y -> WebScraper.is_RequestException y = false.
Proof.
  intros H. unfold WebScraper.is_RequestException.
  by destruct (sleep_error_class d y H) as [-> | [-> | ->]].
Qed.

Lemma random_delay_run e self w :
  WebScraper._random_delay e self w
  = match sleep_error (delay_seconds e self (trace w)) with
    | Some x => (Raise x, emit_all (delay_draw self) w)
    | None =>
        (Ok tt, emit_all (delay_draw self ++ [EvSleep (delay_seconds e self (trace w))]) w)
    end.
Proof.
  unfold WebScraper._random_delay, delay_seconds, delay_draw.
  destruct (WebScraper.request_delay self) as [lo hi|d]; rewrite !M_bind_unfold.
  - unfold random_uniform at 1. cbn [mret M_ret]. unfold time_sleep.
    destruct (sleep_error _); [done|]. by rewrite !emit_emit_all, emit_all_emit_all.
  - cbn [mret M_ret]. unfold time_sleep. destruct (sleep_error d).
    + unfold emit_all. rewrite app_nil_r. by destruct w.
    + by rewrite emit_emit_all.
Qed.

Lemma static_except_run e self u attempt x w :
  WebScraper.scrape_static_except e self u attempt x w
  = if WebScraper.is_RequestException x
       && negb (attempt =? WebScraper.max_retries self - 1)%Z
    then (Ok None, w)
    else (Ok (Some (length (heap w))),
          World (trace w ++ [EvClock])
            (heap w ++
               [WebScraper.failure_result u
                  (if WebScraper.is_RequestException x
                   then "Static scraping failed after "
                          +:+ pretty (WebScraper.max_retries self)
                          +:+ " attempts: " +:+ exn_msg x
                   else "Unexpected error: " +:+ exn_msg x)
                  (Some "static") (env_now e (trace w))])
            (files w)).
Proof.
  unfold WebScraper.scrape_static_except.
  destruct (WebScraper.is_RequestException x);
    [destruct (attempt =? WebScraper.max_retries self - 1)%Z|]; reflexivity.
Qed.

(** The part of an attempt that follows the delay: the request, and what
    comes of its outcome. *)
Lemma static_request_run e self u attempt w :
  WebScraper.scrape_static_attempt e self u attempt w
  = match (if (0 <? attempt)%Z then WebScraper._random_delay e self else mret tt) w with
    | (Raise x, w1) => WebScraper.scrape_static_except e self u attempt x w1
    | (Ok _, w1) =>
        match env_get e (trace w1) u with
        | Ok p =>
            (Ok (Some (length (heap w1))),
             World (trace w1 ++ [EvGet u; EvClock])
               (heap w1 ++ [page_result u p "static" (env_now e (trace w1 ++ [EvGet u]))])
               (files w1))
        | Raise x => WebScraper.scrape_static_except e self u attempt x (emit (EvGet u) w1)
        end
    end.
Proof.
  unfold WebScraper.scrape_static_attempt, WebScraper.scrape_static_try, try_except.
  rewrite M_bind_unfold.
  destruct ((if (0 <? attempt)%Z then WebScraper._random_delay e self else mret tt) w)
    as [[[]|x] w1]; [|done].
  rewrite M_bind_unfold. unfold session_get_and_parse at 1.
  destruct (env_get e (trace w1) u) as [p|x]; [|done].
  unfold mbind, M_bind, datetime_now_isoformat, new_ScrapingResult, mret, M_ret, emit.
  cbn. by rewrite <- app_assoc.
Qed.

(** X6. For a URL without a scheme or without a host [scrape_url] makes no
    request at all, also when [force_dynamic] is set: it reads the clock and
    returns a new failed result with the message [Invalid URL format] and no
    scraping method. *)
Theorem X6_invalid_url_makes_no_request
    (e : env) (self : WebScraper.t) (u scheme netloc : string) (force_dynamic : bool)
    (w : world) :
  env_urlparse e u = Ok (scheme, netloc) ->
  scheme = "" \/ netloc = "" ->
  WebScraper.scrape_url e self u force_dynamic w
  = (Ok (length (heap w)),
     World (trace w ++ [EvClock])
       (heap w ++
          [ScrapingResult.mk u false None None None None None (Some "Invalid URL format")
             None (Some (env_now e (trace w)))])
       (files w)).
Proof.
  intros Hparse Hempty. rewrite scrape_url_unfold, Hparse.
  replace (truthy (PStr scheme) && truthy (PStr netloc)) with false; [done|].
  symmetry. apply andb_false_iff.
  destruct Hempty as [->| ->]; [by left|by right].
Qed.

Lemma X6_no_scheme_witness :
  WebScraper.scrape_url unreachable_env WebScraper.default_config "example.com" true
    empty_world
  = (Ok (length (heap empty_world)),
     World (trace empty_world ++ [EvClock])
       (heap empty_world ++
          [ScrapingResult.mk "example.com" false None None None None None
             (Some "Invalid URL format") None
             (Some (env_now unreachable_env (trace empty_world)))])
       (files empty_world)).
Proof.
  apply (X6_invalid_url_makes_no_request unreachable_env WebScraper.default_config
           "example.com" "" "" true empty_world).
  - reflexivity.
  - left. reflexivity.
Defined.





(** X9. The delay before a retry stands inside the [try]: when the first
    request fails with a [RequestException] and [time.sleep] refuses the
    delay, its exception is caught as an unexpected error, and the static
    stage returns a failed result after its single request instead of
    raising. The message of the result ends with the text of the exception:
    the [ValueError] of a negative duration or of NaN, the [OverflowError]
    of a duration beyond the 64-bit count of nanoseconds, the [TypeError]
    of a delay that is no number. *)
Theorem X9_invalid_delay_ends_the_static_stage
    (e : env) (self : WebScraper.t) (u : string) (w : world) (x y : exn) :
  (2 <= WebScraper.max_retries self)%Z ->
  env_get e (trace w) u = Raise x ->
  WebScraper.is_RequestException x = true ->
  sleep_error (delay_seconds e self (trace w ++ [EvGet u])) = Some y ->
  WebScraper.scrape_static_content e self u w
  = (Ok (Some (length (heap w))),
     World (trace w ++ EvGet u :: delay_draw self ++ [EvClock])
       (heap w ++
          [ScrapingResult.mk u false None None None None None
             (Some ("Unexpected error: " +:+ exn_msg y)) (Some "static")
             (Some (env_now e (trace w ++ EvGet u :: delay_draw self)))])
       (files w)).
Proof.
  intros Hn Hget Hclass Hdelay. unfold WebScraper.scrape_static_content.
  rewrite py_range_pos, for_each_cons, static_request_run by lia.
  cbn [Z.ltb Z.compare mret M_ret]. rewrite Hget, static_except_run, Hclass.
  destruct (Z.eqb_spec 0 (WebScraper.max_retries self - 1)); [lia|]. cbn [andb negb].
  replace (Z.to_nat (WebScraper.max_retries self) - 1)
    with (S (Z.to_nat (WebScraper.max_retries self) - 2)) by lia.
  cbn [seq fmap list_fmap]. rewrite for_each_cons, static_request_run.
  change (0 <? Z.of_nat 1)%Z with true. cbn iota.
  rewrite random_delay_run. cbn [trace emit]. rewrite Hdelay, static_except_run.
  rewrite (sleep_error_not_of_requests _ _ Hdelay).
  cbn. by rewrite <- !app_assoc.
Qed.

(** The four kinds of delay that [time.sleep] refuses, each with the message
    that the failed result carries: -1, NaN, infinity, and the list [[2, 5]]. *)
Lemma X9_refused_delays_witness :
  Forall (fun '(d, msg) =>
            exists w',
              WebScraper.scrape_static_content unreachable_env (config_with_delay d)
                "https://example.com/" empty_world
              = (Ok (Some 0), w')
              /\ ScrapingResult.error_message <$> heap w' !! 0 = Some (Some msg))
    [ (SecInt (-1), "Unexpected error: sleep length must be non-negative");
      (SecFloat nan, "Unexpected error: Invalid value NaN (not a number)");
      (SecFloat infinity,
       "Unexpected error: timestamp too large to convert to C _PyTime_t");
      (SecObject (PList [PInt 2; PInt 5]),
       "Unexpected error: 'list' object cannot be interpreted as an integer") ].
Proof.
  repeat (first [apply List.Forall_nil | apply List.Forall_cons]); eexists;
    (split;
     [ eapply (X9_invalid_delay_ends_the_static_stage unreachable_env (config_with_delay _)
                 "https://example.com/" empty_world (Exn RequestsTimeout "timed out"));
       [ vm_compute; discriminate | reflexivity | reflexivity | vm_compute; reflexivity ]
     | reflexivity ]).
Defined.

Lemma count_events_cons p ev evs :
  count_events p (ev :: evs) = (if p ev then 1 else 0) + count_events p evs.
Proof. unfold count_events. cbn. by destruct (p ev). Qed.

Lemma count_delay_draw p self :
  p EvRandom = false -> count_events p (delay_draw self) = 0.
Proof.
  intros Hp. unfold delay_draw.
  destruct (WebScraper.request_delay self); [|done].
  by rewrite count_events_cons, Hp.
Qed.

Lemma failure_result_as_constructed u msg method now :
  as_constructed u (WebScraper.failure_result u msg method now).
Proof. split; [done|]. split; [by eexists|]. cbn. eauto. Qed.

Lemma page_result_as_constructed u p method now :
  as_constructed u (page_result u p method now).
Proof.
  split; [done|]. split; [by eexists|]. cbn. split; [done|]. split; [by eexists|].
  split; eexists; (split; [done|]); rewrite length_take; lia.
Qed.

(** One attempt of the static stage either falls through, having allocated
    nothing, or returns the one result it has allocated. *)
Lemma static_attempt_cases e self u attempt w :
  exists evs,
    count_events is_get evs <= 1
    /\ count_events is_sleep evs <= (if (0 <? attempt)%Z then 1 else 0)
    /\ count_events is_browse evs = 0
    /\ (WebScraper.scrape_static_attempt e self u attempt w = (Ok None, emit_all evs w)
        /\ attempt <> (WebScraper.max_retries self - 1)%Z
        \/ exists o,
             WebScraper.scrape_static_attempt e self u attempt w
             = (Ok (Some (length (heap w))),
                World (trace w ++ evs) (heap w ++ [o]) (files w))
             /\ as_constructed u o
             /\ ScrapingResult.scraping_method o = Some "static").
Proof.
  assert (forall evs0 x,
    count_events is_get evs0 <= 1 ->
    count_events is_sleep evs0 <= (if (0 <? attempt)%Z then 1 else 0) ->
    count_events is_browse evs0 = 0 ->
    exists evs,
      count_events is_get evs <= 1
      /\ count_events is_sleep evs <= (if (0 <? attempt)%Z then 1 else 0)
      /\ count_events is_browse evs = 0
      /\ (WebScraper.scrape_static_except e self u attempt x (emit_all evs0 w)
          = (Ok None, emit_all evs w)
          /\ attempt <> (WebScraper.max_retries self - 1)%Z
          \/ exists o,
               WebScraper.scrape_static_except e self u attempt x (emit_all evs0 w)
               = (Ok (Some (length (heap w))),
                  World (trace w ++ evs) (heap w ++ [o]) (files w))
               /\ as_constructed u o
               /\ ScrapingResult.scraping_method o = Some "static")) as Hexcept.
  { intros evs0 x Hg Hs Hb. rewrite static_except_run.
    destruct (WebScraper.is_RequestException x
              && negb (attempt =? WebScraper.max_retries self - 1)%Z) eqn:Hgo.
    - exists evs0. split; [done|]. split; [done|]. split; [done|]. left. split; [done|].
      apply andb_true_iff in Hgo as [_ Hgo]. apply negb_true_iff in Hgo. lia.
    - exists (evs0 ++ [EvClock]).
      rewrite !count_events_app. cbn. rewrite !Nat.add_0_r.
      split; [done|]. split; [done|]. split; [done|]. right.
      eexists. split; [by rewrite <- app_assoc|].
      split; [apply failure_result_as_constructed|done]. }
  rewrite static_request_run.
  assert (forall evs0,
    count_events is_get evs0 = 0 ->
    count_events is_sleep evs0 <= (if (0 <? attempt)%Z then 1 else 0) ->
    count_events is_browse evs0 = 0 ->
    exists evs,
      count_events is_get evs <= 1
      /\ count_events is_sleep evs <= (if (0 <? attempt)%Z then 1 else 0)
      /\ count_events is_browse evs = 0
      /\ (match env_get e (trace (emit_all evs0 w)) u with
          | Ok p =>
              (Ok (Some (length (heap (emit_all evs0 w)))),
               World (trace (emit_all evs0 w) ++ [EvGet u; EvClock])
                 (heap (emit_all evs0 w)
                    ++ [page_result u p "static"
                          (env_now e (trace (emit_all evs0 w) ++ [EvGet u]))])
                 (files (emit_all evs0 w)))
          | Raise x =>
              WebScraper.scrape_static_except e self u attempt x
                (emit (EvGet u) (emit_all evs0 w))
          end = (Ok None, emit_all evs w)
          /\ attempt <> (WebScraper.max_retries self - 1)%Z
          \/ exists o,
               match env_get e (trace (emit_all evs0 w)) u with
               | Ok p =>
                   (Ok (Some (length (heap (emit_all evs0 w)))),
                    World (trace (emit_all evs0 w) ++ [EvGet u; EvClock])
                      (heap (emit_all evs0 w)
                         ++ [page_result u p "static"
                               (env_now e (trace (emit_all evs0 w) ++ [EvGet u]))])
                      (files (emit_all evs0 w)))
               | Raise x =>
                   WebScraper.scrape_static_except e self u attempt x
                     (emit (EvGet u) (emit_all evs0 w))
               end
               = (Ok (Some (length (heap w))),
                  World (trace w ++ evs) (heap w ++ [o]) (files w))
               /\ as_constructed u o
               /\ ScrapingResult.scraping_method o = Some "static")) as Hrequest.
  { intros evs0 Hg Hs Hb.
    destruct (env_get e (trace (emit_all evs0 w)) u) as [p|x].
    - exists (evs0 ++ [EvGet u; EvClock]).
      rewrite !count_events_app, Hg, Hb. cbn. rewrite !Nat.add_0_r.
      split; [done|]. split; [done|]. split; [done|]. right.
      eexists. split; [by rewrite <- app_assoc|].
      split; [apply page_result_as_constructed|done].
    - rewrite emit_emit_all, emit_all_emit_all. apply Hexcept.
      + rewrite count_events_app, Hg. cbn. lia.
      + rewrite count_events_app. cbn. lia.
      + rewrite count_events_app, Hb. done. }
  assert (emit_all [] w = w) as Hnil.
  { unfold emit_all. rewrite app_nil_r. by destruct w. }
  destruct (Z.ltb_spec 0 attempt) as [Hpos|Hzero].
  - rewrite random_delay_run.
    destruct (sleep_error (delay_seconds e self (trace w))).
    + apply Hexcept.
      * rewrite count_delay_draw by done. lia.
      * rewrite count_delay_draw by done. lia.
      * by rewrite count_delay_draw.
    + apply Hrequest.
      * rewrite count_events_app, count_delay_draw by done. done.
      * rewrite count_events_app, count_delay_draw by done. cbn. lia.
      * rewrite count_events_app, count_delay_draw by done. done.
  - cbn [mret M_ret].
    pose proof (Hrequest [] eq_refl (Nat.le_0_l _) eq_refl) as H.
    rewrite Hnil in H. exact H.
Qed.

Lemma static_loop_cases e self u attempts :
  forall w,
  exists v evs os,
    for_each attempts (WebScraper.scrape_static_attempt e self u) w
    = (Ok v, World (trace w ++ evs) (heap w ++ os) (files w))
    /\ count_events is_get evs <= length attempts
    /\ count_events is_sleep evs <= length (List.filter (fun a => (0 <? a)%Z) attempts)
    /\ count_events is_browse evs = 0
    /\ match v with
       | Some sref =>
           sref = length (heap w)
           /\ exists o, os = [o] /\ as_constructed u o
                /\ ScrapingResult.scraping_method o = Some "static"
       | None => os = [] /\ forall a, a ∈ attempts -> a <> (WebScraper.max_retries self - 1)%Z
       end.
Proof.
  induction attempts as [|attempt attempts IH]; intros w.
  - exists None, [], []. cbn. rewrite !app_nil_r. split; [by destruct w|].
    split; [done|]. split; [done|]. split; [done|]. split; [done|].
    by intros a ?%elem_of_nil.
  - rewrite for_each_cons.
    destruct (static_attempt_cases e self u attempt w)
      as (evs & Hg & Hs & Hb & [[-> Hne]|(o & -> & Ho & Hm)]).
    + destruct (IH (emit_all evs w)) as (v & evs' & os & -> & Hg' & Hs' & Hb' & Hv).
      exists v, (evs ++ evs'), os. cbn [trace heap files emit_all].
      rewrite !count_events_app, Hb, Hb'. rewrite <- app_assoc.
      split; [done|]. split; [cbn; lia|].
      split; [cbn; destruct (0 <? attempt)%Z; cbn; lia|]. split; [done|].
      destruct v as [sref|]; [done|]. destruct Hv as [-> Hall]. split; [done|].
      intros a [->|Ha]%elem_of_cons; [done|by apply Hall].
    + exists (Some (length (heap w))), evs, [o].
      split; [done|]. split; [cbn; lia|].
      split; [cbn; destruct (0 <? attempt)%Z; cbn in *; lia|]. split; [done|].
      split; [done|]. by exists o.
Qed.

Lemma retries_of_py_range n :
  length (List.filter (fun a => (0 <? a)%Z) (py_range n)) = Z.to_nat (n - 1).
Proof.
  destruct (Z_lt_le_dec n 1) as [Hn|Hn].
  - unfold py_range. replace (Z.to_nat n) with 0 by lia. cbn. lia.
  - rewrite py_range_pos by done. cbn [List.filter Z.ltb Z.compare].
    replace (Z.to_nat (n - 1)) with (Z.to_nat n - 1) by lia.
    generalize (Z.to_nat n - 1). intros k.
    assert (forall s, 1 <= s ->
      length (List.filter (fun a => (0 <? a)%Z) (Z.of_nat <$> seq s k)) = k) as H.
    { induction k as [|k IH]; intros s Hs; [done|]. cbn.
      destruct (Z.ltb_spec 0 (Z.of_nat s)); [|lia]. cbn. f_equal. apply IH. lia. }
    by apply H.
Qed.

(** X10. The static stage never raises. It makes at most [max_retries]
    requests and at most [max_retries - 1] sleeps and never starts the
    browser; it changes no object and no file. When it returns a result, that
    is the one object it has allocated, constructed for the URL by the static
    method, with at most 50 links and 20 images when it succeeded and with a
    message and no content when it failed; it returns [None] only when
    [max_retries] allows no attempt. *)
Theorem X10_static_stage_budget (e : env) (self : WebScraper.t) (u : string) (w : world) :
  exists v evs os,
    WebScraper.scrape_static_content e self u w
    = (Ok v, World (trace w ++ evs) (heap w ++ os) (files w))
    /\ count_events is_get evs <= Z.to_nat (WebScraper.max_retries self)
    /\ count_events is_sleep evs <= Z.to_nat (WebScraper.max_retries self - 1)
    /\ count_events is_browse evs = 0
    /\ match v with
       | Some sref =>
           sref = length (heap w)
           /\ exists o, os = [o] /\ as_constructed u o
                /\ ScrapingResult.scraping_method o = Some "static"
       | None => os = [] /\ (WebScraper.max_retries self <= 0)%Z
       end.
Proof.
  destruct (static_loop_cases e self u (py_range (WebScraper.max_retries self)) w)
    as (v & evs & os & Hrun & Hg & Hs & Hb & Hv).
  exists v, evs, os. split; [exact Hrun|].
  rewrite retries_of_py_range in Hs. unfold py_range in Hg.
  rewrite length_fmap, length_seq in Hg.
  split; [done|]. split; [done|]. split; [done|].
  destruct v as [sref|]; [done|]. destruct Hv as [-> Hall]. split; [done|].
  destruct (Z_lt_le_dec 0 (WebScraper.max_retries self)) as [Hn|Hn]; [|done].
  exfalso. apply (Hall (WebScraper.max_retries self - 1)%Z); [|done].
  apply elem_of_py_range. lia.
Qed.

(* ------------------------------------------------------------------ *)
(** ** C3: static first, then dynamic *)
(* ------------------------------------------------------------------ *)





Lemma dynamic_content_run e self u w :
  WebScraper.scrape_dynamic_content e self u w
  = (Ok (length (heap w)),
     World (trace w ++ [EvBrowse u; EvClock])
       (heap w ++
          [match env_browse e (trace w) u with
           | Ok p => page_result u p "dynamic" (env_now e (trace w ++ [EvBrowse u]))
           | Raise x =>
               WebScraper.failure_result u (WebScraper.dynamic_error_msg u x)
                 (Some "dynamic") (env_now e (trace w ++ [EvBrowse u]))
           end])
       (files w)).
Proof.
  unfold WebScraper.scrape_dynamic_content, try_except.
  rewrite M_bind_unfold. unfold browser_render_and_parse at 1.
  destruct (env_browse e (trace w) u) as [p|x];
    unfold mbind, M_bind, datetime_now_isoformat, new_ScrapingResult, emit; cbn;
    by rewrite <- app_assoc.
Qed.

(** With an attempt allowed and a URL that parses, [scrape_url] returns one
    of the one or two objects it has allocated, and these are results for
    its URL. *)
Lemma scrape_url_allocates e self u w :
  (1 <= WebScraper.max_retries self)%Z ->
  (exists parsed, env_urlparse e u = Ok parsed) ->
  exists r evs os,
    WebScraper.scrape_url e self u false w
    = (Ok r, World (trace w ++ evs) (heap w ++ os) (files w))
    /\ length (heap w) <= r < length (heap w) + length os
    /\ Forall (fun o => ScrapingResult.url o = u) os.
Proof.
  intros Hn [[scheme netloc] Hparse]. rewrite scrape_url_unfold, Hparse.
  destruct (negb (truthy (PStr scheme) && truthy (PStr netloc))).
  { eexists _, _, _. split; [reflexivity|]. split; [cbn; lia|]. by repeat constructor. }
  destruct (static_loop_cases e self u (py_range (WebScraper.max_retries self)) w)
    as (v & evs & os & Hstatic & _ & _ & _ & Hv).
  change (for_each _ _ w) with (WebScraper.scrape_static_content e self u w) in Hstatic.
  rewrite Hstatic.
  destruct v as [sref|].
  2:{ exfalso. destruct Hv as [_ Hall].
      apply (Hall (WebScraper.max_retries self - 1)%Z); [|done].
      apply elem_of_py_range. lia. }
  destruct Hv as (-> & s & -> & [Hs _] & _).
  set (w1 := World (trace w ++ evs) (heap w ++ [s]) (files w)).
  assert (heap w1 !! length (heap w) = Some s) as Hlookup by by apply list_lookup_middle.
  destruct (after_static_cases e self u _ s w1 Hlookup) as (d & Hdyn & ->).
  cbn zeta in Hdyn. rewrite dynamic_content_run in Hdyn.
  assert (ScrapingResult.url d = u) as Hd.
  { injection Hdyn as Hd. apply app_inv_head in Hd. injection Hd as <-.
    by destruct (env_browse e (trace w ++ evs) u). }
  destruct (ScrapingResult.success s
            && WebScraper._is_content_sufficient (ScrapingResult.content s)).
  { exists (length (heap w)), evs, [s]. split; [done|]. split; [cbn; lia|].
    by repeat constructor. }
  destruct (ScrapingResult.success d).
  { exists (length (heap w1)), (evs ++ [EvBrowse u; EvClock]), [s; d].
    subst w1. cbn [trace heap files]. rewrite <- !app_assoc.
    split; [done|]. split; [rewrite length_app; cbn; lia|]. by repeat constructor. }
  exists (length (heap w)), (evs ++ [EvBrowse u; EvClock]),
    [ScrapingResult.with_error_message s
       (Some (WebScraper.both_failed_message (ScrapingResult.error_message s)
                (ScrapingResult.error_message d))); d].
  subst w1. cbn [trace heap files]. rewrite <- !app_assoc. cbn [app].
  split.
  { f_equal. f_equal.
    rewrite (insert_app_r_alt (heap w)) by lia. by rewrite Nat.sub_diag. }
  split; [cbn; lia|]. by repeat constructor.
Qed.

Lemma scrape_urls_from_spec e self n urls :
  (1 <= WebScraper.max_retries self)%Z ->
  (forall u, u ∈ urls -> exists parsed, env_urlparse e u = Ok parsed) ->
  (forall t, sleep_error (delay_seconds e self t) = None) ->
  forall i results w,
  exists new evs os,
    WebScraper.scrape_urls_from e self n i urls results w
    = (Ok (results ++ new), World (trace w ++ evs) (heap w ++ os) (files w))
    /\ Forall2 (fun u r => exists o, (heap w ++ os) !! r = Some o /\ ScrapingResult.url o = u)
         urls new
    /\ Forall (fun r => length (heap w) <= r) new
    /\ NoDup new.
Proof.
  intros Hn Hparse Hdelay. induction urls as [|u urls IH]; intros i results w.
  - exists [], [], []. cbn. rewrite !app_nil_r. split; [by destruct w|].
    split; [constructor|]. split; constructor.
  - cbn [WebScraper.scrape_urls_from]. rewrite M_bind_unfold.
    destruct (scrape_url_allocates e self u w Hn) as (r & evs & os & -> & Hr & Hos).
    { apply Hparse. left. }
    cbn zeta. rewrite M_bind_unfold.
    set (w1 := World (trace w ++ evs) (heap w ++ os) (files w)).
    assert (exists evs',
      (if (i <? n - 1)%Z then WebScraper._random_delay e self else mret tt) w1
      = (Ok tt, emit_all evs' w1)) as [evs' ->].
    { destruct (i <? n - 1)%Z.
      - rewrite random_delay_run, Hdelay. by eexists.
      - exists []. cbn. unfold emit_all. by rewrite app_nil_r. }
    destruct (IH (fun u' Hu' => Hparse u' (list_elem_of_further _ _ _ Hu'))
                (i + 1)%Z (results ++ [r]) (emit_all evs' w1))
      as (new & evs'' & os' & -> & Hall & Hge & Hdup).
    exists (r :: new), (evs ++ evs' ++ evs''), (os ++ os').
    subst w1. cbn [trace heap files emit_all] in *.
    rewrite <- !app_assoc. split; [done|].
    rewrite length_app in Hge.
    split; [|split].
    + constructor; [|by rewrite <- app_assoc in Hall].
      assert (is_Some (os !! (r - length (heap w)))) as [o Ho]
        by (apply lookup_lt_is_Some; lia).
      exists o. split.
      * rewrite lookup_app_r by lia. by apply lookup_app_l_Some.
      * rewrite Forall_lookup in Hos. by eapply Hos.
    + constructor; [lia|]. eapply Forall_impl; [exact Hge|]. cbn. lia.
    + constructor; [|done]. intros Hin. rewrite Forall_forall in Hge.
      apply Hge in Hin. lia.
Qed.

(** X11. With an attempt allowed, URLs that parse and delays that are
    ordinary durations (numbers that [time.sleep] accepts: not negative, not
    NaN, and at most [10^9] seconds), [scrape_multiple_urls] never raises
    and returns one result per URL, in the order of the URLs: each is an
    object of its own, allocated during the call, and it is a result for its
    URL. Objects that existed before are kept as they were, and no file
    changes. *)
Theorem X11_scrape_multiple_urls_one_result_per_url
    (e : env) (self : WebScraper.t) (urls : list string) (w : world) :
  (1 <= WebScraper.max_retries self)%Z ->
  (forall u, u ∈ urls -> exists parsed, env_urlparse e u = Ok parsed) ->
  (forall t, ordinary_duration (delay_seconds e self t) = true) ->
  exists results evs os,
    WebScraper.scrape_multiple_urls e self urls w
    = (Ok results, World (trace w ++ evs) (heap w ++ os) (files w))
    /\ length results = length urls
    /\ Forall2 (fun u r => exists o, (heap w ++ os) !! r = Some o /\ ScrapingResult.url o = u)
         urls results
    /\ Forall (fun r => length (heap w) <= r) results
    /\ NoDup results.
Proof.
  intros Hn Hparse Hdelay. unfold WebScraper.scrape_multiple_urls.
  assert (forall t, sleep_error (delay_seconds e self t) = None) as Hsleeps.
  { intros t. specialize (Hdelay t). unfold ordinary_duration in Hdelay.
    by destruct (sleep_error (delay_seconds e self t)). }
  destruct (scrape_urls_from_spec e self (Z.of_nat (length urls)) urls Hn Hparse Hsleeps
              0%Z [] w) as (new & evs & os & Hrun & Hall & Hge & Hdup).
  exists new, evs, os. split; [exact Hrun|].
  split; [symmetry; by eapply Forall2_length|done].
Qed.

Lemma X11_two_unreachable_sites_witness :
  exists results evs os,
    WebScraper.scrape_multiple_urls unreachable_env
      (WebScraper.mk (WebScraper.DelayFixed (SecInt 1)) 2)
      ["https://a.example/"; "https://b.example/"] empty_world
    = (Ok results,
       World (trace empty_world ++ evs) (heap empty_world ++ os) (files empty_world))
    /\ length results = length ["https://a.example/"; "https://b.example/"]
    /\ Forall2 (fun u r => exists o, (heap empty_world ++ os) !! r = Some o
                                     /\ ScrapingResult.url o = u)
         ["https://a.example/"; "https://b.example/"] results
    /\ Forall (fun r => length (heap empty_world) <= r) results
    /\ NoDup results.
Proof.
  apply (X11_scrape_multiple_urls_one_result_per_url unreachable_env
           (WebScraper.mk (WebScraper.DelayFixed (SecInt 1)) 2)
           ["https://a.example/"; "https://b.example/"] empty_world).
  - cbn. lia.
  - intros u Hu. unfold unreachable_env, example_env, example_urlparse. cbn.
    destruct (String.prefix "https://" u); by eexists.
  - intros t. reflexivity.
Defined.



(** X13. A result can come back successful and carry an error message: when
    the static stage fetches a page whose content is not sufficient and the
    browser then fails, [scrape_url] returns the static result with
    [success] true and its content kept, and with the message
    [Both static and dynamic scraping failed. Static: None, Dynamic: ...]. *)
Theorem X13_successful_result_with_error_message
    (e : env) (self : WebScraper.t) (u scheme netloc : string) (w : world)
    (p : page) (x : exn) :
  env_urlparse e u = Ok (scheme, netloc) -> scheme <> "" -> netloc <> "" ->
  (1 <= WebScraper.max_retries self)%Z ->
  env_get e (trace w) u = Ok p ->
  WebScraper._is_content_sufficient (Some (page_content p)) = false ->
  env_browse e (trace w ++ [EvGet u; EvClock]) u = Raise x ->
  WebScraper.scrape_url e self u false w
  = (Ok (length (heap w)),
     World (trace w ++ [EvGet u; EvClock; EvBrowse u; EvClock])
       (heap w ++
          [ScrapingResult.mk u true (Some (page_content p)) (page_title p)
             (page_meta_description p)
             (Some (take 50 (page_links p))) (Some (take 20 (page_images p)))
             (Some ("Both static and dynamic scraping failed. Static: None, Dynamic: "
                    +:+ WebScraper.dynamic_error_msg u x))
             (Some "static") (Some (env_now e (trace w ++ [EvGet u])));
           WebScraper.failure_result u (WebScraper.dynamic_error_msg u x) (Some "dynamic")
             (env_now e (trace w ++ [EvGet u; EvClock; EvBrowse u]))])
       (files w)).
Proof.
  intros Hparse Hscheme Hnetloc Hn Hget Hshort Hbrowse.
  rewrite (scrape_url_valid _ _ _ _ _ _ Hparse Hscheme Hnetloc).
  unfold WebScraper.scrape_static_content.
  rewrite py_range_pos, for_each_cons, static_request_run by done.
  cbn [Z.ltb Z.compare mret M_ret]. rewrite Hget.
  set (s := page_result u p "static" (env_now e (trace w ++ [EvGet u]))).
  set (w1 := World (trace w ++ [EvGet u; EvClock]) (heap w ++ [s]) (files w)).
  assert (heap w1 !! length (heap w) = Some s) as Hlookup by by apply list_lookup_middle.
  destruct (after_static_cases e self u _ s w1 Hlookup) as (d & Hdyn & ->).
  cbn zeta in Hdyn. rewrite dynamic_content_run in Hdyn.
  injection Hdyn as Hd. apply app_inv_head in Hd. injection Hd as <-.
  subst s w1. cbn [trace heap files] in *. rewrite Hbrowse.
  cbn [page_result ScrapingResult.success ScrapingResult.content andb].
  rewrite Hshort. cbn [WebScraper.failure_result ScrapingResult.success].
  rewrite <- !app_assoc. cbn [app]. f_equal. f_equal.
  rewrite (insert_app_r_alt (heap w)) by lia. by rewrite Nat.sub_diag.
Qed.

Lemma X13_short_page_witness :
  WebScraper.scrape_url env_short_page WebScraper.default_config "https://example.com/" false
    empty_world
  = (Ok (length (heap empty_world)),
     World (trace empty_world
              ++ [EvGet "https://example.com/"; EvClock;
                  EvBrowse "https://example.com/"; EvClock])
       (heap empty_world ++
          [ScrapingResult.mk "https://example.com/" true (Some (page_content short_page))
             (page_title short_page) (page_meta_description short_page)
             (Some (take 50 (page_links short_page)))
             (Some (take 20 (page_images short_page)))
             (Some ("Both static and dynamic scraping failed. Static: None, Dynamic: "
                    +:+ WebScraper.dynamic_error_msg "https://example.com/"
                          (Exn WebDriverException "chrome not reachable")))
             (Some "static")
             (Some (env_now env_short_page
                      (trace empty_world ++ [EvGet "https://example.com/"])));
           WebScraper.failure_result "https://example.com/"
             (WebScraper.dynamic_error_msg "https://example.com/"
                (Exn WebDriverException "chrome not reachable"))
             (Some "dynamic")
             (env_now env_short_page
                (trace empty_world
                   ++ [EvGet "https://example.com/"; EvClock;
                       EvBrowse "https://example.com/"]))])
       (files empty_world)).
Proof.
  apply (X13_successful_result_with_error_message env_short_page WebScraper.default_config
           "https://example.com/" "https" "example.com" empty_world short_page
           (Exn WebDriverException "chrome not reachable")).
  - reflexivity.
  - discriminate.
  - discriminate.
  - vm_compute. discriminate.
  - reflexivity.
  - reflexivity.
  - reflexivity.
Defined.

(* ------------------------------------------------------------------ *)
(** ** The parser: rules, the language model, and the fallback *)
(* ------------------------------------------------------------------ *)

Lemma client_events_retry self prompt n d attempts :
  Forall (client_event self prompt) (retry_events self prompt n d attempts).
Proof.
  induction attempts as [|attempt attempts IH]; [constructor|].
  change (retry_events self prompt n d (attempt :: attempts))
    with ((EvPost (MonicaClient.endpoint self) prompt ::
           if (attempt <? n - 1)%Z
           then [EvSleep (SecInt (MonicaClient.calculate_backoff_delay attempt d
                                    MonicaClient.default_max_delay))]
           else []) ++ retry_events self prompt n d attempts).
  apply Forall_app. split; [|done].
  apply Forall_cons. split; [right; by left|].
  destruct (attempt <? n - 1)%Z; [|apply Forall_nil_2].
  apply Forall_cons. split; [|apply Forall_nil_2]. right. by right.
Qed.

Lemma client_event_clock self prompt : client_event self prompt EvClock.
Proof. by left. Qed.

Lemma client_event_post self prompt :
  client_event self prompt (EvPost (MonicaClient.endpoint self) prompt).
Proof. right. by left. Qed.

(** A call of the client with a delay that is not negative, whatever the
    outside answers. *)
Lemma call_api_run e self prompt n d w :
  (0 <= d)%Z ->
  exists v evs,
    MonicaClient.call_api e self prompt n d w = (Ok v, emit_all evs w)
    /\ count_events is_post evs <= Z.to_nat n
    /\ Forall (client_event self prompt) evs
    /\ forall content, fst v = Some content -> truthy content = true.
Proof.
  intros Hd. unfold MonicaClient.call_api. rewrite M_bind_unfold. unfold time_time at 1.
  rewrite emit_emit_all, M_bind_unfold.
  destruct (Z_lt_le_dec n 0) as [Hn|Hn].
  { rewrite py_range_nonpos by lia. cbn [for_each mret M_ret].
    rewrite M_bind_unfold. unfold time_time at 1. cbn [mret M_ret].
    rewrite emit_emit_all, !emit_all_emit_all. eexists _, _. split; [reflexivity|].
    split; [cbn; lia|]. split; [|done].
    repeat (apply Forall_cons; split; [apply client_event_clock|]). apply Forall_nil_2. }
  destruct (for_each (py_range n) _ (emit_all [EvClock] w)) as [r w1] eqn:Hloop.
  pose proof (loop_returns_truthy e self prompt n d (env_time e (trace w)) (py_range n)
                (emit_all [EvClock] w)) as Htruthy.
  destruct (call_api_loop_shape e self prompt n d (env_time e (trace w))
              (emit_all [EvClock] w) n Hd Hn) as [(j & v & Hj & Hrun)|Hrun];
    rewrite Hrun in Hloop; injection Hloop as <- <-.
  - cbn [mret M_ret]. rewrite emit_all_emit_all. eexists _, _. split; [reflexivity|].
    split; [|split].
    + rewrite !count_events_app.
      destruct (count_retry_events self prompt n d j ltac:(lia)) as [-> _]. cbn. lia.
    + apply Forall_app. split; [apply Forall_singleton, client_event_clock|].
      apply Forall_app. split; [apply client_events_retry|].
      apply Forall_cons. split; [apply client_event_post|].
      apply Forall_singleton, client_event_clock.
    + by eapply Htruthy.
  - rewrite M_bind_unfold. unfold time_time at 1. cbn [mret M_ret].
    rewrite emit_emit_all, !emit_all_emit_all. eexists _, _. split; [reflexivity|].
    split; [|split; [|done]].
    + rewrite !count_events_app.
      destruct (count_retry_events self prompt n d n Hn) as [-> _]. cbn. lia.
    + apply Forall_app. split; [|apply Forall_singleton, client_event_clock].
      apply Forall_app.
      split; [apply Forall_singleton, client_event_clock|apply client_events_retry].
Qed.

Lemma complete_run e self prompt n d w :
  (0 <= d)%Z ->
  exists r evs,
    MonicaClient.complete e self prompt n d w = (r, emit_all evs w)
    /\ count_events is_post evs <= Z.to_nat n
    /\ Forall (client_event self prompt) evs
    /\ forall content, r = Ok content -> truthy content = true.
Proof.
  intros Hd. unfold MonicaClient.complete. rewrite M_bind_unfold.
  destruct (call_api_run e self prompt n d w Hd) as ([c elapsed] & evs & -> & Hp & Hev & Hc).
  cbn [fst]. destruct c as [content|].
  - eexists _, evs. split; [reflexivity|]. split; [done|]. split; [done|].
    intros c [= <-]. by apply Hc.
  - eexists _, evs. split; [reflexivity|]. split; [done|]. split; [done|]. done.
Qed.

Lemma prompt_embeds_content content :
  str_contains content (ContentParser.generate_extraction_prompt content) = true.
Proof.
  unfold ContentParser.generate_extraction_prompt.
  repeat (first [ apply str_contains_prefix | apply str_contains_skip ]).
Qed.

(** What the rules come to: a score of 0.65 at most, and a record with ten
    attributes left at [None]. *)
Lemma rules_scored (re_search : searcher) (content : string) :
  exists confidence a4 a5 a8 a11 a12,
    ContentParser.validate_parsed_data (ContentParser.parse_with_rules re_search content)
    = Ok confidence
    /\ PrimFloat.leb confidence 0.65 = true
    /\ ContentParser._dict_to_parsed_info (ContentParser.parse_with_rules re_search content)
       = Ok (ParsedCompetitionInfo.mk PNone PNone PNone a4 a5 PNone PNone a8 PNone PNone
               a11 a12 PNone PNone PNone PNone PNone PNone).
Proof.
  unfold ContentParser.parse_with_rules. cbn zeta.
  destruct (first_match re_search ContentParser.prize_patterns content) as [[[|a0 g0] g0']|];
    destruct (first_match re_search ContentParser.deadline_patterns content)
      as [[g1' [|a1 g1]]|];
    destruct (ContentParser.detect_status (py_lower content)) as [[|a2 status]|];
    destruct (ContentParser.found_benefits (py_lower content)) as [|b bs];
    destruct (ContentParser.detect_stage ContentParser.stage_keywords (py_lower content))
      as [[|a3 stage]|];
    eexists _, _, _, _, _, _;
    (split; [vm_compute; reflexivity|]);
    (split; [vm_compute; reflexivity|]);
    vm_compute; reflexivity.
Qed.


(** X14. The rules fill five attributes at most. Whatever the text and
    whatever the patterns match, the dictionary of [parse_with_rules] is
    scored without an error at 0.65 or less, and it converts to a record in
    which the name, the organizer, the partners, the description and the
    criteria of the participants, the industry focus, the innovation type,
    the support offered and both lists of evaluation criteria are [None]. *)
Theorem X14_rules_confidence_is_at_most_065 (re_search : searcher) (content : string) :
  exists confidence info,
    ContentParser.validate_parsed_data (ContentParser.parse_with_rules re_search content)
    = Ok confidence
    /\ PrimFloat.leb confidence 0.65 = true
    /\ ContentParser._dict_to_parsed_info (ContentParser.parse_with_rules re_search content)
       = Ok info
    /\ ParsedCompetitionInfo.name info = PNone
    /\ ParsedCompetitionInfo.organizer info = PNone
    /\ ParsedCompetitionInfo.partners info = PNone
    /\ ParsedCompetitionInfo.target_description info = PNone
    /\ ParsedCompetitionInfo.eligibility_criteria info = PNone
    /\ ParsedCompetitionInfo.industry_focus info = PNone
    /\ ParsedCompetitionInfo.innovation_type info = PNone
    /\ ParsedCompetitionInfo.support_offered info = PNone
    /\ ParsedCompetitionInfo.explicit_criteria info = PNone
    /\ ParsedCompetitionInfo.implied_preferences info = PNone.
Proof.
  destruct (rules_scored re_search content)
    as (confidence & a4 & a5 & a8 & a11 & a12 & Hscore & Hbound & Hinfo).
  eexists confidence, _. split; [exact Hscore|]. split; [exact Hbound|].
  split; [exact Hinfo|]. repeat split.
Qed.

Lemma found_benefits_sublist content_lower :
  ContentParser.found_benefits content_lower
  `sublist_of` (py_capitalize <$> ContentParser.benefit_keywords).
Proof.
  unfold ContentParser.found_benefits.
  induction ContentParser.benefit_keywords as [|k ks IH]; [constructor|].
  cbn [List.filter]. destruct (str_contains k content_lower); cbn [fmap list_fmap].
  - by apply sublist_skip.
  - by apply sublist_cons.
Qed.

Lemma found_benefits_sound content_lower :
  Forall (fun b => exists keyword,
            keyword ∈ ContentParser.benefit_keywords
            /\ b = py_capitalize keyword
            /\ str_contains keyword content_lower = true)
         (ContentParser.found_benefits content_lower).
Proof.
  unfold ContentParser.found_benefits. apply Forall_fmap, Forall_forall.
  intros k Hk. apply list_elem_of_In, List.filter_In in Hk as [Hk Hc].
  exists k. split; [by apply list_elem_of_In|done].
Qed.

(** X15. The benefits that the rules report are at least one and at most
    five; each is a keyword of the fixed list, written with a capital, that
    occurs in the text in some casing; they come in the order of the list
    and none comes twice. *)
Theorem X15_rules_report_at_most_five_benefits
    (re_search : searcher) (content : string) (section : gmap string pyval) (v : pyval) :
  ContentParser.parse_with_rules re_search content !! "benefits_and_prizes"
    = Some (PDict section) ->
  section !! "benefits" = Some v ->
  exists benefits,
    v = PList (PStr <$> benefits)
    /\ 1 <= length benefits <= 5
    /\ benefits `sublist_of` (py_capitalize <$> ContentParser.benefit_keywords)
    /\ NoDup benefits
    /\ Forall (fun b => exists keyword,
                 keyword ∈ ContentParser.benefit_keywords
                 /\ b = py_capitalize keyword
                 /\ str_contains keyword (py_lower content) = true) benefits.
Proof.
  unfold ContentParser.parse_with_rules. cbn zeta.
  generalize (first_match re_search ContentParser.prize_patterns content). intros prize.
  rewrite !lookup_insert_ne, lookup_insert_eq by done. intros [= <-].
  pose proof (found_benefits_sublist (py_lower content)) as Hsub.
  pose proof (found_benefits_sound (py_lower content)) as Hsound.
  destruct (ContentParser.found_benefits (py_lower content)) as [|b bs] eqn:Hfound.
  { cbn [set_if_some]. intros Hv. exfalso.
    destruct prize; cbn [set_if_some fmap option_fmap option_map] in Hv.
    - by rewrite lookup_insert_ne, lookup_empty in Hv.
    - by rewrite lookup_empty in Hv. }
  cbn [set_if_some]. rewrite lookup_insert_eq. intros [= <-].
  exists (take 5 (b :: bs)). split; [done|].
  assert (take 5 (b :: bs) `sublist_of` (py_capitalize <$> ContentParser.benefit_keywords))
    as Hsub5 by (etrans; [apply sublist_take|done]).
  split; [rewrite length_take; cbn [length]; lia|]. split; [done|]. split.
  - eapply sublist_NoDup; [|exact Hsub5]. apply (bool_decide_unpack _). vm_compute. reflexivity.
  - by apply Forall_take.
Qed.

Lemma X15_two_benefits_witness :
  exists benefits,
    PList [PStr "Mentorship"; PStr "Funding"] = PList (PStr <$> benefits)
    /\ 1 <= length benefits <= 5
    /\ benefits `sublist_of` (py_capitalize <$> ContentParser.benefit_keywords)
    /\ NoDup benefits
    /\ Forall (fun b => exists keyword,
                 keyword ∈ ContentParser.benefit_keywords
                 /\ b = py_capitalize keyword
                 /\ str_contains keyword (py_lower "FUNDING and Mentorship") = true) benefits.
Proof.
  apply (X15_rules_report_at_most_five_benefits no_match "FUNDING and Mentorship"
           {[ "benefits" := PList [PStr "Mentorship"; PStr "Funding"] ]}).
  - vm_compute. reflexivity.
  - vm_compute. reflexivity.
Defined.

Lemma ai_complete_run e self prompt w :
  exists r evs,
    MonicaAIClient.complete e self prompt w = (r, emit_all evs w)
    /\ MonicaClient.complete e self prompt 3 5 w = (r, emit_all evs w)
    /\ count_events is_post evs <= 3
    /\ Forall (client_event self prompt) evs
    /\ forall content, r = Ok content -> truthy content = true.
Proof.
  destruct (complete_run e self prompt 3 5 w ltac:(lia)) as (r & evs & Hrun & Hp & Hev & Hc).
  exists r, evs. unfold MonicaAIClient.complete, try_except. rewrite Hrun.
  split; [by destruct r|]. split; [done|]. split; [exact Hp|]. split; [done|exact Hc].
Qed.

(** X16. [parse_with_llm] never raises. Without a client it returns [None]
    and does nothing. With one it makes three requests at most, each of
    them with the extraction prompt, which holds the content; and when the
    result is not [None], the client has returned a text and the result is
    what [json.loads] makes of that text, stripped. *)
Theorem X16_parse_with_llm_never_raises
    (e : env) (llm_client : option MonicaClient.t) (content : string) (w : world) :
  exists v evs,
    ContentParser.parse_with_llm e llm_client content w = (Ok v, emit_all evs w)
    /\ count_events is_post evs <= 3
    /\ str_contains content (ContentParser.generate_extraction_prompt content) = true
    /\ match llm_client with
       | None => v = PNone /\ evs = []
       | Some client =>
           Forall (client_event client (ContentParser.generate_extraction_prompt content)) evs
           /\ (v <> PNone ->
               exists text,
                 MonicaAIClient.complete e client
                   (ContentParser.generate_extraction_prompt content) w
                 = (Ok (PStr text), emit_all evs w)
                 /\ env_json_loads e (py_strip text) = Ok v)
       end.
Proof.
  destruct llm_client as [client|].
  2:{ exists PNone, []. cbn. unfold emit_all. rewrite app_nil_r.
      split; [by destruct w|]. split; [lia|]. split; [apply prompt_embeds_content|done]. }
  destruct (ai_complete_run e client (ContentParser.generate_extraction_prompt content) w)
    as (r & evs & Hrun & _ & Hp & Hev & _).
  unfold ContentParser.parse_with_llm, try_except. cbn zeta.
  rewrite M_bind_unfold, Hrun.
  destruct r as [response|x].
  2:{ exists PNone, evs. split; [done|]. split; [done|].
      split; [apply prompt_embeds_content|]. split; [done|]. by intros []. }
  rewrite M_bind_unfold. unfold lift at 1.
  destruct response as [|b|z|f|text|l|d];
    try (exists PNone, evs; cbn; split; [done|]; split; [done|];
         split; [apply prompt_embeds_content|]; split; [done|]; by intros []).
  cbn [py_str_strip]. unfold lift.
  destruct (env_json_loads e (py_strip text)) as [v|x] eqn:Hloads.
  - exists v, evs. split; [done|]. split; [done|].
    split; [apply prompt_embeds_content|]. split; [done|]. intros _. by exists text.
  - exists PNone, evs. split; [done|]. split; [done|].
    split; [apply prompt_embeds_content|]. split; [done|]. by intros [].
Qed.

Lemma score_sections_of_dict d ws acc :
  ContentParser.score_sections_of (PDict d) ws acc = ContentParser.score_sections d ws acc.
Proof.
  revert acc. induction ws as [|[section fields] ws IH]; intros acc; [done|].
  cbn [ContentParser.score_sections_of ContentParser.score_sections py_in py_getitem_str].
  change (Ok ?b ≫= ?k) with (k b). cbn beta.
  destruct (d !! section) as [section_value|] eqn:Hsection.
  - rewrite bool_decide_eq_true_2 by eauto.
    change (Ok ?b ≫= ?k) with (k b). cbn beta.
    destruct (ContentParser.score_fields section_value fields acc) as [acc'|x]; [|done].
    apply IH.
  - rewrite bool_decide_eq_false_2 by (by intros [? ?]). apply IH.
Qed.

Lemma validate_parsed_data_of_dict d :
  ContentParser.validate_parsed_data_of (PDict d) = ContentParser.validate_parsed_data d.
Proof.
  unfold ContentParser.validate_parsed_data_of, ContentParser.validate_parsed_data.
  by rewrite score_sections_of_dict.
Qed.

(** X17. The fallback of [parse_content]: when there is no client, or the
    language model gives nothing, or what it gives is falsy (an empty
    object, an empty list, [null], zero), the record comes from the rules. The
    call does not raise; past the language model it only reads the clock; the
    confidence is 0.65 at most and the length is that of the content. *)
Theorem X17_parse_content_falls_back_to_rules
    (e : env) (re_search : searcher) (llm_client : option MonicaClient.t)
    (content : string) (w w1 : world) (v : pyval) :
  ContentParser.parse_with_llm e llm_client content w = (Ok v, w1) ->
  truthy v = false ->
  exists confidence info,
    ContentParser.validate_parsed_data (ContentParser.parse_with_rules re_search content)
    = Ok confidence
    /\ PrimFloat.leb confidence 0.65 = true
    /\ ContentParser._dict_to_parsed_info (ContentParser.parse_with_rules re_search content)
       = Ok info
    /\ ContentParser.parse_content e re_search llm_client content w
       = (Ok (ContentParser.with_metadata info (PFloat confidence)
                (PStr (env_now e (trace w1)))
                (PInt (Z.of_nat (String.length content)))),
          emit EvClock w1).
Proof.
  intros Hllm Hfalsy.
  destruct (rules_scored re_search content)
    as (confidence & a4 & a5 & a8 & a11 & a12 & Hscore & Hbound & Hinfo).
  eexists confidence, _. split; [exact Hscore|]. split; [exact Hbound|].
  split; [exact Hinfo|].
  unfold ContentParser.parse_content. rewrite M_bind_unfold.
  assert (match llm_client with
          | Some _ => ContentParser.parse_with_llm e llm_client content
          | None => mret PNone
          end w = (Ok v, w1)) as ->.
  { destruct llm_client; [done|]. exact Hllm. }
  cbn zeta. rewrite Hfalsy. cbn [negb].
  rewrite M_bind_unfold. unfold lift at 1.
  rewrite validate_parsed_data_of_dict, Hscore.
  rewrite M_bind_unfold. unfold lift at 1.
  cbn [ContentParser._dict_to_parsed_info_of]. rewrite Hinfo. reflexivity.
Qed.

Lemma X17_no_client_witness :
  exists confidence info,
    ContentParser.validate_parsed_data (ContentParser.parse_with_rules no_match "Apply now")
    = Ok confidence
    /\ PrimFloat.leb confidence 0.65 = true
    /\ ContentParser._dict_to_parsed_info (ContentParser.parse_with_rules no_match "Apply now")
       = Ok info
    /\ ContentParser.parse_content unreachable_env no_match None "Apply now" empty_world
       = (Ok (ContentParser.with_metadata info (PFloat confidence)
                (PStr (env_now unreachable_env (trace empty_world)))
                (PInt (Z.of_nat (String.length "Apply now")))),
          emit EvClock empty_world).
Proof.
  apply (X17_parse_content_falls_back_to_rules unreachable_env no_match None "Apply now"
           empty_world empty_world PNone).
  - reflexivity.
  - reflexivity.
Defined.

(** On a text or a list the scoring loop finds no section, or fails on the
    subscript. *)
Lemma score_sections_of_sequence v ws acc :
  is_scalar v = false -> is_dict v = false ->
  ContentParser.score_sections_of v ws acc = Ok acc
  \/ exists x, ContentParser.score_sections_of v ws acc = Raise x
               /\ exn_class_of x = TypeError.
Proof.
  intros Hscalar Hdict. induction ws as [|[section fields] ws IH]; [by left|].
  cbn [ContentParser.score_sections_of].
  destruct v as [|b|z|f|s|l|d]; try done; cbn [py_in py_getitem_str];
    change (Ok ?b ≫= ?k) with (k b); cbn beta.
  - destruct (str_contains section s); [right; by eexists|exact IH].
  - destruct (existsb _ l); [right; by eexists|exact IH].
Qed.

(** X18. When the language model answers with JSON that is truthy and not
    an object (a list, a text, a number, [true]), [parse_content] does not
    fall back to the rules: it raises a [TypeError] or an [AttributeError],
    and does nothing past the language model. *)
Theorem X18_parse_content_raises_on_json_that_is_no_object
    (e : env) (re_search : searcher) (llm_client : MonicaClient.t)
    (content : string) (w w1 : world) (v : pyval) :
  ContentParser.parse_with_llm e (Some llm_client) content w = (Ok v, w1) ->
  truthy v = true ->
  is_dict v = false ->
  exists x,
    ContentParser.parse_content e re_search (Some llm_client) content w = (Raise x, w1)
    /\ (exn_class_of x = TypeError \/ exn_class_of x = AttributeError).
Proof.
  intros Hllm Htruthy Hdict.
  unfold ContentParser.parse_content. rewrite M_bind_unfold, Hllm.
  cbn zeta. rewrite Htruthy. cbn [negb].
  rewrite M_bind_unfold. unfold lift at 1.
  unfold ContentParser.validate_parsed_data_of.
  destruct (is_scalar v) eqn:Hscalar.
  { destruct v; try done; eexists; (split; [reflexivity|]); by left. }
  destruct (score_sections_of_sequence v ContentParser.weights (0, 0)%float Hscalar Hdict)
    as [->|(x & -> & Hx)].
  - change (Ok ?b ≫= ?k) with (k b). cbn beta zeta iota.
    destruct v; try done; eexists; rewrite M_bind_unfold; unfold lift at 1;
      (split; [reflexivity|]); by right.
  - exists x. split; [done|by left].
Qed.

Lemma X18_json_list_witness :
  exists x,
    ContentParser.parse_content env_llm_answers_a_list no_match (Some example_client)
      "Apply now" empty_world
    = (Raise x,
       (ContentParser.parse_with_llm env_llm_answers_a_list (Some example_client)
          "Apply now" empty_world).2)
    /\ (exn_class_of x = TypeError \/ exn_class_of x = AttributeError).
Proof.
  apply (X18_parse_content_raises_on_json_that_is_no_object env_llm_answers_a_list no_match
           example_client "Apply now" empty_world _ (PList [PInt 1])).
  - vm_compute. reflexivity.
  - reflexivity.
  - reflexivity.
Defined.

(** The inner loop fails with a [TypeError] only. *)
Lemma score_fields_raises section_value fields acc x :
  ContentParser.score_fields section_value fields acc = Raise x ->
  exn_class_of x = TypeError.
Proof.
  revert acc. induction fields as [|[field weight] fields IH]; intros acc; [done|].
  cbn [ContentParser.score_fields]. cbn zeta.
  destruct section_value as [|b|z|f|s|l|d]; cbn [py_in py_getitem_str];
    try (intros [= <-]; reflexivity);
    change (Ok ?b ≫= ?k) with (k b); cbn beta.
  - destruct (str_contains field s); [by intros [= <-]|].
    change (Ok ?b ≫= ?k) with (k b). cbn beta. apply IH.
  - destruct (existsb _ l); [by intros [= <-]|].
    change (Ok ?b ≫= ?k) with (k b). cbn beta. apply IH.
  - destruct (d !! field) as [v|] eqn:Hfield.
    + rewrite bool_decide_eq_true_2 by eauto.
      change (Ok ?b ≫= ?k) with (k b). cbn beta. apply IH.
    + rewrite bool_decide_eq_false_2 by (by intros [? ?]).
      change (Ok ?b ≫= ?k) with (k b). cbn beta. apply IH.
Qed.

Lemma score_fields_scalar section_value field weight fields acc :
  is_scalar section_value = true ->
  exists x, ContentParser.score_fields section_value ((field, weight) :: fields) acc = Raise x.
Proof. destruct section_value; try done; intros _; by eexists. Qed.

Lemma score_sections_raises d ws acc x :
  ContentParser.score_sections d ws acc = Raise x -> exn_class_of x = TypeError.
Proof.
  revert acc. induction ws as [|[section fields] ws IH]; intros acc; [done|].
  cbn [ContentParser.score_sections].
  destruct (d !! section) as [section_value|]; [|apply IH].
  destruct (ContentParser.score_fields section_value fields acc) as [acc'|x'] eqn:Hfields.
  - change (Ok ?b ≫= ?k) with (k b). cbn beta. apply IH.
  - intros [= <-]. by eapply score_fields_raises.
Qed.

Lemma score_sections_scalar d ws acc section fields v :
  (section, fields) ∈ ws -> fields <> [] ->
  d !! section = Some v -> is_scalar v = true ->
  exists x, ContentParser.score_sections d ws acc = Raise x.
Proof.
  intros Hin Hfields Hsection Hscalar. revert acc.
  induction ws as [|[section' fields'] ws IH]; intros acc; [by apply elem_of_nil in Hin|].
  cbn [ContentParser.score_sections].
  apply elem_of_cons in Hin as [[= <- <-]|Hin].
  - rewrite Hsection. destruct fields as [|[field weight] fields]; [done|].
    destruct (score_fields_scalar v field weight fields acc Hscalar) as [x ->]. by exists x.
  - destruct (d !! section') as [section_value|]; [|by apply IH].
    destruct (ContentParser.score_fields section_value fields' acc) as [acc'|x'].
    + change (Ok ?b ≫= ?k) with (k b). cbn beta. by apply IH.
    + by exists x'.
Qed.

(** X19. What the two readers of the dictionary do with a section that is
    not an object. When a weighted section is present with the value [None],
    a truth value or a number, [validate_parsed_data] raises, and a
    [TypeError] is the one exception it ever raises. When one of the five
    sections is present with a value that is not a dictionary,
    [_dict_to_parsed_info] raises an [AttributeError]; a section that is
    absent counts as empty for both. *)
Theorem X19_section_that_is_no_object_raises (d : gmap string pyval) :
  (forall section fields v,
      (section, fields) ∈ ContentParser.weights ->
      d !! section = Some v -> is_scalar v = true ->
      exists x, ContentParser.validate_parsed_data d = Raise x)
  /\ (forall x, ContentParser.validate_parsed_data d = Raise x -> exn_class_of x = TypeError)
  /\ (forall section v,
        section ∈ parsed_sections ->
        d !! section = Some v -> is_dict v = false ->
        exists x, ContentParser._dict_to_parsed_info d = Raise x
                  /\ exn_class_of x = AttributeError)
  /\ ((forall section, section ∈ parsed_sections -> d !! section = None) ->
      ContentParser.validate_parsed_data d = Ok 0%float
      /\ ContentParser._dict_to_parsed_info d
         = Ok (ParsedCompetitionInfo.mk PNone PNone PNone PNone PNone PNone PNone PNone PNone
                 PNone PNone PNone PNone PNone PNone PNone PNone PNone)).
Proof.
  split; [|split; [|split]].
  - intros section fields v Hin Hsection Hscalar.
    unfold ContentParser.validate_parsed_data.
    destruct (score_sections_scalar d ContentParser.weights (0, 0)%float section fields v)
      as [x ->]; [done| |done|done|by exists x].
    assert (Forall (fun sf : string * list (string * float) => snd sf <> [])
              ContentParser.weights) as Hall
      by (unfold ContentParser.weights; repeat (apply Forall_cons; split; [discriminate|]);
          apply Forall_nil_2).
    rewrite Forall_forall in Hall. exact (Hall _ Hin).
  - intros x. unfold ContentParser.validate_parsed_data.
    destruct (ContentParser.score_sections d ContentParser.weights (0, 0)%float)
      as [acc|x'] eqn:Hscore; [done|].
    intros [= <-]. by eapply score_sections_raises.
  - intros section v Hin Hsection Hdict. unfold ContentParser._dict_to_parsed_info.
    cbn zeta. unfold parsed_sections in Hin.
    destruct (default (PDict ∅) (d !! "competition_basic_info")) as [| | | | | |basic] eqn:H1;
      try (eexists; split; reflexivity).
    destruct (default (PDict ∅) (d !! "target_participants")) as [| | | | | |target] eqn:H2;
      try (eexists; split; reflexivity).
    destruct (default (PDict ∅) (d !! "competition_focus")) as [| | | | | |focus] eqn:H3;
      try (eexists; split; reflexivity).
    destruct (default (PDict ∅) (d !! "benefits_and_prizes")) as [| | | | | |benefits] eqn:H4;
      try (eexists; split; reflexivity).
    destruct (default (PDict ∅) (d !! "evaluation_criteria")) as [| | | | | |criteria] eqn:H5;
      try (eexists; split; reflexivity).
    exfalso.
    repeat (apply elem_of_cons in Hin as [->|Hin];
            [match goal with
             | H : default _ (d !! _) = _ |- _ =>
                 rewrite Hsection in H; cbn in H; subst v; discriminate Hdict
             end|]).
    by apply elem_of_nil in Hin.
  - intros Hnone. split.
    + unfold ContentParser.validate_parsed_data, ContentParser.weights.
      cbn [ContentParser.score_sections].
      rewrite !Hnone by (unfold parsed_sections; set_solver). reflexivity.
    + unfold ContentParser._dict_to_parsed_info. cbn zeta.
      rewrite !Hnone by (unfold parsed_sections; set_solver). reflexivity.
Qed.

Lemma X19_null_section_witness :
  exists x, ContentParser.validate_parsed_data null_section = Raise x.
Proof.
  apply (proj1 (X19_section_that_is_no_object_raises null_section)
           "target_participants" [("criteria", 0.10%float)] PNone).
  - unfold ContentParser.weights. do 2 apply list_elem_of_further. apply list_elem_of_here.
  - reflexivity.
  - reflexivity.
Defined.

(* ------------------------------------------------------------------ *)
(** ** The stages of the workflow and the files between them *)
(* ------------------------------------------------------------------ *)

Lemma keeps_files_refl w : keeps_files w w.
Proof. by unfold keeps_files. Qed.

Lemma keeps_files_trans w1 w2 w3 :
  keeps_files w1 w2 -> keeps_files w2 w3 -> keeps_files w1 w3.
Proof. unfold keeps_files. set_solver. Qed.

Lemma keeps_files_same w w' : files w' = files w -> keeps_files w w'.
Proof. unfold keeps_files. by intros ->. Qed.

Lemma keeps_has_file path w w' : keeps_files w w' -> has_file path w -> has_file path w'.
Proof.
  unfold keeps_files, has_file. intros Hsub Hin.
  apply elem_of_dom. apply Hsub. by apply elem_of_dom.
Qed.

Lemma monotone_ret {A} (a : A) : monotone (mret a : M A).
Proof. intros w. apply keeps_files_refl. Qed.

Lemma monotone_raise {A} x : monotone (raise x : M A).
Proof. intros w. apply keeps_files_refl. Qed.

Lemma monotone_lift {A} (r : result A) : monotone (lift r).
Proof. intros w. apply keeps_files_refl. Qed.

Lemma monotone_bind {A B} (m : M A) (k : A -> M B) :
  monotone m -> (forall a, monotone (k a)) -> monotone (m ≫= k).
Proof.
  intros Hm Hk w. rewrite M_bind_unfold. specialize (Hm w).
  destruct (m w) as [[a|x] w1]; [|exact Hm].
  eapply keeps_files_trans; [exact Hm|apply Hk].
Qed.

Lemma monotone_try {A} (body : M A) handler :
  monotone body -> (forall x h, handler x = Some h -> monotone h) ->
  monotone (try_except body handler).
Proof.
  intros Hbody Hhandler w. unfold try_except. specialize (Hbody w).
  destruct (body w) as [[a|x] w1]; [exact Hbody|].
  destruct (handler x) as [h|] eqn:Hh; [|exact Hbody].
  eapply keeps_files_trans; [exact Hbody|by eapply Hhandler].
Qed.

Lemma monotone_for_each {I A} (indices : list I) (body : I -> M (option A)) :
  (forall i, monotone (body i)) -> monotone (for_each indices body).
Proof.
  intros Hbody. induction indices as [|i rest IH]; [apply monotone_ret|].
  cbn [for_each]. apply monotone_bind; [apply Hbody|].
  intros [v|]; [apply monotone_ret|exact IH].
Qed.

(** The primitive operations remove no file. *)
Lemma monotone_post e target prompt : monotone (requests_post e target prompt).
Proof. intros w. by apply keeps_files_same. Qed.

Lemma monotone_get e target : monotone (session_get_and_parse e target).
Proof. intros w. by apply keeps_files_same. Qed.

Lemma monotone_browse e target : monotone (browser_render_and_parse e target).
Proof. intros w. by apply keeps_files_same. Qed.

Lemma monotone_time e : monotone (time_time e).
Proof. intros w. by apply keeps_files_same. Qed.

Lemma monotone_now e : monotone (datetime_now_isoformat e).
Proof. intros w. by apply keeps_files_same. Qed.

Lemma monotone_uniform e a b : monotone (random_uniform e a b).
Proof. intros w. by apply keeps_files_same. Qed.

Lemma monotone_sleep d : monotone (time_sleep d).
Proof. intros w. unfold time_sleep. destruct (sleep_error d); by apply keeps_files_same. Qed.

Lemma monotone_new_result o : monotone (new_ScrapingResult o).
Proof. intros w. by apply keeps_files_same. Qed.

Lemma monotone_set_error_message r m : monotone (set_error_message r m).
Proof.
  intros w. unfold set_error_message. destruct (heap w !! r); by apply keeps_files_same.
Qed.

Lemma monotone_load l : monotone (WebScraper.load l).
Proof. intros w. unfold WebScraper.load. destruct (heap w !! l); by apply keeps_files_same. Qed.

Lemma monotone_mkdir e path : monotone (mkdir e path).
Proof. intros w. unfold mkdir. destruct (env_io_error e (trace w)); by apply keeps_files_same. Qed.

Lemma monotone_path_exists path : monotone (path_exists path).
Proof. intros w. by apply keeps_files_same. Qed.

Lemma monotone_read e path : monotone (read_file e path).
Proof.
  intros w. unfold read_file. destruct (files w !! path); [|by apply keeps_files_same].
  destruct (env_io_error e (trace w)); by apply keeps_files_same.
Qed.

Lemma monotone_write e path data : monotone (write_file e path data).
Proof.
  intros w. unfold write_file. destruct (env_io_error e (trace w)).
  - by apply keeps_files_same.
  - unfold keeps_files. cbn. rewrite dom_insert. set_solver.
Qed.

Lemma write_file_has_file e path data w w' :
  write_file e path data w = (Ok tt, w') -> has_file path w'.
Proof.
  unfold write_file, has_file. destruct (env_io_error e (trace w)); [done|].
  intros [= <-]. cbn. by rewrite lookup_insert_eq.
Qed.

Create HintDb monotone.
#[local] Hint Resolve monotone_ret monotone_raise monotone_lift monotone_post monotone_get
  monotone_browse monotone_time monotone_now monotone_uniform monotone_sleep
  monotone_new_result monotone_set_error_message monotone_load monotone_mkdir
  monotone_path_exists monotone_read monotone_write : monotone.

Ltac monotone_step :=
  lazymatch goal with
  | |- monotone (mbind _ _) => apply monotone_bind; [|intros ?]
  | |- monotone (try_except _ _) => apply monotone_try; [|intros ? ? [= <-]]
  | |- monotone (for_each _ _) => apply monotone_for_each; intros ?
  | |- monotone (if ?b then _ else _) => destruct b
  | |- monotone (match ?x with _ => _ end) => destruct x
  | |- monotone _ => solve [auto with monotone]
  end.

Lemma monotone_random_delay e self : monotone (WebScraper._random_delay e self).
Proof. unfold WebScraper._random_delay. repeat monotone_step. Qed.

Lemma monotone_static e self u : monotone (WebScraper.scrape_static_content e self u).
Proof.
  unfold WebScraper.scrape_static_content, WebScraper.scrape_static_attempt,
    WebScraper.scrape_static_try, WebScraper.scrape_static_except.
  pose proof (monotone_random_delay e self).
  repeat monotone_step; done.
Qed.

Lemma monotone_dynamic e self u : monotone (WebScraper.scrape_dynamic_content e self u).
Proof. unfold WebScraper.scrape_dynamic_content. repeat monotone_step. Qed.

Lemma monotone_scrape_url e self u force : monotone (WebScraper.scrape_url e self u force).
Proof.
  unfold WebScraper.scrape_url, WebScraper.expect_object.
  pose proof (monotone_static e self u). pose proof (monotone_dynamic e self u).
  repeat monotone_step; done.
Qed.

Lemma monotone_call_api e self prompt n d : monotone (MonicaClient.call_api e self prompt n d).
Proof.
  unfold MonicaClient.call_api, MonicaClient.call_api_iteration,
    MonicaClient.call_api_attempt.
  repeat monotone_step.
Qed.

Lemma monotone_complete e self prompt n d : monotone (MonicaClient.complete e self prompt n d).
Proof.
  unfold MonicaClient.complete. pose proof (monotone_call_api e self prompt n d).
  repeat monotone_step; done.
Qed.

Lemma monotone_parse_content e re_search client content :
  monotone (ContentParser.parse_content e re_search client content).
Proof.
  unfold ContentParser.parse_content, ContentParser.parse_with_llm, MonicaAIClient.complete.
  pose proof (fun c p => monotone_complete e c p 3 5).
  repeat monotone_step; done.
Qed.

Lemma monotone_execute_scraping e self competition_name u :
  monotone (WorkflowExecutor.execute_scraping e self competition_name u).
Proof.
  unfold WorkflowExecutor.execute_scraping. cbn zeta.
  pose proof (monotone_scrape_url e (WorkflowExecutor.scraper_settings self) u false).
  repeat monotone_step; done.
Qed.

Lemma monotone_execute_parsing e re_search self competition_name :
  monotone (WorkflowExecutor.execute_parsing e re_search self competition_name).
Proof.
  unfold WorkflowExecutor.execute_parsing, ContentParser.save_to_competition_dir,
    ContentParser.save_parsed_info. cbn zeta.
  pose proof (fun c => monotone_parse_content e re_search
                         (Some (WorkflowExecutor.llm_settings self)) c).
  repeat monotone_step; done.
Qed.

Lemma monotone_read_category e file_list :
  forall category_content, monotone (WorkflowExecutor.read_category e file_list category_content).
Proof.
  induction file_list as [|file_path rest IH]; intros category_content;
    cbn [WorkflowExecutor.read_category]; repeat monotone_step; apply IH.
Qed.

Lemma monotone_read_categories e cats :
  forall docs, monotone (WorkflowExecutor.read_categories e cats docs).
Proof.
  induction cats as [|[category file_list] rest IH]; intros docs;
    cbn [WorkflowExecutor.read_categories]; [apply monotone_ret|].
  apply monotone_bind; [apply monotone_read_category|]. intros cc. apply IH.
Qed.

Lemma monotone_execute_application_generation e self competition_name :
  monotone (WorkflowExecutor.execute_application_generation e self competition_name).
Proof.
  unfold WorkflowExecutor.execute_application_generation,
    WorkflowExecutor.load_prompt_template, WorkflowExecutor.load_reference_docs,
    WorkflowExecutor.construct_final_prompt, WorkflowExecutor.call_llm_for_application.
  cbn zeta.
  pose proof (fun p => monotone_complete e (WorkflowExecutor.llm_settings self) p 3 5).
  pose proof (monotone_read_categories e (WorkflowExecutor.reference_docs self)).
  repeat monotone_step; done.
Qed.

(** X20. Without the file of scraped content [execute_parsing] returns
    [False] at once. But for the two records that it logs, it has no effect:
    the language model is not asked, the rules are not run, and no file of
    the pipeline is read or written. *)
Theorem X20_parsing_without_scraped_content
    (e : env) (re_search : searcher) (self : WorkflowExecutor.t) (competition_name : string)
    (w : world) :
  files w !! scraped_content_path self competition_name = None ->
  WorkflowExecutor.execute_parsing e re_search self competition_name w = (Ok false, w).
Proof.
  intros Hmissing. unfold WorkflowExecutor.execute_parsing, try_except. cbn zeta.
  rewrite M_bind_unfold. unfold path_exists at 1.
  fold (scraped_content_path self competition_name). rewrite Hmissing.
  rewrite bool_decide_eq_false_2 by (by intros [? ?]). reflexivity.
Qed.

Lemma X20_nothing_scraped_witness :
  WorkflowExecutor.execute_parsing unreachable_env no_match example_workflow "Demo" empty_world
  = (Ok false, empty_world).
Proof.
  apply (X20_parsing_without_scraped_content unreachable_env no_match example_workflow "Demo"
           empty_world).
  reflexivity.
Defined.

Lemma parse_content_fallback e re_search client content w w1 v confidence info :
  ContentParser.parse_with_llm e client content w = (Ok v, w1) ->
  truthy v = false ->
  ContentParser.validate_parsed_data (ContentParser.parse_with_rules re_search content)
  = Ok confidence ->
  ContentParser._dict_to_parsed_info (ContentParser.parse_with_rules re_search content)
  = Ok info ->
  ContentParser.parse_content e re_search client content w
  = (Ok (ContentParser.with_metadata info (PFloat confidence) (PStr (env_now e (trace w1)))
           (PInt (Z.of_nat (String.length content)))),
     emit EvClock w1).
Proof.
  intros Hllm Hfalsy Hscore Hinfo.
  unfold ContentParser.parse_content. rewrite M_bind_unfold.
  assert (match client with
          | Some _ => ContentParser.parse_with_llm e client content
          | None => mret PNone
          end w = (Ok v, w1)) as ->.
  { destruct client; [done|]. exact Hllm. }
  cbn zeta. rewrite Hfalsy. cbn [negb].
  rewrite M_bind_unfold. unfold lift at 1.
  rewrite validate_parsed_data_of_dict, Hscore.
  rewrite M_bind_unfold. unfold lift at 1.
  cbn [ContentParser._dict_to_parsed_info_of]. rewrite Hinfo. reflexivity.
Qed.

(** X21. A language model that gives nothing usable does not fail the
    parsing stage. With the scraped content on disk and a file system that
    works, [execute_parsing] returns [True] and writes
    [parsed_competition_info.json] from what the rules found, with a
    confidence of 0.65 at most. *)
Theorem X21_parsing_succeeds_without_the_language_model
    (e : env) (re_search : searcher) (self : WorkflowExecutor.t) (competition_name : string)
    (w w1 : world) (content : string) (v : pyval) :
  files w !! scraped_content_path self competition_name = Some content ->
  (forall t, env_io_error e t = None) ->
  ContentParser.parse_with_llm e (Some (WorkflowExecutor.llm_settings self)) content
    (emit (EvRead (scraped_content_path self competition_name)) w) = (Ok v, w1) ->
  truthy v = false ->
  exists confidence info,
    ContentParser.validate_parsed_data (ContentParser.parse_with_rules re_search content)
    = Ok confidence
    /\ PrimFloat.leb confidence 0.65 = true
    /\ ContentParser._dict_to_parsed_info (ContentParser.parse_with_rules re_search content)
       = Ok info
    /\ WorkflowExecutor.execute_parsing e re_search self competition_name w
       = (Ok true,
          World (trace w1 ++
                   [EvClock;
                    EvMkdir (WorkflowExecutor.competition_info_dir self competition_name);
                    EvWrite (parsed_info_path self competition_name)])
            (heap w1)
            (<[parsed_info_path self competition_name :=
                 env_json_dumps e
                   (PDict (ContentParser.save_parsed_info_data
                             (ContentParser.with_metadata info (PFloat confidence)
                                (PStr (env_now e (trace w1)))
                                (PInt (Z.of_nat (String.length content))))))]>
               (files w1))).
Proof.
  intros Hcontent Hio Hllm Hfalsy.
  destruct (rules_scored re_search content)
    as (confidence & a4 & a5 & a8 & a11 & a12 & Hscore & Hbound & Hinfo).
  eexists confidence, _. split; [exact Hscore|]. split; [exact Hbound|].
  split; [exact Hinfo|].
  unfold WorkflowExecutor.execute_parsing, try_except. cbn zeta.
  rewrite M_bind_unfold. unfold path_exists at 1.
  fold (scraped_content_path self competition_name). rewrite Hcontent.
  rewrite bool_decide_eq_true_2 by eauto. cbn [negb].
  rewrite M_bind_unfold. unfold read_file at 1. rewrite Hcontent, Hio.
  rewrite M_bind_unfold.
  rewrite (parse_content_fallback _ _ _ _ _ _ _ _ _ Hllm Hfalsy Hscore Hinfo).
  rewrite M_bind_unfold.
  unfold ContentParser.save_to_competition_dir, ContentParser.save_parsed_info.
  cbn zeta. rewrite M_bind_unfold. unfold mkdir at 1. rewrite Hio.
  unfold write_file. rewrite Hio. cbn [trace heap files emit mret M_ret].
  unfold parsed_info_path, WorkflowExecutor.competition_info_dir.
  by rewrite <- !app_assoc.
Qed.

Lemma X21_unreachable_model_witness :
  exists confidence info,
    ContentParser.validate_parsed_data (ContentParser.parse_with_rules no_match "Apply now")
    = Ok confidence
    /\ PrimFloat.leb confidence 0.65 = true
    /\ ContentParser._dict_to_parsed_info (ContentParser.parse_with_rules no_match "Apply now")
       = Ok info
    /\ WorkflowExecutor.execute_parsing unreachable_env no_match example_workflow "Demo"
         world_with_content
       = (Ok true,
          World (trace
                   (ContentParser.parse_with_llm unreachable_env
                      (Some (WorkflowExecutor.llm_settings example_workflow)) "Apply now"
                      (emit (EvRead (scraped_content_path example_workflow "Demo"))
                         world_with_content)).2 ++
                   [EvClock;
                    EvMkdir (WorkflowExecutor.competition_info_dir example_workflow "Demo");
                    EvWrite (parsed_info_path example_workflow "Demo")])
            (heap
               (ContentParser.parse_with_llm unreachable_env
                  (Some (WorkflowExecutor.llm_settings example_workflow)) "Apply now"
                  (emit (EvRead (scraped_content_path example_workflow "Demo"))
                     world_with_content)).2)
            (<[parsed_info_path example_workflow "Demo" :=
                 env_json_dumps unreachable_env
                   (PDict (ContentParser.save_parsed_info_data
                             (ContentParser.with_metadata info (PFloat confidence)
                                (PStr (env_now unreachable_env
                                         (trace
                                            (ContentParser.parse_with_llm unreachable_env
                                               (Some (WorkflowExecutor.llm_settings
                                                        example_workflow))
                                               "Apply now"
                                               (emit
                                                  (EvRead (scraped_content_path
                                                             example_workflow "Demo"))
                                                  world_with_content)).2)))
                                (PInt (Z.of_nat (String.length "Apply now"))))))]>
               (files
                  (ContentParser.parse_with_llm unreachable_env
                     (Some (WorkflowExecutor.llm_settings example_workflow)) "Apply now"
                     (emit (EvRead (scraped_content_path example_workflow "Demo"))
                        world_with_content)).2))).
Proof.
  apply (X21_parsing_succeeds_without_the_language_model unreachable_env no_match
           example_workflow "Demo" world_with_content _ "Apply now" PNone).
  - vm_compute. reflexivity.
  - intros t. reflexivity.
  - vm_compute. reflexivity.
  - reflexivity.
Defined.

Lemma read_file_has_file e path w data w' :
  read_file e path w = (Ok data, w') -> has_file path w.
Proof.
  unfold read_file, has_file. destruct (files w !! path); [by eauto|done].
Qed.

Lemma scraping_leaves_content e self competition_name u w w' :
  WorkflowExecutor.execute_scraping e self competition_name u w = (Ok true, w') ->
  has_file (scraped_content_path self competition_name) w'.
Proof.
  unfold WorkflowExecutor.execute_scraping, try_except. cbn zeta.
  fold (scraped_content_path self competition_name).
  rewrite M_bind_unfold.
  destruct (mkdir e _ w) as [[[]|x] w0]; [|by intros [= <-]].
  rewrite M_bind_unfold.
  destruct (WebScraper.scrape_url e _ u false w0) as [[result|x] w1]; [|by intros [= <-]].
  rewrite M_bind_unfold.
  destruct (WebScraper.load result w1) as [[r|x] w2]; [|by intros [= <-]].
  destruct (negb (ScrapingResult.success r)); [by intros [= <-]|].
  rewrite M_bind_unfold.
  destruct (write_file e (scraped_content_path self competition_name) _ w2)
    as [[[]|x] w3] eqn:Hwrite; [|by intros [= <-]].
  apply write_file_has_file in Hwrite.
  rewrite M_bind_unfold.
  pose proof (monotone_write e
                (path_join (WorkflowExecutor.competition_info_dir self competition_name)
                   "scraping_metadata.json")
                (env_json_dumps e (WorkflowExecutor.scraping_metadata r)) w3) as Hkeep.
  destruct (write_file e _ _ w3) as [[[]|x] w4]; [|by intros [= <-]].
  intros [= <-]. by eapply keeps_has_file.
Qed.

Lemma parsing_leaves_info e re_search self competition_name w w' :
  WorkflowExecutor.execute_parsing e re_search self competition_name w = (Ok true, w') ->
  has_file (parsed_info_path self competition_name) w'
  /\ has_file (scraped_content_path self competition_name) w.
Proof.
  unfold WorkflowExecutor.execute_parsing, try_except. cbn zeta.
  fold (scraped_content_path self competition_name).
  rewrite M_bind_unfold. unfold path_exists at 1.
  destruct (bool_decide (is_Some (files w !! scraped_content_path self competition_name)))
    eqn:Hfound; [|by intros [= <-]].
  apply bool_decide_eq_true_1 in Hfound. cbn [negb].
  rewrite M_bind_unfold.
  destruct (read_file e _ w) as [[content|x] w0]; [|by intros [= <-]].
  rewrite M_bind_unfold.
  destruct (ContentParser.parse_content e re_search _ content w0) as [[parsed_info|x] w1];
    [|by intros [= <-]].
  rewrite M_bind_unfold.
  unfold ContentParser.save_to_competition_dir, ContentParser.save_parsed_info. cbn zeta.
  fold (WorkflowExecutor.competition_info_dir self competition_name).
  fold (parsed_info_path self competition_name).
  rewrite M_bind_unfold.
  destruct (mkdir e _ w1) as [[[]|x] w2]; [|by intros [= <-]].
  destruct (write_file e (parsed_info_path self competition_name) _ w2)
    as [[[]|x] w3] eqn:Hwrite; [|by intros [= <-]].
  apply write_file_has_file in Hwrite. intros [= <-]. by split.
Qed.

Lemma generation_leaves_application e self competition_name w w' :
  WorkflowExecutor.execute_application_generation e self competition_name w = (Ok true, w') ->
  has_file (WorkflowExecutor.application_path self competition_name) w'
  /\ has_file (WorkflowExecutor.prompt_template self) w.
Proof.
  unfold WorkflowExecutor.execute_application_generation, try_except.
  rewrite M_bind_unfold. unfold WorkflowExecutor.load_prompt_template at 1.
  destruct (read_file e _ w) as [[template|x] w0] eqn:Hread; [|by intros [= <-]].
  apply read_file_has_file in Hread.
  rewrite M_bind_unfold.
  destruct (WorkflowExecutor.load_reference_docs e self competition_name w0)
    as [[docs|x] w1]; [|by intros [= <-]].
  rewrite M_bind_unfold.
  destruct (WorkflowExecutor.construct_final_prompt e template docs competition_name w1)
    as [[final_prompt|x] w2]; [|by intros [= <-]].
  rewrite M_bind_unfold.
  destruct (WorkflowExecutor.call_llm_for_application e self final_prompt w2)
    as [[application_content|x] w3]; [|by intros [= <-]].
  rewrite M_bind_unfold.
  destruct (mkdir e _ w3) as [[[]|x] w4]; [|by intros [= <-]].
  rewrite M_bind_unfold.
  destruct application_content as [| | | |text| |].
  5:{ destruct (write_file e _ text w4) as [[[]|x] w5] eqn:Hwrite; [|by intros [= <-]].
      apply write_file_has_file in Hwrite. intros [= <-]. by split. }
  all: rewrite M_bind_unfold;
    destruct (write_file e _ EmptyString w4) as [[[]|x] w5]; by intros [= <-].
Qed.

Lemma try_except_total {A} (body : M A) (a : A) w :
  exists r w', try_except body (fun _ => Some (mret a)) w = (Ok r, w').
Proof. unfold try_except. destruct (body w) as [[?|?] ?]; eauto. Qed.

Ltac catches_all Hrun :=
  match type of Hrun with
  | try_except ?body _ ?w = _ =>
      let H := fresh in
      destruct (try_except_total body false w) as (? & ? & H);
      rewrite H in Hrun; discriminate Hrun
  end.

(** X22. No stage of the workflow raises, and a stage that returns [True]
    has left its file: [execute_scraping] the scraped content,
    [execute_parsing] the parsed information, which it can only do when the
    scraped content was there, and [execute_application_generation] the
    application, which it can only do when the prompt template was there. *)
Theorem X22_stage_that_succeeds_leaves_its_file
    (e : env) (re_search : searcher) (self : WorkflowExecutor.t)
    (competition_name target_url : string) (w : world) :
  (exists scraped w', WorkflowExecutor.execute_scraping e self competition_name target_url w
                      = (Ok scraped, w')
     /\ (scraped = true -> has_file (scraped_content_path self competition_name) w'))
  /\ (exists parsed w', WorkflowExecutor.execute_parsing e re_search self competition_name w
                        = (Ok parsed, w')
        /\ (parsed = true ->
            has_file (parsed_info_path self competition_name) w'
            /\ has_file (scraped_content_path self competition_name) w))
  /\ (exists generated w',
        WorkflowExecutor.execute_application_generation e self competition_name w
        = (Ok generated, w')
        /\ (generated = true ->
            has_file (WorkflowExecutor.application_path self competition_name) w'
            /\ has_file (WorkflowExecutor.prompt_template self) w)).
Proof.
  split; [|split].
  - destruct (WorkflowExecutor.execute_scraping e self competition_name target_url w)
      as [[scraped|x] w'] eqn:Hrun.
    + exists scraped, w'. split; [done|]. intros ->. by eapply scraping_leaves_content.
    + unfold WorkflowExecutor.execute_scraping in Hrun. catches_all Hrun.
  - destruct (WorkflowExecutor.execute_parsing e re_search self competition_name w)
      as [[parsed|x] w'] eqn:Hrun.
    + exists parsed, w'. split; [done|]. intros ->. by eapply parsing_leaves_info.
    + unfold WorkflowExecutor.execute_parsing in Hrun. catches_all Hrun.
  - destruct (WorkflowExecutor.execute_application_generation e self competition_name w)
      as [[generated|x] w'] eqn:Hrun.
    + exists generated, w'. split; [done|]. intros ->.
      by eapply generation_leaves_application.
    + unfold WorkflowExecutor.execute_application_generation in Hrun. catches_all Hrun.
Qed.

(** X23. A workflow that returns [True] was confirmed by the user and ran
    its three stages in order, each returning [True]; the scraped content,
    the parsed information and the application are on disk when it ends,
    and no file that was there before is gone. *)
Theorem X23_completed_workflow_has_its_three_files
    (e : env) (re_search : searcher) (self : WorkflowExecutor.t) (lines : list string)
    (w w' : world) :
  WorkflowExecutor.execute_complete_workflow e re_search self lines w
  = (Ok (WorkflowExecutor.Returned true), w') ->
  exists competition_name target_url w1 w2,
    WorkflowExecutor.get_user_inputs lines
    = WorkflowExecutor.Inputs competition_name target_url
    /\ WorkflowExecutor.execute_scraping e self competition_name target_url w = (Ok true, w1)
    /\ WorkflowExecutor.execute_parsing e re_search self competition_name w1 = (Ok true, w2)
    /\ WorkflowExecutor.execute_application_generation e self competition_name w2
       = (Ok true, w')
    /\ has_file (scraped_content_path self competition_name) w'
    /\ has_file (parsed_info_path self competition_name) w'
    /\ has_file (WorkflowExecutor.application_path self competition_name) w'
    /\ keeps_files w w'.
Proof.
  unfold WorkflowExecutor.execute_complete_workflow.
  destruct (WorkflowExecutor.get_user_inputs lines) as [competition_name target_url| |];
    [|done|done].
  unfold try_except. rewrite M_bind_unfold.
  pose proof (monotone_execute_scraping e self competition_name target_url w) as K1.
  destruct (WorkflowExecutor.execute_scraping e self competition_name target_url w)
    as [[[]|x] w1] eqn:H1; [|done|done].
  cbn [negb]. rewrite M_bind_unfold.
  pose proof (monotone_execute_parsing e re_search self competition_name w1) as K2.
  destruct (WorkflowExecutor.execute_parsing e re_search self competition_name w1)
    as [[[]|x] w2] eqn:H2; [|done|done].
  cbn [negb]. rewrite M_bind_unfold.
  pose proof (monotone_execute_application_generation e self competition_name w2) as K3.
  destruct (WorkflowExecutor.execute_application_generation e self competition_name w2)
    as [[[]|x] w3] eqn:H3; [|done|done].
  cbn [negb snd] in *. intros [= <-].
  exists competition_name, target_url, w1, w2.
  split; [done|]. split; [done|]. split; [done|]. split; [done|].
  apply scraping_leaves_content in H1. apply parsing_leaves_info in H2 as [H2 _].
  apply generation_leaves_application in H3 as [H3 _].
  split; [|split; [|split; [done|]]].
  - eapply keeps_has_file; [exact K3|]. by eapply keeps_has_file.
  - by eapply keeps_has_file.
  - eapply keeps_files_trans; [exact K1|]. by eapply keeps_files_trans.
Qed.

Lemma X23_short_page_witness :
  exists competition_name target_url w1 w2,
    WorkflowExecutor.get_user_inputs demo_answers
    = WorkflowExecutor.Inputs competition_name target_url
    /\ WorkflowExecutor.execute_scraping env_short_page example_workflow competition_name
         target_url world_with_template = (Ok true, w1)
    /\ WorkflowExecutor.execute_parsing env_short_page no_match example_workflow
         competition_name w1 = (Ok true, w2)
    /\ WorkflowExecutor.execute_application_generation env_short_page example_workflow
         competition_name w2
       = (Ok true,
          (WorkflowExecutor.execute_complete_workflow env_short_page no_match
             example_workflow demo_answers world_with_template).2)
    /\ has_file (scraped_content_path example_workflow competition_name)
         (WorkflowExecutor.execute_complete_workflow env_short_page no_match
            example_workflow demo_answers world_with_template).2
    /\ has_file (parsed_info_path example_workflow competition_name)
         (WorkflowExecutor.execute_complete_workflow env_short_page no_match
            example_workflow demo_answers world_with_template).2
    /\ has_file (WorkflowExecutor.application_path example_workflow competition_name)
         (WorkflowExecutor.execute_complete_workflow env_short_page no_match
            example_workflow demo_answers world_with_template).2
    /\ keeps_files world_with_template
         (WorkflowExecutor.execute_complete_workflow env_short_page no_match
            example_workflow demo_answers world_with_template).2.
Proof.
  apply (X23_completed_workflow_has_its_three_files env_short_page no_match example_workflow
           demo_answers world_with_template).
  vm_compute. reflexivity.
Defined.

(** X24. A user who does not confirm ends the workflow through
    [sys.exit(0)], and an input that runs out ends it with [False], which is
    logged as an error; in both cases no stage has run: no request, no
    fetch, no file of the pipeline read or written. The exit status of the
    process is 0 or 1, whatever happens, and a status of 0 does not tell a
    completed workflow from a declined one. *)
Theorem X24_exit_status_of_the_workflow
    (e : env) (re_search : searcher) (self : WorkflowExecutor.t) (lines : list string)
    (w : world) :
  (WorkflowExecutor.get_user_inputs lines = WorkflowExecutor.Cancelled ->
   WorkflowExecutor.execute_complete_workflow e re_search self lines w
   = (Ok (WorkflowExecutor.Exited 0), w)
   /\ run_workflow_main e re_search self lines w = (Ok 0%Z, w))
  /\ (WorkflowExecutor.get_user_inputs lines = WorkflowExecutor.EndOfInput ->
      WorkflowExecutor.execute_complete_workflow e re_search self lines w
      = (Ok (WorkflowExecutor.Returned false), w)
      /\ run_workflow_main e re_search self lines w = (Ok 1%Z, w))
  /\ exists status w',
       run_workflow_main e re_search self lines w = (Ok status, w')
       /\ (status = 0%Z \/ status = 1%Z)
       /\ (status = 0%Z ->
           WorkflowExecutor.get_user_inputs lines = WorkflowExecutor.Cancelled
           \/ WorkflowExecutor.execute_complete_workflow e re_search self lines w
              = (Ok (WorkflowExecutor.Returned true), w')).
Proof.
  split; [|split].
  - intros Hinputs. unfold run_workflow_main, try_except. rewrite M_bind_unfold.
    unfold WorkflowExecutor.execute_complete_workflow. by rewrite Hinputs.
  - intros Hinputs. unfold run_workflow_main, try_except. rewrite M_bind_unfold.
    unfold WorkflowExecutor.execute_complete_workflow. by rewrite Hinputs.
  - unfold run_workflow_main, try_except. rewrite M_bind_unfold.
    destruct (WorkflowExecutor.execute_complete_workflow e re_search self lines w)
      as [[[[]|status]|x] w'] eqn:Hrun; cbn [mret M_ret].
    + exists 0%Z, w'. split; [done|]. split; [by left|]. intros _. by right.
    + exists 1%Z, w'. split; [done|]. split; [by right|]. done.
    + revert Hrun. unfold WorkflowExecutor.execute_complete_workflow.
      destruct (WorkflowExecutor.get_user_inputs lines) as [competition_name target_url| |].
      * unfold try_except. rewrite M_bind_unfold.
        destruct (WorkflowExecutor.execute_scraping e self competition_name target_url w)
          as [[[]|?] w1]; [|done|done].
        cbn [negb]. rewrite M_bind_unfold.
        destruct (WorkflowExecutor.execute_parsing e re_search self competition_name w1)
          as [[[]|?] w2]; [|done|done].
        cbn [negb]. rewrite M_bind_unfold.
        by destruct (WorkflowExecutor.execute_application_generation e self
                       competition_name w2) as [[[]|?] w3].
      * intros [= <- <-]. exists 0%Z, w. split; [done|]. split; [by left|]. intros _. by left.
      * done.
    + exists 1%Z, w'. split; [done|]. split; [by right|]. done.
Qed.

Lemma X24_declined_witness :
  WorkflowExecutor.execute_complete_workflow unreachable_env no_match example_workflow
    declining_answers empty_world
  = (Ok (WorkflowExecutor.Exited 0), empty_world)
  /\ run_workflow_main unreachable_env no_match example_workflow declining_answers empty_world
     = (Ok 0%Z, empty_world).
Proof.
  apply (proj1 (X24_exit_status_of_the_workflow unreachable_env no_match example_workflow
                  declining_answers empty_world)).
  reflexivity.
Defined.

Lemma read_until_nonblank_spec lines x rest :
  WorkflowExecutor.read_until_nonblank lines = Some (x, rest) ->
  x <> ""
  /\ (exists line, line ∈ lines /\ x = py_strip line)
  /\ length rest < length lines.
Proof.
  induction lines as [|line lines IH]; [done|].
  cbn [WorkflowExecutor.read_until_nonblank]. cbn zeta.
  destruct (truthy (PStr (py_strip line))) eqn:Hline.
  - intros [= <- <-]. split; [by apply truthy_str|].
    split; [exists line; split; [left|done]|]. cbn. lia.
  - intros H. destruct (IH H) as (Hx & (l & Hl & ->) & Hlen).
    split; [done|]. split; [exists l; split; [by right|done]|]. cbn. lia.
Qed.

(** X25. What [get_user_inputs] hands over: a competition name that is not
    empty and is a line of the input, stripped; a URL that starts with
    [http://] or [https://], in lower case, being a stripped line of the
    input or such a line behind [https://]; at least three lines have been
    read, and the confirmation was [y] or [yes] in some casing. *)
Theorem X25_get_user_inputs_guarantees
    (lines : list string) (competition_name target_url : string) :
  WorkflowExecutor.get_user_inputs lines
  = WorkflowExecutor.Inputs competition_name target_url ->
  competition_name <> ""
  /\ (exists line, line ∈ lines /\ competition_name = py_strip line)
  /\ (String.prefix "http://" target_url = true \/ String.prefix "https://" target_url = true)
  /\ (exists line, line ∈ lines /\ py_strip line <> ""
        /\ (target_url = py_strip line \/ target_url = "https://" +:+ py_strip line))
  /\ (exists line, line ∈ lines
        /\ (py_lower (py_strip line) = "y" \/ py_lower (py_strip line) = "yes"))
  /\ 3 <= length lines.
Proof.
  unfold WorkflowExecutor.get_user_inputs.
  destruct (WorkflowExecutor.read_until_nonblank lines) as [[name rest]|] eqn:Hname; [|done].
  destruct (WorkflowExecutor.read_until_nonblank rest) as [[url rest']|] eqn:Hurl; [|done].
  destruct rest' as [|confirm rest'']; [done|]. cbn zeta.
  destruct (read_until_nonblank_spec _ _ _ Hname) as (Hn & (l1 & Hl1 & Hn1) & Hlen1).
  destruct (read_until_nonblank_spec _ _ _ Hurl) as (Hu & (l2 & Hl2 & Hu2) & Hlen2).
  assert (forall l, l ∈ rest -> l ∈ lines) as Hrest.
  { clear -Hname. revert Hname. induction lines as [|line lines IH]; [done|].
    cbn [WorkflowExecutor.read_until_nonblank]. cbn zeta.
    destruct (truthy (PStr (py_strip line))).
    - intros [= _ <-] l Hl. by right.
    - intros H l Hl. right. by apply IH. }
  assert (forall l, l ∈ confirm :: rest'' -> l ∈ rest) as Hrest'.
  { clear -Hurl. revert Hurl. induction rest as [|line rest IH]; [done|].
    cbn [WorkflowExecutor.read_until_nonblank]. cbn zeta.
    destruct (truthy (PStr (py_strip line))).
    - intros [= _ <-] l Hl. by right.
    - intros H l Hl. right. by apply IH. }
  destruct (negb _) eqn:Hconfirm; [done|].
  apply negb_false_iff, orb_true_iff in Hconfirm.
  intros [= <- <-]. split; [done|]. split; [by exists l1|]. split; [|split; [|split]].
  - destruct (String.prefix "http://" url || String.prefix "https://" url) eqn:Hprefix;
      cbn [negb].
    + by apply orb_true_iff in Hprefix.
    + right. apply (prefix_app "https://" url).
  - exists l2. split; [by apply Hrest|]. split; [by rewrite <- Hu2|].
    rewrite <- Hu2. destruct (negb _); [by right|by left].
  - exists confirm. split; [apply Hrest, Hrest'; left|].
    destruct Hconfirm as [H|H]; apply String.eqb_eq in H; [by left|by right].
  - cbn [length] in Hlen2. lia.
Qed.

Lemma X25_demo_answers_witness :
  "Demo" <> ""
  /\ (exists line, line ∈ demo_answers /\ "Demo" = py_strip line)
  /\ (String.prefix "http://" "https://example.com/" = true
      \/ String.prefix "https://" "https://example.com/" = true)
  /\ (exists line, line ∈ demo_answers /\ py_strip line <> ""
        /\ ("https://example.com/" = py_strip line
            \/ "https://example.com/" = "https://" +:+ py_strip line))
  /\ (exists line, line ∈ demo_answers
        /\ (py_lower (py_strip line) = "y" \/ py_lower (py_strip line) = "yes"))
  /\ 3 <= length demo_answers.
Proof.
  apply (X25_get_user_inputs_guarantees demo_answers "Demo" "https://example.com/").
  reflexivity.
Defined.

Lemma append_inj_r (a b c : string) : a +:+ b = a +:+ c -> b = c.
Proof.
  induction a as [|x a IH]; [done|].
  change (String x a +:+ ?t) with (String x (a +:+ t)). intros [= H]. by apply IH.
Qed.

Lemma path_join_inj dir a b : path_join dir a = path_join dir b -> a = b.
Proof. unfold path_join. intros H. by do 2 apply append_inj_r in H. Qed.

Lemma write_file_ok e path data w :
  (forall t, env_io_error e t = None) ->
  write_file e path data w
  = (Ok tt, World (trace w ++ [EvWrite path]) (heap w) (<[path := data]> (files w))).
Proof. intros Hio. unfold write_file. by rewrite Hio. Qed.

(** With a file system that works, [save_scraping_result] returns; the
    first two files hold the content, or its placeholder, and the metadata;
    the other two are written for a list that is not empty, and left as they
    are otherwise. *)
Lemma save_scraping_result_run e r dir w :
  (forall t, env_io_error e t = None) ->
  exists w',
    CompetitionScraper.save_scraping_result e r dir w = (Ok tt, w')
    /\ heap w' = heap w
    /\ files w' !! path_join dir "scraped_content.txt"
       = Some (WorkflowExecutor.content_or_placeholder (ScrapingResult.content r))
    /\ files w' !! path_join dir "scraping_metadata.json"
       = Some (env_json_dumps e (WorkflowExecutor.scraping_metadata r))
    /\ files w' !! path_join dir "extracted_links.json"
       = match ScrapingResult.links r with
         | Some (link :: links) => Some (CompetitionScraper.dump_strings e (link :: links))
         | _ => files w !! path_join dir "extracted_links.json"
         end
    /\ files w' !! path_join dir "extracted_images.json"
       = match ScrapingResult.images r with
         | Some (image :: images) =>
             Some (CompetitionScraper.dump_strings e (image :: images))
         | _ => files w !! path_join dir "extracted_images.json"
         end.
Proof.
  intros Hio. unfold CompetitionScraper.save_scraping_result.
  rewrite M_bind_unfold, write_file_ok by done.
  rewrite M_bind_unfold, write_file_ok by done.
  rewrite M_bind_unfold.
  assert (forall a b, a <> b -> path_join dir a <> path_join dir b) as Hne
    by (intros a b Hab H; by apply path_join_inj in H).
  destruct (ScrapingResult.links r) as [[|link links]|];
    destruct (ScrapingResult.images r) as [[|image images]|];
    cbn [mret M_ret]; rewrite ?write_file_ok by done;
    cbn [mret M_ret trace heap files];
    eexists; (split; [reflexivity|]); cbn [heap files];
    (split; [reflexivity|]);
    repeat split;
    repeat first [ rewrite lookup_insert_eq | rewrite lookup_insert_ne by (by apply Hne) ];
    reflexivity.
Qed.

(** X26. The two orchestrators differ on a failed scrape. Both return the
    [success] of the result that [scrape_url] hands them. With a file system
    that works, [WorkflowExecutor.execute_scraping] writes the content and
    the metadata of a successful result and nothing at all for a failed one,
    while [CompetitionScraper.execute_scraping] writes them in either case
    (the placeholder [No content extracted] standing for a missing content),
    and the lists of links and images when they are not empty. *)
Theorem X26_failed_scrape_is_saved_by_the_scraper_only
    (e : env) (scraper : CompetitionScraper.t) (self : WorkflowExecutor.t)
    (w w1 : world) (result : ref) (r : ScrapingResult.t) :
  (forall t, env_io_error e t = None) ->
  WorkflowExecutor.input_base self = CompetitionScraper.output_directory scraper ->
  WorkflowExecutor.scraper_settings self = CompetitionScraper.scraper_settings scraper ->
  let name := CompetitionScraper.competition_name scraper in
  let dir := WorkflowExecutor.competition_info_dir self name in
  WebScraper.scrape_url e (CompetitionScraper.scraper_settings scraper)
    (CompetitionScraper.target_url scraper) false (emit (EvMkdir dir) w) = (Ok result, w1) ->
  heap w1 !! result = Some r ->
  WorkflowExecutor.execute_scraping e self name (CompetitionScraper.target_url scraper) w
  = (Ok (ScrapingResult.success r),
     if ScrapingResult.success r
     then World (trace w1 ++ [EvWrite (path_join dir "scraped_content.txt");
                              EvWrite (path_join dir "scraping_metadata.json")])
            (heap w1)
            (<[path_join dir "scraping_metadata.json" :=
                 env_json_dumps e (WorkflowExecutor.scraping_metadata r)]>
               (<[path_join dir "scraped_content.txt" :=
                    WorkflowExecutor.content_or_placeholder (ScrapingResult.content r)]>
                  (files w1)))
     else w1)
  /\ exists w',
       CompetitionScraper.execute_scraping e scraper w = (Ok (ScrapingResult.success r), w')
       /\ files w' !! path_join dir "scraped_content.txt"
          = Some (WorkflowExecutor.content_or_placeholder (ScrapingResult.content r))
       /\ files w' !! path_join dir "scraping_metadata.json"
          = Some (env_json_dumps e (WorkflowExecutor.scraping_metadata r))
       /\ files w' !! path_join dir "extracted_links.json"
          = match ScrapingResult.links r with
            | Some (link :: links) =>
                Some (CompetitionScraper.dump_strings e (link :: links))
            | _ => files w1 !! path_join dir "extracted_links.json"
            end
       /\ files w' !! path_join dir "extracted_images.json"
          = match ScrapingResult.images r with
            | Some (image :: images) =>
                Some (CompetitionScraper.dump_strings e (image :: images))
            | _ => files w1 !! path_join dir "extracted_images.json"
            end.
Proof.
  intros Hio Hbase Hsettings name dir Hscrape Hr. subst name dir. split.
  - unfold WorkflowExecutor.execute_scraping, try_except. cbn zeta.
    rewrite M_bind_unfold. unfold mkdir at 1. rewrite Hio.
    rewrite M_bind_unfold, Hsettings, Hscrape.
    rewrite M_bind_unfold, (load_lookup _ _ _ Hr).
    destruct (ScrapingResult.success r); cbn [negb]; [|done].
    rewrite M_bind_unfold, write_file_ok by done.
    rewrite M_bind_unfold, write_file_ok by done.
    cbn [trace heap files mret M_ret]. by rewrite <- app_assoc.
  - unfold CompetitionScraper.execute_scraping, try_except.
    rewrite M_bind_unfold. unfold CompetitionScraper.get_output_directory at 1.
    cbn zeta. rewrite <- Hbase.
    fold (WorkflowExecutor.competition_info_dir self
            (CompetitionScraper.competition_name scraper)).
    rewrite M_bind_unfold. unfold mkdir at 1. rewrite Hio. cbn [mret M_ret].
    rewrite M_bind_unfold, Hscrape.
    rewrite M_bind_unfold, (load_lookup _ _ _ Hr).
    rewrite M_bind_unfold.
    destruct (save_scraping_result_run e r
                (WorkflowExecutor.competition_info_dir self
                   (CompetitionScraper.competition_name scraper)) w1 Hio)
      as (w' & -> & _ & Hcontent & Hmeta & Hlinks & Himages).
    exists w'. done.
Qed.

Lemma X26_unreachable_site_witness :
  WorkflowExecutor.execute_scraping unreachable_env example_workflow "Demo"
    "https://example.com/" empty_world
  = (Ok false,
     (WebScraper.scrape_url unreachable_env WebScraper.default_config "https://example.com/"
        false (emit (EvMkdir "input/Demo/competition_info") empty_world)).2)
  /\ exists w',
       CompetitionScraper.execute_scraping unreachable_env demo_scraper empty_world
       = (Ok false, w')
       /\ files w' !! "input/Demo/competition_info/scraped_content.txt"
          = Some "No content extracted"
       /\ files w' !! "input/Demo/competition_info/scraping_metadata.json"
          = Some (env_json_dumps unreachable_env
                    (WorkflowExecutor.scraping_metadata unreachable_result))
       /\ files w' !! "input/Demo/competition_info/extracted_links.json" = None
       /\ files w' !! "input/Demo/competition_info/extracted_images.json" = None.
Proof.
  apply (X26_failed_scrape_is_saved_by_the_scraper_only unreachable_env demo_scraper
           example_workflow empty_world
           (WebScraper.scrape_url unreachable_env WebScraper.default_config
              "https://example.com/" false
              (emit (EvMkdir "input/Demo/competition_info") empty_world)).2
           0 unreachable_result).
  - intros t. reflexivity.
  - reflexivity.
  - reflexivity.
  - vm_compute. reflexivity.
  - vm_compute. reflexivity.
Defined.

(* ------------------------------------------------------------------ *)
(** ** The generation stage: what fails it and what does not *)
(* ------------------------------------------------------------------ *)

Lemma bind_run {A B} (m : M A) (k : A -> M B) w a w1 :
  m w = (Ok a, w1) -> (m ≫= k) w = k a w1.
Proof. intros H. by rewrite M_bind_unfold, H. Qed.

Lemma bind_raise {A B} (m : M A) (k : A -> M B) w x w1 :
  m w = (Raise x, w1) -> (m ≫= k) w = (Raise x, w1).
Proof. intros H. by rewrite M_bind_unfold, H. Qed.

Lemma read_file_ok e path data w :
  (forall t, env_io_error e t = None) -> files w !! path = Some data ->
  read_file e path w = (Ok data, emit (EvRead path) w).
Proof. intros Hio Hdata. unfold read_file. by rewrite Hdata, Hio. Qed.

(** X27. The parsed information is loaded outside every [try] of
    [load_reference_docs]: when [parsed_competition_info.json] exists and is
    not valid JSON, [execute_application_generation] returns [False] after
    reading the template and that file, without a request to the language
    model and without writing anything. *)
Theorem X27_invalid_parsed_info_fails_the_generation
    (e : env) (self : WorkflowExecutor.t) (competition_name : string) (w : world)
    (template text : string) (x : exn) :
  (forall t, env_io_error e t = None) ->
  files w !! WorkflowExecutor.prompt_template self = Some template ->
  files w !! parsed_info_path self competition_name = Some text ->
  env_json_loads e text = Raise x ->
  WorkflowExecutor.execute_application_generation e self competition_name w
  = (Ok false,
     emit_all [EvRead (WorkflowExecutor.prompt_template self);
               EvRead (parsed_info_path self competition_name)] w).
Proof.
  intros Hio Htemplate Hparsed Hloads.
  assert (WorkflowExecutor.load_reference_docs e self competition_name
            (emit (EvRead (WorkflowExecutor.prompt_template self)) w)
          = (Raise x,
             emit_all [EvRead (WorkflowExecutor.prompt_template self);
                       EvRead (parsed_info_path self competition_name)] w)) as Hdocs.
  { unfold WorkflowExecutor.load_reference_docs. cbn zeta.
    fold (parsed_info_path self competition_name).
    erewrite bind_run.
    2:{ unfold path_exists. cbn [files emit]. rewrite Hparsed.
        by rewrite bool_decide_eq_true_2 by eauto. }
    apply bind_raise.
    erewrite bind_run by (by apply read_file_ok).
    apply bind_raise. unfold lift. rewrite Hloads.
    by rewrite !emit_emit_all, emit_all_emit_all. }
  unfold WorkflowExecutor.execute_application_generation, try_except.
  erewrite bind_run by (by apply read_file_ok).
  erewrite bind_raise by exact Hdocs. reflexivity.
Qed.

Lemma X27_truncated_json_witness :
  WorkflowExecutor.execute_application_generation env_invalid_json example_workflow "Demo"
    world_with_parsed_info
  = (Ok false,
     emit_all [EvRead (WorkflowExecutor.prompt_template example_workflow);
               EvRead (parsed_info_path example_workflow "Demo")] world_with_parsed_info).
Proof.
  apply (X27_invalid_parsed_info_fails_the_generation env_invalid_json example_workflow "Demo"
           world_with_parsed_info "Apply to {COMPETITION_NAME}." "{"
           (Exn JSONDecodeError "Expecting value")).
  - intros t. reflexivity.
  - vm_compute. reflexivity.
  - vm_compute. reflexivity.
  - reflexivity.
Defined.

(** X28. A content that the language model returns as a list or an object
    passes [call_llm_for_application], whose [len] it has; the write of the
    application then fails on it. With a file system that works,
    [execute_application_generation] returns [False] and leaves an empty
    application file behind. *)
Theorem X28_content_that_is_no_text_leaves_an_empty_application
    (e : env) (self : WorkflowExecutor.t) (competition_name : string)
    (w w0 w1 w2 w3 : world) (template final_prompt : string) (docs : list (string * pyval))
    (content : pyval) (n : nat) :
  (forall t, env_io_error e t = None) ->
  WorkflowExecutor.load_prompt_template e self w = (Ok template, w0) ->
  WorkflowExecutor.load_reference_docs e self competition_name w0 = (Ok docs, w1) ->
  WorkflowExecutor.construct_final_prompt e template docs competition_name w1
  = (Ok final_prompt, w2) ->
  MonicaClient.complete e (WorkflowExecutor.llm_settings self) final_prompt 3 5 w2
  = (Ok content, w3) ->
  is_str content = false ->
  py_len content = Ok n ->
  WorkflowExecutor.execute_application_generation e self competition_name w
  = (Ok false,
     World (trace w3 ++
              [EvMkdir (path_join (WorkflowExecutor.output_base self) competition_name);
               EvWrite (WorkflowExecutor.application_path self competition_name)])
       (heap w3)
       (<[WorkflowExecutor.application_path self competition_name := EmptyString]>
          (files w3))).
Proof.
  intros Hio Htemplate Hdocs Hprompt Hcomplete Hstr Hlen.
  assert (WorkflowExecutor.call_llm_for_application e self final_prompt w2
          = (Ok content, w3)) as Hcall.
  { unfold WorkflowExecutor.call_llm_for_application, try_except.
    erewrite bind_run by exact Hcomplete.
    erewrite bind_run by (unfold lift; by rewrite Hlen). reflexivity. }
  unfold WorkflowExecutor.execute_application_generation. unfold try_except at 1.
  erewrite bind_run by exact Htemplate. erewrite bind_run by exact Hdocs.
  erewrite bind_run by exact Hprompt. erewrite bind_run by exact Hcall.
  erewrite bind_run by (unfold mkdir; by rewrite Hio).
  assert (forall (k : unit -> M bool) w4,
            ((write_file e (WorkflowExecutor.application_path self competition_name)
                EmptyString;;
              raise (Exn TypeError "write() argument must be str")) ≫= k) w4
            = (Raise (Exn TypeError "write() argument must be str"),
               World (trace w4 ++
                        [EvWrite (WorkflowExecutor.application_path self competition_name)])
                 (heap w4)
                 (<[WorkflowExecutor.application_path self competition_name := EmptyString]>
                    (files w4)))) as Hwrite.
  { intros k w4. apply bind_raise. erewrite bind_run by (by apply write_file_ok). done. }
  destruct content as [| | | |text| |]; try done; rewrite Hwrite;
    cbn [trace heap files emit mret M_ret]; by rewrite <- app_assoc.
Qed.

Lemma X28_list_content_witness :
  WorkflowExecutor.execute_application_generation env_content_is_a_list example_workflow
    "Demo" world_with_template
  = (Ok false,
     World (trace (WorkflowExecutor.call_llm_for_application env_content_is_a_list
                     example_workflow
                     "Apply to Demo on 2025-01-01T00:00:00."
                     (emit_all [EvRead "prompt.md"; EvClock] world_with_template)).2 ++
              [EvMkdir (path_join (WorkflowExecutor.output_base example_workflow) "Demo");
               EvWrite (WorkflowExecutor.application_path example_workflow "Demo")])
       (heap (WorkflowExecutor.call_llm_for_application env_content_is_a_list
                example_workflow
                "Apply to Demo on 2025-01-01T00:00:00."
                (emit_all [EvRead "prompt.md"; EvClock] world_with_template)).2)
       (<[WorkflowExecutor.application_path example_workflow "Demo" := EmptyString]>
          (files (WorkflowExecutor.call_llm_for_application env_content_is_a_list
                    example_workflow
                    "Apply to Demo on 2025-01-01T00:00:00."
                    (emit_all [EvRead "prompt.md"; EvClock] world_with_template)).2))).
Proof.
  apply (X28_content_that_is_no_text_leaves_an_empty_application env_content_is_a_list
           example_workflow "Demo" world_with_template
           (emit_all [EvRead "prompt.md"] world_with_template)
           (emit_all [EvRead "prompt.md"] world_with_template)
           (emit_all [EvRead "prompt.md"; EvClock] world_with_template)
           _
           "Apply to {COMPETITION_NAME} on {TIMESTAMP}.{reference_data}"
           "Apply to Demo on 2025-01-01T00:00:00."
           [] (PList [PInt 1]) 1).
  - intros t. reflexivity.
  - vm_compute. reflexivity.
  - vm_compute. reflexivity.
  - vm_compute. reflexivity.
  - vm_compute. reflexivity.
  - reflexivity.
  - reflexivity.
Defined.

(** X29. [call_llm_for_application] never raises, and what it returns is
    fixed by the client: the content that [complete] returned, when that
    content has a length; otherwise the fallback document, which quotes the
    message of the exception (that of [complete], or the [TypeError] of
    [len] for a content that is a number or a truth value), the length of
    the prompt and the time. Either way the value is truthy, at most three
    requests were made, all with the prompt, and the fallback costs one
    more reading of the clock. *)
Theorem X29_call_llm_for_application_never_raises
    (e : env) (self : WorkflowExecutor.t) (prompt : string) (w : world) :
  let client := WorkflowExecutor.llm_settings self in
  let fallback x w1 :=
    (Ok (PStr (WorkflowExecutor.fallback_document (exn_msg x) (String.length prompt)
                 (env_now e (trace w1)))),
     emit EvClock w1) in
  (forall content w1 n,
      MonicaClient.complete e client prompt 3 5 w = (Ok content, w1) ->
      py_len content = Ok n ->
      WorkflowExecutor.call_llm_for_application e self prompt w = (Ok content, w1))
  /\ (forall content w1 x,
        MonicaClient.complete e client prompt 3 5 w = (Ok content, w1) ->
        py_len content = Raise x ->
        WorkflowExecutor.call_llm_for_application e self prompt w = fallback x w1)
  /\ (forall x w1,
        MonicaClient.complete e client prompt 3 5 w = (Raise x, w1) ->
        WorkflowExecutor.call_llm_for_application e self prompt w = fallback x w1)
  /\ (exists v evs,
        WorkflowExecutor.call_llm_for_application e self prompt w = (Ok v, emit_all evs w)
        /\ truthy v = true
        /\ count_events is_post evs <= 3
        /\ Forall (client_event client prompt) evs).
Proof.
  intros client fallback.
  assert (forall x w1,
    (now ← datetime_now_isoformat e;
     mret (PStr (WorkflowExecutor.fallback_document (exn_msg x) (String.length prompt) now)))
      w1
    = fallback x w1) as Hfallback.
  { intros x w1. rewrite M_bind_unfold. by unfold datetime_now_isoformat at 1. }
  assert (forall content w1 n,
      MonicaClient.complete e client prompt 3 5 w = (Ok content, w1) ->
      py_len content = Ok n ->
      WorkflowExecutor.call_llm_for_application e self prompt w = (Ok content, w1)) as H1.
  { intros content w1 n Hrun Hlen.
    unfold WorkflowExecutor.call_llm_for_application, try_except.
    erewrite bind_run by exact Hrun.
    erewrite bind_run by (unfold lift; by rewrite Hlen). reflexivity. }
  assert (forall content w1 x,
      MonicaClient.complete e client prompt 3 5 w = (Ok content, w1) ->
      py_len content = Raise x ->
      WorkflowExecutor.call_llm_for_application e self prompt w = fallback x w1) as H2.
  { intros content w1 x Hrun Hlen.
    unfold WorkflowExecutor.call_llm_for_application, try_except.
    erewrite bind_run by exact Hrun.
    erewrite bind_raise by (unfold lift; by rewrite Hlen). apply Hfallback. }
  assert (forall x w1,
      MonicaClient.complete e client prompt 3 5 w = (Raise x, w1) ->
      WorkflowExecutor.call_llm_for_application e self prompt w = fallback x w1) as H3.
  { intros x w1 Hrun.
    unfold WorkflowExecutor.call_llm_for_application, try_except.
    erewrite bind_raise by exact Hrun. apply Hfallback. }
  split; [exact H1|]. split; [exact H2|]. split; [exact H3|].
  destruct (complete_run e client prompt 3 5 w ltac:(lia))
    as (r & evs & Hrun & Hposts & Hevs & Htruthy).
  assert (count_events is_post (evs ++ [EvClock]) <= 3) as Hposts'.
  { rewrite count_events_app. cbn. lia. }
  assert (Forall (client_event client prompt) (evs ++ [EvClock])) as Hevs'.
  { apply Forall_app. split; [done|]. apply Forall_singleton, client_event_clock. }
  assert (forall x, fallback x (emit_all evs w)
                    = (Ok (PStr (WorkflowExecutor.fallback_document (exn_msg x)
                                   (String.length prompt) (env_now e (trace w ++ evs)))),
                       emit_all (evs ++ [EvClock]) w)) as Hshape.
  { intros x. subst fallback. cbn beta.
    by rewrite emit_emit_all, emit_all_emit_all, trace_emit_all. }
  destruct r as [content|x].
  - destruct (py_len content) as [n|x] eqn:Hlen.
    + exists content, evs. split; [by eapply H1|]. split; [by apply Htruthy|]. done.
    + eexists _, _. split; [rewrite (H2 _ _ _ Hrun Hlen); apply Hshape|]. done.
  - eexists _, _. split; [rewrite (H3 _ _ Hrun); apply Hshape|]. done.
Qed.

(** A model that answers with the number 5 where a text is expected: the
    client returns it, [len] raises on it, and the application is the
    fallback document with the message of that [TypeError]. *)
Lemma X29_number_content_witness :
  WorkflowExecutor.call_llm_for_application (env_answering (response_with_value (PInt 5)))
    example_workflow "hello" empty_world
  = (Ok (PStr (WorkflowExecutor.fallback_document "object of type 'int' has no len()" 5
                 "2025-01-01T00:00:00")),
     emit_all [EvClock; EvPost (MonicaClient.endpoint example_client) "hello"; EvClock;
               EvClock] empty_world).
Proof.
  rewrite (proj1 (proj2 (X29_call_llm_for_application_never_raises
                           (env_answering (response_with_value (PInt 5)))
                           example_workflow "hello" empty_world))
             (PInt 5)
             (emit_all [EvClock; EvPost (MonicaClient.endpoint example_client) "hello";
                        EvClock] empty_world)
             (Exn TypeError "object of type 'int' has no len()"));
    [reflexivity | vm_compute; reflexivity | reflexivity].
Defined.

Lemma py_replace_go_absent old new s :
  str_contains old s = false -> py_replace_go old new s 0 = s.
Proof.
  induction s as [|c s IH]; [done|].
  rewrite str_contains_cons. intros [Hprefix Hrest]%orb_false_iff.
  cbn [py_replace_go]. rewrite Hprefix. f_equal. by apply IH.
Qed.

Lemma py_replace_absent s old new : str_contains old s = false -> py_replace s old new = s.
Proof. apply py_replace_go_absent. Qed.

(** X30. A template that holds none of the four placeholders comes back
    from [construct_final_prompt] as it is, whatever the competition and the
    reference documents are: only the clock is read, and nothing of the
    documents reaches the prompt. *)
Theorem X30_template_without_placeholders_is_kept
    (e : env) (template : string) (docs : list (string * pyval)) (competition_name : string)
    (w : world) :
  str_contains "{COMPETITION_NAME}" template = false ->
  str_contains "{TIMESTAMP}" template = false ->
  str_contains "{reference_data}" template = false ->
  str_contains "{history_data}" template = false ->
  WorkflowExecutor.construct_final_prompt e template docs competition_name w
  = (Ok template, emit EvClock w).
Proof.
  intros Hname Htime Hdata Hhistory.
  unfold WorkflowExecutor.construct_final_prompt. cbn zeta.
  rewrite M_bind_unfold. unfold datetime_now_isoformat at 1. cbn [mret M_ret].
  rewrite (py_replace_absent template "{COMPETITION_NAME}") by done.
  rewrite (py_replace_absent template "{TIMESTAMP}") by done.
  rewrite (py_replace_absent template "{reference_data}") by done.
  rewrite (py_replace_absent template "{history_data}") by done.
  reflexivity.
Qed.

Lemma X30_plain_template_witness :
  WorkflowExecutor.construct_final_prompt unreachable_env "Write an application."
    [("scraped_content", PStr "Apply now")] "Demo" empty_world
  = (Ok "Write an application.", emit EvClock empty_world).
Proof.
  apply (X30_template_without_placeholders_is_kept unreachable_env "Write an application."
           [("scraped_content", PStr "Apply now")] "Demo" empty_world).
  - reflexivity.
  - reflexivity.
  - reflexivity.
  - reflexivity.
Defined.
